(** * aws_resource_discovery: the graph projection engine, embedded in Rocq

    A shallow embedding of the parts of [graph/neo4j_client.py],
    [core/base_service.py] and [core/resource_info.py] that decide how
    discovered resources are keyed, flattened, classified and linked, and
    of the discovery loop of the services, the statistics of
    [core/discovery_engine.py], the filters of [core/config.py] and
    [core/resource_config.py], and the statistics and file names of the
    exporters.

    Python [str] values are embedded as [string]; a character is the code
    point 0..255 it stands for.  Python dictionaries keep insertion order,
    so they are association lists with unique keys, written through
    [dict_set].  Calls on the graph session are recorded as the list of
    write operations they issue. *)

From Stdlib Require Import Strings.String Strings.Ascii Lists.List Bool.Bool.
From Stdlib Require Import ZArith.ZArith Arith.Arith Lia.
From Stdlib Require Import Numbers.DecimalString.
From Stdlib Require Import Sorting.Permutation.
From Stdlib Require Numbers.DecimalNat.
Import ListNotations.

Set Warnings "-register-all".

Local Open Scope string_scope.
Local Open Scope list_scope.

(** ** Python string primitives *)

Module PyStr.

(** Truth value of a string: [bool(s)]. *)
Definition truthy (s : string) : bool := negb (s =? "").

Definition code (c : ascii) : nat := nat_of_ascii c.

(** [str.lower] on one character of the Latin-1 range: [A-Z] and the
    accented capitals 0xC0..0xDE (the multiplication sign 0xD7 apart). *)
Definition lower_char (c : ascii) : ascii :=
  let n := code c in
  if (((65 <=? n) && (n <=? 90))
      || ((192 <=? n) && (n <=? 222) && negb (n =? 215)))%nat
  then ascii_of_nat (n + 32)
  else c.

Fixpoint lower (s : string) : string :=
  match s with
  | EmptyString => EmptyString
  | String c t => String (lower_char c) (lower t)
  end.

(** [s.startswith(p)]. *)
Fixpoint startswith (s p : string) {struct p} : bool :=
  match p with
  | EmptyString => true
  | String a p' =>
      match s with
      | EmptyString => false
      | String b s' => (a =? b)%char && startswith s' p'
      end
  end.

(** [sub in s]: [sub] occurs in [s] as a substring. *)
Fixpoint contains (sub s : string) : bool :=
  if startswith s sub then true
  else match s with
       | EmptyString => false
       | String _ t => contains sub t
       end.

(** [str.isspace] on one character of the Latin-1 range. *)
Definition is_space (c : ascii) : bool :=
  let n := code c in
  (((9 <=? n) && (n <=? 13)) || ((28 <=? n) && (n <=? 32))
   || (n =? 133) || (n =? 160))%nat.

Fixpoint lstrip (s : string) : string :=
  match s with
  | EmptyString => EmptyString
  | String c t => if is_space c then lstrip t else s
  end.

Fixpoint rstrip (s : string) : string :=
  match s with
  | EmptyString => EmptyString
  | String c t =>
      let t' := rstrip t in
      if is_space c && (t' =? "") then EmptyString else String c t'
  end.

(** [s.strip()]. *)
Definition strip (s : string) : string := rstrip (lstrip s).

(** [s.split(sep)] for a non-empty separator: the leftmost occurrences of
    [sep], without overlap.  [skip] counts the characters of a separator
    still to be passed over, [cur] is the component being collected. *)
Fixpoint split_from (sep s : string) (skip : nat) (cur : string)
  : list string :=
  match s with
  | EmptyString => [cur]
  | String c t =>
      match skip with
      | S k => split_from sep t k cur
      | O =>
          if startswith s sep
          then cur :: split_from sep t (String.length sep - 1) ""
          else split_from sep t 0 (cur ++ String c "")%string
      end
  end.

Definition split (s sep : string) : list string := split_from sep s 0 "".

(** [str(n)] for a natural number and for an integer. *)
Definition str_of_nat (n : nat) : string :=
  NilZero.string_of_uint (Nat.to_uint n).

Definition str_of_Z (z : Z) : string :=
  NilZero.string_of_int (Z.to_int z).

End PyStr.

Import PyStr.

(** ** Python values and dictionaries *)

(** A value found in a resource's properties.  [VFloat] carries the float's
    [repr]; [VOther] is any object outside JSON (a [datetime], say), carried
    by its [str()].  A [VDict] is in insertion order. *)
Inductive value : Type :=
| VNone
| VBool (b : bool)
| VInt (z : Z)
| VFloat (repr : string)
| VStr (s : string)
| VList (l : list value)
| VDict (d : list (string * value))
| VOther (str : string).

(** Induction on values that reaches into lists and dictionaries. *)
Section ValueInduction.

Variable P : value -> Prop.
Hypothesis HNone : P VNone.
Hypothesis HBool : forall b, P (VBool b).
Hypothesis HInt : forall z, P (VInt z).
Hypothesis HFloat : forall r, P (VFloat r).
Hypothesis HStr : forall s, P (VStr s).
Hypothesis HList : forall l, Forall P l -> P (VList l).
Hypothesis HDict : forall d, Forall (fun kv => P (snd kv)) d -> P (VDict d).
Hypothesis HOther : forall s, P (VOther s).

Fixpoint value_ind_nested (v : value) : P v :=
  match v with
  | VNone => HNone
  | VBool b => HBool b
  | VInt z => HInt z
  | VFloat r => HFloat r
  | VStr s => HStr s
  | VList l =>
      HList l
        ((fix go (l : list value) : Forall P l :=
            match l with
            | [] => Forall_nil P
            | x :: rest => Forall_cons x (value_ind_nested x) (go rest)
            end) l)
  | VDict d =>
      HDict d
        ((fix go (d : list (string * value))
            : Forall (fun kv => P (snd kv)) d :=
            match d with
            | [] => Forall_nil _
            | kv :: rest =>
                Forall_cons (P := fun kv => P (snd kv)) kv
                  (value_ind_nested (snd kv)) (go rest)
            end) d)
  | VOther s => HOther s
  end.

End ValueInduction.

(** A dictionary with string keys, in insertion order. *)
Definition pydict (A : Type) : Type := list (string * A).

(** [d.get(k)]. *)
Fixpoint dict_get {A : Type} (k : string) (d : pydict A) : option A :=
  match d with
  | [] => None
  | (k', v) :: rest => if (k' =? k)%string then Some v else dict_get k rest
  end.

(** [k in d]. *)
Definition dict_mem {A : Type} (k : string) (d : pydict A) : bool :=
  match dict_get k d with Some _ => true | None => false end.

(** [d[k] = v]: an existing key keeps its place, a new one goes last. *)
Fixpoint dict_set {A : Type} (k : string) (v : A) (d : pydict A) : pydict A :=
  match d with
  | [] => [(k, v)]
  | (k', v') :: rest =>
      if (k' =? k)%string then (k, v) :: rest else (k', v') :: dict_set k v rest
  end.

(** [d.update(e)]. *)
Definition dict_update {A : Type} (d e : pydict A) : pydict A :=
  fold_left (fun acc kv => dict_set (fst kv) (snd kv) acc) e d.

(** The dictionary a literal [{k1: v1, ...}] builds. *)
Definition dict_of {A : Type} (kvs : list (string * A)) : pydict A :=
  dict_update [] kvs.

Definition dict_keys {A : Type} (d : pydict A) : list string := map fst d.

(** [d.get(k, '')] where the values are strings. *)
Definition get_str (k : string) (d : pydict string) : string :=
  match dict_get k d with Some s => s | None => "" end.

(** Membership of a string in a list or set literal. *)
Definition str_in (s : string) (l : list string) : bool :=
  existsb (fun x => (x =? s)%string) l.

(** ** core/resource_info.py *)

Record ResourceInfo : Type := mkResourceInfo {
  resource_type : string;
  identifier : string;
  arn : string;
  properties : pydict value;
  service : string;
  region : string;
  error : string
}.

(** [__post_init__]: the service is the second component of the resource
    type, in lower case, whenever the type has a ["::"]. *)
Definition post_init_service (rtype svc : string) : string :=
  if contains "::" rtype then lower (nth 1 (split rtype "::") "") else svc.

(** The constructor call [ResourceInfo(resource_type=..., identifier=...,
    arn=..., properties=..., region=..., error=...)]; [service] keeps its
    default. *)
Definition new_resource (rtype ident a : string) (props : pydict value)
  (reg err : string) : ResourceInfo :=
  mkResourceInfo rtype ident a props (post_init_service rtype "") reg err.

Definition has_error (r : ResourceInfo) : bool := truthy (error r).

Definition is_valid (r : ResourceInfo) : bool :=
  truthy (identifier r) && negb (has_error r).

(** ** json.dumps *)

Module Json.

Local Open Scope string_scope.

Definition dq : string := String "034"%char "".
Definition bs : string := String "092"%char "".

Definition hex_digit (n : nat) : ascii :=
  if (n <? 10)%nat then ascii_of_nat (48 + n) else ascii_of_nat (87 + n).

(** One character under [ensure_ascii]: the two-character escapes, and
    [\u00xx] for everything else outside the printable range. *)
Definition escape_char (c : ascii) : string :=
  let n := code c in
  if (n =? 34)%nat then bs ++ dq
  else if (n =? 92)%nat then bs ++ bs
  else if (n =? 10)%nat then bs ++ "n"
  else if (n =? 13)%nat then bs ++ "r"
  else if (n =? 9)%nat then bs ++ "t"
  else if (n =? 8)%nat then bs ++ "b"
  else if (n =? 12)%nat then bs ++ "f"
  else if ((32 <=? n) && (n <=? 126))%nat then String c ""
  else bs ++ "u00"
       ++ String (hex_digit (n / 16)) (String (hex_digit (n mod 16)) "").

Fixpoint escape (s : string) : string :=
  match s with
  | EmptyString => ""
  | String c t => escape_char c ++ escape t
  end.

Definition quote (s : string) : string := dq ++ escape s ++ dq.

Definition float_text (repr : string) : string :=
  if (repr =? "nan")%string then "NaN"
  else if (repr =? "inf")%string then "Infinity"
  else if (repr =? "-inf")%string then "-Infinity"
  else repr.

(** Elements joined by [", "]. *)
Fixpoint join_comma (parts : list string) : string :=
  match parts with
  | [] => ""
  | [p] => p
  | p :: rest => p ++ ", " ++ join_comma rest
  end.

(** [json.dumps(v)] with the default options; [None] is the [TypeError]
    raised on an object that is not JSON serializable. *)
Fixpoint dumps (v : value) : option string :=
  match v with
  | VNone => Some "null"
  | VBool true => Some "true"
  | VBool false => Some "false"
  | VInt z => Some (str_of_Z z)
  | VFloat r => Some (float_text r)
  | VStr s => Some (quote s)
  | VList l =>
      match
        (fix elems (l : list value) : option (list string) :=
           match l with
           | [] => Some []
           | x :: rest =>
               match dumps x, elems rest with
               | Some sx, Some srest => Some (sx :: srest)%list
               | _, _ => None
               end
           end) l
      with
      | Some parts => Some ("[" ++ join_comma parts ++ "]")
      | None => None
      end
  | VDict d =>
      match
        (fix items (d : list (string * value)) : option (list string) :=
           match d with
           | [] => Some []
           | (k, x) :: rest =>
               match dumps x, items rest with
               | Some sx, Some srest => Some ((quote k ++ ": " ++ sx) :: srest)
               | _, _ => None
               end
           end) d
      with
      | Some parts => Some ("{" ++ join_comma parts ++ "}")
      | None => None
      end
  | VOther _ => None
  end.

End Json.

(** ** graph/neo4j_client.py: node identity and properties *)

(** The writes issued on the graph session, one constructor per query
    template of the client; the labels are the ones interpolated into the
    query text. *)
Inductive write : Type :=
| MergeNode (label key_name key_value : string) (props : pydict value)
| MergeOwns (account_id label key_name key_value : string)
| MergeUsage (source_label source_arn target_label target_arn rel_type : string)
| MergeRouteRule (route_arn : string) (props : pydict string)
| MergeOwnsRoute (account_id route_arn : string)
| MergeHasRoute (route_table_arn route_arn : string)
| MergeRoutesTo (route_arn : option string) (target_label target_arn : string)
| MergePeering (source_account_id target_account_id pcx_id
                accepter_vpc_id requester_vpc_id status : string).

Definition _extract_node_type (rtype : string) : string :=
  if negb (startswith rtype "AWS::") then "UnknownResource"
  else
    let parts := split rtype "::" in
    if (3 <=? length parts)%nat then nth 2 parts "" else "UnknownResource".

Definition global_services : list string :=
  ["iam"; "organizations"; "route53"; "waf"; "wafv2"; "artifacts";
   "controltower"].

Definition _is_global_service (svc : string) : bool :=
  str_in (lower svc) global_services.

(** The key [flatten_dict] writes for [key] under [prefix]. *)
Definition new_key (prefix key : string) : string :=
  if truthy prefix then (prefix ++ "_" ++ key)%string else key.

(** One iteration of the loop of [flatten_dict]: the entry [key: v] met
    under [prefix], with the dictionary [flattened] built so far.  [None] is
    the exception [json.dumps] raises. *)
Fixpoint flatten_item (prefix key : string) (v : value)
  (flattened : pydict value) {struct v} : option (pydict value) :=
  let nk := new_key prefix key in
  match v with
  | VDict d =>
      (fix loop (obj : list (string * value)) (fl : pydict value)
         : option (pydict value) :=
         match obj with
         | [] => Some fl
         | (k, x) :: rest =>
             match flatten_item nk k x fl with
             | Some fl' => loop rest fl'
             | None => None
             end
         end) d flattened
  | VList [] => Some (dict_set nk (VStr "[]") flattened)
  | VList (_ :: _) =>
      match Json.dumps v with
      | Some s => Some (dict_set nk (VStr s) flattened)
      | None => None
      end
  | VStr _ | VInt _ | VFloat _ | VBool _ => Some (dict_set nk v flattened)
  | VNone => Some (dict_set nk (VStr "") flattened)
  | VOther s => Some (dict_set nk (VStr s) flattened)
  end.

Fixpoint flatten_dict (obj : pydict value) (prefix : string)
  (flattened : pydict value) : option (pydict value) :=
  match obj with
  | [] => Some flattened
  | (k, x) :: rest =>
      match flatten_item prefix k x flattened with
      | Some fl' => flatten_dict rest prefix fl'
      | None => None
      end
  end.

Definition _flatten_properties (props : pydict value)
  : option (pydict value) :=
  flatten_dict props "" [].

(** [self._account_id], [None] until the account node is created. *)
Definition account := option string.

(** The account id as an f-string prints it, and as a node property. *)
Definition account_text (a : account) : string :=
  match a with Some s => s | None => "None" end.

Definition account_value (a : account) : value :=
  match a with Some s => VStr s | None => VNone end.

Definition account_truthy (a : account) : bool :=
  match a with Some s => truthy s | None => false end.

(** [self._account_id or "unknown"]. *)
Definition _get_account_id (a : account) : string :=
  match a with
  | Some s => if truthy s then s else "unknown"
  | None => "unknown"
  end.

(** The properties of the node before the flattened ones are merged in. *)
Definition base_node_props (a : account) (r : ResourceInfo) : pydict value :=
  let node_props :=
    dict_of [("aws_resource_type", VStr (resource_type r));
             ("identifier", VStr (identifier r));
             ("arn", VStr (arn r));
             ("service", VStr (service r));
             ("account_id", account_value a);
             ("updated_at", VStr "datetime()")] in
  if negb (_is_global_service (service r))
  then dict_set "region" (VStr (region r)) node_props
  else node_props.

Definition composite_id (a : account) (r : ResourceInfo) : string :=
  let region_part :=
    if negb (_is_global_service (service r)) then region r else "global" in
  (identifier r ++ ":" ++ account_text a ++ ":" ++ region_part ++ ":"
   ++ resource_type r)%string.

(** The [MERGE] key: its property name and its value. *)
Definition unique_key_value (a : account) (r : ResourceInfo)
  : string * string :=
  if truthy (arn r) && truthy (strip (arn r))
  then ("arn", arn r)
  else ("composite_id", composite_id a r).

(** The properties, as written by [SET r += $props]. *)
Definition node_props_of (a : account) (r : ResourceInfo)
  : option (pydict value) :=
  match _flatten_properties (properties r) with
  | None => None
  | Some flattened_props =>
      let node_props := dict_update (base_node_props a r) flattened_props in
      if truthy (arn r) && truthy (strip (arn r))
      then Some node_props
      else Some (dict_set "composite_id" (VStr (composite_id a r)) node_props)
  end.

(** [_create_resource_node] with [_create_account_relationship]: the node
    upsert, then the ownership edge when an account is set.  An exception
    (the flattening failed) is caught and nothing is written. *)
Definition _create_resource_node (a : account) (r : ResourceInfo)
  : list write :=
  let node_type := _extract_node_type (resource_type r) in
  match node_props_of a r with
  | None => []
  | Some node_props =>
      let '(unique_key, unique_value) := unique_key_value a r in
      MergeNode node_type unique_key unique_value node_props
      :: (if account_truthy a
          then [MergeOwns (account_text a) node_type unique_key unique_value]
          else [])
  end.

(** ** graph/neo4j_client.py: relationship inference *)

Definition _determine_usage_relationship (source target : ResourceInfo)
  (path key : string) : string :=
  let key_lower := lower key in
  let path_lower := lower path in
  let target_type := resource_type target in
  if contains "log" key_lower || contains "logging" path_lower
  then "LOGS_TO"
  else if contains "vpc" key_lower && contains "VPC" target_type
  then "DEPLOYED_IN"
  else if contains "subnet" key_lower && contains "Subnet" target_type
  then "DEPLOYED_IN"
  else if contains "securitygroup" key_lower || contains "groupid" key_lower
  then "PROTECTED_BY"
  else if contains "role" key_lower && contains "Role" target_type
  then "ASSUMES"
  else if contains "policy" key_lower && contains "Policy" target_type
  then "HAS_POLICY"
  else if contains "volume" key_lower && contains "Volume" target_type
  then "USES_VOLUME"
  else if contains "snapshot" key_lower && contains "Snapshot" target_type
  then "CREATED_FROM"
  else if contains "route" key_lower || contains "gateway" key_lower
  then "ROUTES_THROUGH"
  else if contains "loadbalancer" key_lower
          || contains "targetgroup" key_lower
  then "LOAD_BALANCED_BY"
  else if contains "db" key_lower
          && existsb (fun db => contains db target_type)
               ["DB"; "Database"; "RDS"]
  then "CONNECTS_TO"
  else "USES".

(** The first two mappings [_create_resource_relationships] builds over the
    resources without error: by ARN, and by identifier. *)
Definition build_arn_to_resource (resources : list ResourceInfo)
  : pydict ResourceInfo :=
  fold_left
    (fun acc r =>
       if has_error r then acc
       else if truthy (arn r) then dict_set (arn r) r acc else acc)
    resources [].

Definition build_id_to_resources (resources : list ResourceInfo)
  : pydict (list ResourceInfo) :=
  fold_left
    (fun acc r =>
       if has_error r then acc
       else if truthy (identifier r)
       then
         match dict_get (identifier r) acc with
         | Some rs => dict_set (identifier r) (rs ++ [r]) acc
         | None => dict_set (identifier r) [r] acc
         end
       else acc)
    resources [].

(** [f"{path}.{key}" if path else key] and [f"{path}[{i}]" if path else
    f"[{i}]"]. *)
Definition path_key (path key : string) : string :=
  if truthy path then (path ++ "." ++ key)%string else key.

Definition path_index (path : string) (i : nat) : string :=
  if truthy path then (path ++ "[" ++ str_of_nat i ++ "]")%string
  else ("[" ++ str_of_nat i ++ "]")%string.

(** The nested [search_arns] of [_find_arn_references]: the relationships
    it appends, in order. *)
Fixpoint search_arns (resource : ResourceInfo)
  (arn_to_resource : pydict ResourceInfo) (obj : value) (path : string)
  {struct obj} : list (string * ResourceInfo) :=
  match obj with
  | VDict d =>
      (fix items (d : list (string * value)) : list (string * ResourceInfo) :=
         match d with
         | [] => []
         | (key, v) :: rest =>
             let current_path := path_key path key in
             (match v with
              | VStr s =>
                  if startswith s "arn:aws:"
                  then
                    match dict_get s arn_to_resource with
                    | Some target_resource =>
                        [(_determine_usage_relationship resource
                            target_resource current_path key,
                          target_resource)]
                    | None => []
                    end
                  else []
              | VDict _ | VList _ =>
                  search_arns resource arn_to_resource v current_path
              | _ => []
              end) ++ items rest
         end) d
  | VList l =>
      (fix elems (l : list value) (i : nat) : list (string * ResourceInfo) :=
         match l with
         | [] => []
         | item :: rest =>
             search_arns resource arn_to_resource item (path_index path i)
             ++ elems rest (S i)
         end) l 0%nat
  | _ => []
  end.

Definition _find_arn_references (resource : ResourceInfo)
  (arn_to_resource : pydict ResourceInfo) : list (string * ResourceInfo) :=
  search_arns resource arn_to_resource (VDict (properties resource)) "".

(** The targets one identifier hit contributes: every resource of that
    identifier whose ARN differs from the source's. *)
Definition id_hits (resource : ResourceInfo) (targets : list ResourceInfo)
  (path key : string) : list (string * ResourceInfo) :=
  flat_map
    (fun target_resource =>
       if negb (arn target_resource =? arn resource)%string
       then [(_determine_usage_relationship resource target_resource path key,
              target_resource)]
       else [])
    targets.

(** The nested [search_ids] of [_find_id_references]. *)
Fixpoint search_ids (resource : ResourceInfo)
  (id_to_resources : pydict (list ResourceInfo)) (obj : value)
  (path : string) {struct obj} : list (string * ResourceInfo) :=
  match obj with
  | VDict d =>
      (fix items (d : list (string * value)) : list (string * ResourceInfo) :=
         match d with
         | [] => []
         | (key, v) :: rest =>
             (match v with
              | VStr s =>
                  match dict_get s id_to_resources with
                  | Some targets => id_hits resource targets path key
                  | None => []
                  end
              | VDict _ | VList _ =>
                  search_ids resource id_to_resources v (path_key path key)
              | _ => []
              end) ++ items rest
         end) d
  | VList l =>
      (fix elems (l : list value) (i : nat) : list (string * ResourceInfo) :=
         match l with
         | [] => []
         | item :: rest =>
             (match item with
              | VDict _ | VList _ =>
                  search_ids resource id_to_resources item (path_index path i)
              | _ => []
              end) ++ elems rest (S i)
         end) l 0%nat
  | _ => []
  end.

Definition _find_id_references (resource : ResourceInfo)
  (id_to_resources : pydict (list ResourceInfo))
  : list (string * ResourceInfo) :=
  search_ids resource id_to_resources (VDict (properties resource)) "".

(** The edge [_create_resource_relationships] upserts for one relationship
    found from [resource]: both ends are matched by ARN. *)
Definition usage_write (resource : ResourceInfo)
  (rel : string * ResourceInfo) : write :=
  let '(rel_type, target_resource) := rel in
  MergeUsage (_extract_node_type (resource_type resource)) (arn resource)
    (_extract_node_type (resource_type target_resource))
    (arn target_resource) rel_type.

(** An edge whose two ends are the same node. *)
Definition is_self_loop (w : write) : bool :=
  match w with
  | MergeUsage _ source_arn _ target_arn _ => (source_arn =? target_arn)%string
  | _ => false
  end.

(** ** graph/neo4j_client.py: route rules and peering connections *)

(** [resources_dict] of [add_resources_to_graph]: the valid resources keyed
    by ARN; an entry stands for the [info] dictionary of the resource. *)
Definition resources_dict_of (resources : list ResourceInfo)
  : pydict ResourceInfo :=
  fold_left
    (fun acc r =>
       if negb (has_error r) && is_valid r then dict_set (arn r) r acc
       else acc)
    resources [].

(** A route as [describe_route_tables] returns it: its string fields. *)
Definition route := pydict string.

Definition route_id_of (route_table_id : string) (i : nat) : string :=
  (route_table_id ++ "_route_" ++ str_of_nat i)%string.

Definition route_arn_of (region_name account_id route_table_id : string)
  (i : nat) : string :=
  ("arn:aws:ec2:" ++ region_name ++ ":" ++ account_id ++ ":route/"
   ++ route_id_of route_table_id i)%string.

(** The dictionary literal [route_properties] of the [i]-th route. *)
Definition route_properties_literal
  (region_name account_id route_table_id : string) (i : nat) (rt : route)
  : pydict string :=
  let route_id := route_id_of route_table_id i in
  let route_arn := route_arn_of region_name account_id route_table_id i in
  dict_of
    [("route_id", route_id);
     ("route_table_id", route_table_id);
     ("destination_cidr_block", get_str "DestinationCidrBlock" rt);
     ("destination_ipv6_cidr_block", get_str "DestinationIpv6CidrBlock" rt);
     ("destination_prefix_list_id", get_str "DestinationPrefixListId" rt);
     ("gateway_id", get_str "GatewayId" rt);
     ("instance_id", get_str "InstanceId" rt);
     ("instance_owner_id", get_str "InstanceOwnerId" rt);
     ("network_interface_id", get_str "NetworkInterfaceId" rt);
     ("transit_gateway_id", get_str "TransitGatewayId" rt);
     ("vpc_peering_connection_id", get_str "VpcPeeringConnectionId" rt);
     ("nat_gateway_id", get_str "NatGatewayId" rt);
     ("carrier_gateway_id", get_str "CarrierGatewayId" rt);
     ("local_gateway_id", get_str "LocalGatewayId" rt);
     ("core_network_arn", get_str "CoreNetworkArn" rt);
     ("state", get_str "State" rt);
     ("origin", get_str "Origin" rt);
     ("arn", route_arn);
     ("resource_type", "AWS::EC2::RouteRule");
     ("service", "ec2");
     ("region", region_name);
     ("account_id", account_id)].

(** [{k: v for k, v in route_properties.items() if v}]: the empty values
    dropped. *)
Definition route_properties_of (region_name account_id route_table_id : string)
  (i : nat) (rt : route) : pydict string :=
  filter (fun kv => truthy (snd kv))
    (route_properties_literal region_name account_id route_table_id i rt).

Definition target_mappings : pydict string :=
  [("gateway_id", "AWS::EC2::InternetGateway");
   ("nat_gateway_id", "AWS::EC2::NatGateway");
   ("instance_id", "AWS::EC2::Instance");
   ("network_interface_id", "AWS::EC2::NetworkInterface");
   ("transit_gateway_id", "AWS::EC2::TransitGateway");
   ("vpc_peering_connection_id", "AWS::EC2::VPCPeeringConnection")].

(** The inner search loop: the ARN of the first resource of that type and
    identifier, [None] when the loop ends without a [break]. *)
Fixpoint find_target_arn (resources : pydict ResourceInfo)
  (rtype target_id : string) : option string :=
  match resources with
  | [] => None
  | (a, info) :: rest =>
      if (resource_type info =? rtype)%string
         && (identifier info =? target_id)%string
      then Some a
      else find_target_arn rest rtype target_id
  end.

(** The writes one entry [prop_name: rtype] of [target_mappings] leads to. *)
Definition route_target_writes (route_properties : pydict string)
  (resources : pydict ResourceInfo) (prop_name rtype : string) : list write :=
  match dict_get prop_name route_properties with
  | None => []
  | Some target_id =>
      if truthy target_id && negb (target_id =? "local")%string
      then
        match find_target_arn resources rtype target_id with
        | Some target_arn =>
            if truthy target_arn
            then [MergeRoutesTo (dict_get "arn" route_properties)
                    (_extract_node_type rtype) target_arn]
            else []
        | None => []
        end
      else []
  end.

Definition _create_route_target_relationships
  (route_properties : pydict string) (resources : pydict ResourceInfo)
  : list write :=
  flat_map
    (fun m => route_target_writes route_properties resources (fst m) (snd m))
    target_mappings.

(** The body of the loop over [enumerate(routes)], from index [i] on. *)
Fixpoint route_rule_writes (region_name account_id : string)
  (resources : pydict ResourceInfo) (route_table_arn route_table_id : string)
  (i : nat) (routes : list route) : list write :=
  match routes with
  | [] => []
  | rt :: rest =>
      let route_arn := route_arn_of region_name account_id route_table_id i in
      let route_properties :=
        route_properties_of region_name account_id route_table_id i rt in
      [MergeRouteRule route_arn route_properties;
       MergeOwnsRoute account_id route_arn;
       MergeHasRoute route_table_arn route_arn]
      ++ _create_route_target_relationships route_properties resources
      ++ route_rule_writes region_name account_id resources route_table_arn
           route_table_id (S i) rest
  end.


(** A peering connection as [describe_vpc_peering_connections] returns it;
    a field the response lacks reads as the empty string. *)
Record peering : Type := mkPeering {
  accepter_owner_id : string;
  accepter_vpc_id : string;
  requester_owner_id : string;
  requester_vpc_id : string;
  status_code : string
}.

Definition cross_account_targets (current_account_id : string) (pcx : peering)
  : list string :=
  (if truthy (accepter_owner_id pcx)
      && negb (accepter_owner_id pcx =? current_account_id)%string
   then [accepter_owner_id pcx] else [])
  ++
  (if truthy (requester_owner_id pcx)
      && negb (requester_owner_id pcx =? current_account_id)%string
   then [requester_owner_id pcx] else []).

(** The account-to-account edges of one peering connection. *)
Definition peering_writes (current_account_id pcx_id : string) (pcx : peering)
  : list write :=
  map
    (fun target_account_id =>
       MergePeering current_account_id target_account_id pcx_id
         (accepter_vpc_id pcx) (requester_vpc_id pcx) (status_code pcx))
    (cross_account_targets current_account_id pcx).

(** [_create_vpc_peering_components], with the EC2 call as a function that
    returns [None] when it raises. *)
Definition _create_vpc_peering_components (a : account)
  (describe_vpc_peering_connections : string -> option (list peering))
  (resources : pydict ResourceInfo) : list write :=
  flat_map
    (fun entry =>
       let pcx_id := identifier (snd entry) in
       if (resource_type (snd entry) =? "AWS::EC2::VPCPeeringConnection")%string
          && truthy pcx_id
       then
         match describe_vpc_peering_connections pcx_id with
         | Some pcxs =>
             flat_map (peering_writes (_get_account_id a) pcx_id) pcxs
         | None => []
         end
       else [])
    resources.

(** ** core/base_service.py: enumeration errors *)

Record service_stats : Type := mkStats {
  resource_types_discovered : nat;
  resources_found : nat;
  resources_with_errors : nat;
  api_calls_made : nat;
  skipped_resource_types : nat
}.

Definition count_skip (st : service_stats) : service_stats :=
  mkStats (resource_types_discovered st) (resources_found st)
    (resources_with_errors st) (api_calls_made st)
    (S (skipped_resource_types st)).

Definition count_error (st : service_stats) : service_stats :=
  mkStats (resource_types_discovered st) (resources_found st)
    (S (resources_with_errors st)) (api_calls_made st)
    (skipped_resource_types st).

Definition count_found (n : nat) (st : service_stats) : service_stats :=
  mkStats (S (resource_types_discovered st)) (resources_found st + n)
    (resources_with_errors st) (S (api_calls_made st))
    (skipped_resource_types st).

Definition skip_error_patterns : list string :=
  ["throttlingexception"; "rate exceeded"; "too many requests";
   "required key"; "required property";
   "missing or invalid resourcemodel property"; "property cannot be empty";
   "autoscalinggroupname is required"; "certificatearn cannot be empty";
   "transitgatewaymulticastdomainid"; "domainidentifier";
   "projectidentifier"; "environmentidentifier"; "identitypoolid";
   "identityprovidername";
   "does not support list action"; "unsupportedactionexception";
   "typenotfoundexception"; "cannot be found"; "operation is not supported";
   "feature is not available";
   "subscription does not exist"; "not registered as a publisher";
   "access grants instance does not exist"; "cost category";
   "linked account doesn't have access"; "controltower could not complete";
   "awscontroltoweradmin";
   "failed to list cost categories"; "error occurred during operation";
   "handler returned status failed"; "generalserviceexception"].

(** The default [get_skip_patterns]; a service may override it. *)
Definition default_skip_patterns : pydict (list string) :=
  [("missing_required_key", []); ("unsupported_action", []);
   ("type_not_found", []); ("subscription_required", [])].

Definition should_skip_resource_type (skip_patterns : pydict (list string))
  (rtype error_msg : string) (st : service_stats) : bool * service_stats :=
  if existsb (fun cat => str_in rtype (snd cat)) skip_patterns
  then (true, count_skip st)
  else
    let error_lower := lower error_msg in
    if existsb (fun pattern => contains pattern error_lower)
         skip_error_patterns
    then (true, count_skip st)
    else (false, st).

(** What the enumeration of one resource type does inside the [try]: it
    lists the resources, or raises a [ClientError] (with the code of its
    response and its text [str(e)]), or raises another exception. *)
Inductive enumeration : Type :=
| Listed (resources : list ResourceInfo)
| RaisedClientError (error_code error_msg : string)
| RaisedException (msg : string).

Definition error_resource (rtype err : string) : ResourceInfo :=
  new_resource rtype "ERROR" "" [] "" err.

Definition discover_resource_type (skip_patterns : pydict (list string))
  (rtype : string) (run : enumeration) (st : service_stats)
  : list ResourceInfo * service_stats :=
  let '(skip, st1) := should_skip_resource_type skip_patterns rtype "" st in
  if skip then ([], st1)
  else
    match run with
    | Listed resources => (resources, count_found (length resources) st1)
    | RaisedClientError error_code error_msg =>
        let '(skip', st2) :=
          should_skip_resource_type skip_patterns rtype error_msg st1 in
        if skip' then ([], st2)
        else
          ([error_resource rtype (error_code ++ ": " ++ error_msg)%string],
           count_error st2)
    | RaisedException msg => ([error_resource rtype msg], count_error st1)
    end.

(** ** Reference definitions the theorems compare the code with *)

(** The classification as one ordered rule table: a rule holds a test on
    the lowered key, the lowered path and the target's type, and the kind
    it gives. *)
Definition rule : Type := (string -> string -> string -> bool) * string.

Definition classification_rules : list rule :=
  [(fun k p _ => contains "log" k || contains "logging" p, "LOGS_TO");
   (fun k _ t => contains "vpc" k && contains "VPC" t, "DEPLOYED_IN");
   (fun k _ t => contains "subnet" k && contains "Subnet" t, "DEPLOYED_IN");
   (fun k _ _ => contains "securitygroup" k || contains "groupid" k,
    "PROTECTED_BY");
   (fun k _ t => contains "role" k && contains "Role" t, "ASSUMES");
   (fun k _ t => contains "policy" k && contains "Policy" t, "HAS_POLICY");
   (fun k _ t => contains "volume" k && contains "Volume" t, "USES_VOLUME");
   (fun k _ t => contains "snapshot" k && contains "Snapshot" t,
    "CREATED_FROM");
   (fun k _ _ => contains "route" k || contains "gateway" k,
    "ROUTES_THROUGH");
   (fun k _ _ => contains "loadbalancer" k || contains "targetgroup" k,
    "LOAD_BALANCED_BY");
   (fun k _ t =>
      contains "db" k
      && (contains "DB" t || contains "Database" t || contains "RDS" t),
    "CONNECTS_TO")].

(** First match wins; [default] when no rule matches. *)
Fixpoint first_match (rules : list rule) (k p t default : string) : string :=
  match rules with
  | [] => default
  | (test, kind) :: rest =>
      if test k p t then kind else first_match rest k p t default
  end.

(** No rule of the table matches. *)
Definition no_signal (k p t : string) : bool :=
  forallb (fun r : rule => negb (fst r k p t)) classification_rules.

(** The entries of a dictionary that are not dictionaries themselves, each
    with the key its path joins to, in the order of the traversal. *)
Fixpoint leaves_item (prefix key : string) (v : value) {struct v}
  : list (string * value) :=
  match v with
  | VDict d =>
      (fix loop (obj : list (string * value)) : list (string * value) :=
         match obj with
         | [] => []
         | (k, x) :: rest => leaves_item (new_key prefix key) k x ++ loop rest
         end) d
  | _ => [(new_key prefix key, v)]
  end.

Fixpoint leaves (obj : pydict value) (prefix : string)
  : list (string * value) :=
  match obj with
  | [] => []
  | (k, x) :: rest => leaves_item prefix k x ++ leaves rest prefix
  end.

(** What is stored for a leaf: a list as its JSON text, [None] as the empty
    string, another object as its [str()], a scalar as it is. *)
Definition flat_value (v : value) : option value :=
  match v with
  | VList [] => Some (VStr "[]")
  | VList (_ :: _) => option_map VStr (Json.dumps v)
  | VNone => Some (VStr "")
  | VOther s => Some (VStr s)
  | VDict _ => None
  | _ => Some v
  end.

(** The leaves written one after the other into [flattened]. *)
Fixpoint store_leaves (ls : list (string * value)) (flattened : pydict value)
  : option (pydict value) :=
  match ls with
  | [] => Some flattened
  | (k, v) :: rest =>
      match flat_value v with
      | Some sv => store_leaves rest (dict_set k sv flattened)
      | None => None
      end
  end.

(** [isinstance(v, (str, int, float, bool))]. *)
Definition is_scalar (v : value) : bool :=
  match v with
  | VStr _ | VInt _ | VFloat _ | VBool _ => true
  | _ => false
  end.

(** A value made of JSON only: no foreign object inside. *)
Fixpoint json_value (v : value) : bool :=
  match v with
  | VOther _ => false
  | VList l => forallb json_value l
  | VDict d =>
      (fix all (d : list (string * value)) : bool :=
         match d with
         | [] => true
         | (_, x) :: rest => json_value x && all rest
         end) d
  | _ => true
  end.

(** The labels a write interpolates into its query text. *)
Definition interpolated_labels (w : write) : list string :=
  match w with
  | MergeNode label _ _ _ => [label]
  | MergeOwns _ label _ _ => [label]
  | MergeUsage source_label _ target_label _ _ => [source_label; target_label]
  | MergeRoutesTo _ target_label _ => [target_label]
  | _ => []
  end.

(** An error text matches the allowlist. *)
Definition error_matches (error_msg : string) : bool :=
  existsb (fun pattern => contains pattern (lower error_msg))
    skip_error_patterns.

(** The resource type is on one of the service's own skip lists. *)
Definition type_skipped (skip_patterns : pydict (list string))
  (rtype : string) : bool :=
  existsb (fun cat => str_in rtype (snd cat)) skip_patterns.

(** A string without a colon. *)
Fixpoint no_colon (s : string) : bool :=
  match s with
  | EmptyString => true
  | String c t => negb (c =? ":")%char && no_colon t
  end.

(** The owner of one side of a peering connection is known and is not the
    current account. *)
Definition side_differs (current_account_id owner_id : string) : bool :=
  truthy owner_id && negb (owner_id =? current_account_id)%string.

(** The keys of the route rule nodes among some writes, in order. *)
Fixpoint route_keys (ws : list write) : list string :=
  match ws with
  | [] => []
  | MergeRouteRule route_arn _ :: rest => route_arn :: route_keys rest
  | _ :: rest => route_keys rest
  end.


(** Every value of a dictionary is a scalar. *)
Definition scalar_values (d : pydict value) : Prop :=
  Forall (fun kv => is_scalar (snd kv) = true) d.

(** A bucket as the enumeration returns it: its properties hold its name
    and its own ARN, from which the [arn] of the record is taken. *)
Definition own_arn_bucket : ResourceInfo :=
  new_resource "AWS::S3::Bucket" "assets" "arn:aws:s3:::assets"
    [("BucketName", VStr "assets"); ("Arn", VStr "arn:aws:s3:::assets")]
    "us-east-1" "".

(** ** What the specification states and the code does otherwise *)

(** Rule 12 of the specification: a hit of the ARN scan that no rule of the
    table matches is classified REFERENCES. *)
Definition references_rule_as_stated : Prop :=
  forall (resource target : ResourceInfo) (key ref : string),
    properties resource = [(key, VStr ref)] ->
    startswith ref "arn:aws:" = true ->
    no_signal (lower key) (lower key) (resource_type target) = true ->
    _find_arn_references resource [(ref, target)] = [("REFERENCES", target)].

(** A list of scalars is kept as a list by the flattening. *)
Definition scalar_lists_kept_as_stated : Prop :=
  forall (key : string) (l : list value) (out : pydict value),
    forallb is_scalar l = true ->
    _flatten_properties [(key, VList l)] = Some out ->
    dict_get key out = Some (VList l).

(** The composite key is built from the record's own region. *)
Definition upsert_key_as_stated : Prop :=
  forall (a : account) (r : ResourceInfo),
    is_valid r = true ->
    snd (unique_key_value a r)
    = if truthy (strip (arn r)) then arn r
      else (identifier r ++ ":" ++ account_text a ++ ":" ++ region r ++ ":"
            ++ resource_type r)%string.

(** Every error of the enumeration is classified against the allowlist. *)
Definition every_error_classified_as_stated : Prop :=
  forall (skip_patterns : pydict (list string)) (rtype : string)
         (run : enumeration) (st : service_stats),
    type_skipped skip_patterns rtype = false ->
    match run with
    | Listed _ => True
    | RaisedClientError _ msg | RaisedException msg =>
        if error_matches msg
        then fst (discover_resource_type skip_patterns rtype run st) = []
        else exists e,
            fst (discover_resource_type skip_patterns rtype run st) = [e]
            /\ has_error e = true
    end.

(** The node carries a region property exactly when its service is not
    global. *)
Definition region_iff_regional_as_stated : Prop :=
  forall (a : account) (r : ResourceInfo) (props : pydict value),
    is_valid r = true ->
    node_props_of a r = Some props ->
    (dict_mem "region" props = true <-> _is_global_service (service r) = false).
Example lower_mixed : lower "LoggingBucket" = "loggingbucket".
Proof. reflexivity. Qed.

Example split_type : split "AWS::EC2::PrefixList" "::" = ["AWS"; "EC2"; "PrefixList"].
Proof. reflexivity. Qed.

Example split_odd_colons : split "AWS:::X" "::" = ["AWS"; ":X"].
Proof. reflexivity. Qed.

Example split_empty_component : split "AWS::::X" "::" = ["AWS"; ""; "X"].
Proof. reflexivity. Qed.

Example strip_blank : strip "  " = "" /\ strip " a b " = "a b".
Proof. split; reflexivity. Qed.

Example str_of_nat_12 : str_of_nat 12 = "12" /\ str_of_nat 0 = "0".
Proof. split; reflexivity. Qed.

Example str_of_Z_neg : str_of_Z (-305) = "-305" /\ str_of_Z 0 = "0".
Proof. split; reflexivity. Qed.

(** ** Further reference definitions *)

(** The character [c] does not occur in [s]. *)
Fixpoint lacks (c : ascii) (s : string) : bool :=
  match s with
  | EmptyString => true
  | String a t => negb (a =? c)%char && lacks c t
  end.

(** The last leaf written under the key [k]. *)
Definition last_leaf (k : string) (ls : list (string * value))
  : option (string * value) :=
  find (fun kv => (fst kv =? k)%string) (rev ls).

(** ** graph/neo4j_client.py: the other relationship finders *)

Definition name_fields : list string :=
  ["Name"; "BucketName"; "VpcId"; "SubnetId"; "GroupId"; "GroupName";
   "InstanceId"; "VolumeId"; "SnapshotId"; "ImageId"; "KeyName";
   "RoleName"; "PolicyName"; "UserName"; "FunctionName"; "TableName";
   "ClusterName"; "DBName"; "DBInstanceIdentifier"; "TopicArn"].

(** The nested [extract_names] of [_extract_name_keys]: the names it
    appends, in order.  Its [prefix] argument is only passed along. *)
Fixpoint extract_names (obj : value) {struct obj} : list string :=
  match obj with
  | VDict d =>
      (fix items (d : list (string * value)) : list string :=
         match d with
         | [] => []
         | (key, v) :: rest =>
             (match v with
              | VStr s =>
                  if str_in key name_fields && truthy s then [s] else []
              | VDict _ | VList _ => extract_names v
              | _ => []
              end) ++ items rest
         end) d
  | VList l =>
      (fix elems (l : list value) : list string :=
         match l with
         | [] => []
         | item :: rest =>
             (match item with
              | VDict _ | VList _ => extract_names item
              | _ => []
              end) ++ elems rest
         end) l
  | _ => []
  end.

(** [_extract_name_keys]: the names without repeats.  Python leaves the
    order of [list(set(...))] open; the callers read the result by
    membership only. *)
Definition _extract_name_keys (resource : ResourceInfo) : list string :=
  match properties resource with
  | [] => []
  | props => nodup string_dec (extract_names (VDict props))
  end.

(** [d[k].append(r)], with [d[k] = []] first when [k] is new. *)
Definition dict_append {A : Type} (k : string) (r : A)
  (d : pydict (list A)) : pydict (list A) :=
  match dict_get k d with
  | Some rs => dict_set k (rs ++ [r]) d
  | None => dict_set k [r] d
  end.

(** The third mapping of [_create_resource_relationships]: by name. *)
Definition build_name_to_resources (resources : list ResourceInfo)
  : pydict (list ResourceInfo) :=
  fold_left
    (fun acc r =>
       if has_error r then acc
       else fold_left (fun acc' name_key => dict_append name_key r acc')
              (_extract_name_keys r) acc)
    resources [].

(** Truth value of a value; an object outside JSON counts as true. *)
Definition value_truthy (v : value) : bool :=
  match v with
  | VNone => false
  | VBool b => b
  | VInt z => negb (z =? 0)%Z
  | VFloat r => negb ((r =? "0.0")%string || (r =? "-0.0")%string)
  | VStr s => truthy s
  | VList l => match l with [] => false | _ => true end
  | VDict d => match d with [] => false | _ => true end
  | VOther _ => true
  end.

(** [v and v in id_to_resources], then the resources found: a string is
    looked up, a list or dictionary cannot be hashed and raises ([None]),
    any other value is the key of no entry. *)
Definition lookup_property (v : option value)
  (id_to_resources : pydict (list ResourceInfo))
  : option (list ResourceInfo) :=
  match v with
  | None => Some []
  | Some x =>
      if value_truthy x
      then
        match x with
        | VStr s =>
            match dict_get s id_to_resources with
            | Some rs => Some rs
            | None => Some []
            end
        | VList _ | VDict _ => None
        | _ => Some []
        end
      else Some []
  end.

(** The resources among [rs] whose type contains [marker], each with the
    relationship [kind]. *)
Definition related (kind marker : string) (rs : list ResourceInfo)
  : list (string * ResourceInfo) :=
  flat_map
    (fun r => if contains marker (resource_type r) then [(kind, r)] else [])
    rs.

Definition _find_vpc_relationships (resource : ResourceInfo)
  (id_to_resources : pydict (list ResourceInfo))
  : option (list (string * ResourceInfo)) :=
  match properties resource with
  | [] => Some []
  | props =>
      option_map (related "DEPLOYED_IN" "VPC")
        (lookup_property (dict_get "VpcId" props) id_to_resources)
  end.

Definition _find_subnet_relationships (resource : ResourceInfo)
  (id_to_resources : pydict (list ResourceInfo))
  : option (list (string * ResourceInfo)) :=
  match properties resource with
  | [] => Some []
  | props =>
      option_map (related "DEPLOYED_IN" "Subnet")
        (lookup_property (dict_get "SubnetId" props) id_to_resources)
  end.

Definition sg_fields : list string :=
  ["SecurityGroups"; "SecurityGroupIds"; "GroupId"].

(** The security groups one identifier stands for. *)
Definition sg_hits (id_to_resources : pydict (list ResourceInfo))
  (sg_id : string) : list (string * ResourceInfo) :=
  match dict_get sg_id id_to_resources with
  | Some rs => related "PROTECTED_BY" "SecurityGroup" rs
  | None => []
  end.

(** The nested [find_sgs] of [_find_security_group_relationships]. *)
Fixpoint find_sgs (id_to_resources : pydict (list ResourceInfo))
  (obj : value) {struct obj} : list (string * ResourceInfo) :=
  match obj with
  | VDict d =>
      (fix items (d : list (string * value)) : list (string * ResourceInfo) :=
         match d with
         | [] => []
         | (key, v) :: rest =>
             (if str_in key sg_fields
              then
                match v with
                | VList l =>
                    flat_map
                      (fun sg_id =>
                         match sg_id with
                         | VStr s => sg_hits id_to_resources s
                         | _ => []
                         end)
                      l
                | VStr s => sg_hits id_to_resources s
                | _ => []
                end
              else
                match v with
                | VDict _ | VList _ => find_sgs id_to_resources v
                | _ => []
                end) ++ items rest
         end) d
  | VList l =>
      (fix elems (l : list value) : list (string * ResourceInfo) :=
         match l with
         | [] => []
         | item :: rest =>
             (match item with
              | VDict _ | VList _ => find_sgs id_to_resources item
              | _ => []
              end) ++ elems rest
         end) l
  | _ => []
  end.

Definition _find_security_group_relationships (resource : ResourceInfo)
  (id_to_resources : pydict (list ResourceInfo))
  : list (string * ResourceInfo) :=
  match properties resource with
  | [] => []
  | props => find_sgs id_to_resources (VDict props)
  end.

Definition role_fields : list string :=
  ["RoleName"; "RoleArn"; "IamInstanceProfile"].

(** [value.split('/')[-1] if '/' in value else value]. *)
Definition role_name_of (s : string) : string :=
  if contains "/" s then last (split s "/") "" else s.

Definition role_hits (name_to_resources : pydict (list ResourceInfo))
  (s : string) : list (string * ResourceInfo) :=
  match dict_get (role_name_of s) name_to_resources with
  | Some rs => related "ASSUMES" "Role" rs
  | None => []
  end.

(** The nested [find_roles] of [_find_role_relationships]. *)
Fixpoint find_roles (name_to_resources : pydict (list ResourceInfo))
  (obj : value) {struct obj} : list (string * ResourceInfo) :=
  match obj with
  | VDict d =>
      (fix items (d : list (string * value)) : list (string * ResourceInfo) :=
         match d with
         | [] => []
         | (key, v) :: rest =>
             (if str_in key role_fields
              then
                match v with
                | VStr s => role_hits name_to_resources s
                | _ => []
                end
              else
                match v with
                | VDict _ | VList _ => find_roles name_to_resources v
                | _ => []
                end) ++ items rest
         end) d
  | VList l =>
      (fix elems (l : list value) : list (string * ResourceInfo) :=
         match l with
         | [] => []
         | item :: rest =>
             (match item with
              | VDict _ | VList _ => find_roles name_to_resources item
              | _ => []
              end) ++ elems rest
         end) l
  | _ => []
  end.

Definition _find_role_relationships (resource : ResourceInfo)
  (name_to_resources : pydict (list ResourceInfo))
  : list (string * ResourceInfo) :=
  match properties resource with
  | [] => []
  | props => find_roles name_to_resources (VDict props)
  end.

Definition policy_hits (arn_to_resource : pydict ResourceInfo) (s : string)
  : list (string * ResourceInfo) :=
  if startswith s "arn:aws:iam"
  then
    match dict_get s arn_to_resource with
    | Some policy_resource => [("HAS_POLICY", policy_resource)]
    | None => []
    end
  else [].

(** The nested [find_policies] of [_find_policy_relationships]. *)
Fixpoint find_policies (arn_to_resource : pydict ResourceInfo)
  (obj : value) {struct obj} : list (string * ResourceInfo) :=
  match obj with
  | VDict d =>
      (fix items (d : list (string * value)) : list (string * ResourceInfo) :=
         match d with
         | [] => []
         | (key, v) :: rest =>
             (if contains "policy" (lower key) || contains "Policy" key
              then
                match v with
                | VStr s => policy_hits arn_to_resource s
                | VList l =>
                    flat_map
                      (fun policy_arn =>
                         match policy_arn with
                         | VStr s => policy_hits arn_to_resource s
                         | _ => []
                         end)
                      l
                | _ => []
                end
              else
                match v with
                | VDict _ | VList _ => find_policies arn_to_resource v
                | _ => []
                end) ++ items rest
         end) d
  | VList l =>
      (fix elems (l : list value) : list (string * ResourceInfo) :=
         match l with
         | [] => []
         | item :: rest =>
             (match item with
              | VDict _ | VList _ => find_policies arn_to_resource item
              | _ => []
              end) ++ elems rest
         end) l
  | _ => []
  end.

Definition _find_policy_relationships (resource : ResourceInfo)
  (arn_to_resource : pydict ResourceInfo) : list (string * ResourceInfo) :=
  match properties resource with
  | [] => []
  | props => find_policies arn_to_resource (VDict props)
  end.

(** [_analyze_resource_usage]: the seven finders one after the other;
    [None] when one of them raises. *)
Definition _analyze_resource_usage (resource : ResourceInfo)
  (arn_to_resource : pydict ResourceInfo)
  (id_to_resources name_to_resources : pydict (list ResourceInfo))
  : option (list (string * ResourceInfo)) :=
  match properties resource with
  | [] => Some []
  | _ =>
      match _find_vpc_relationships resource id_to_resources,
            _find_subnet_relationships resource id_to_resources with
      | Some vpcs, Some subnets =>
          Some (_find_arn_references resource arn_to_resource
                ++ _find_id_references resource id_to_resources
                ++ vpcs
                ++ _find_security_group_relationships resource id_to_resources
                ++ subnets
                ++ _find_role_relationships resource name_to_resources
                ++ _find_policy_relationships resource arn_to_resource)
      | _, _ => None
      end
  end.

(** The loop of [_create_resource_relationships] over the resources: the
    usage edges written, and whether the loop ran to its end ([false] when
    an analysis raised and the edges of the later resources were never
    written). *)
Fixpoint usage_writes_from (arn_to_resource : pydict ResourceInfo)
  (id_to_resources name_to_resources : pydict (list ResourceInfo))
  (resources : list ResourceInfo) : list write * bool :=
  match resources with
  | [] => ([], true)
  | r :: rest =>
      if has_error r
      then usage_writes_from arn_to_resource id_to_resources
             name_to_resources rest
      else
        match _analyze_resource_usage r arn_to_resource id_to_resources
                name_to_resources with
        | None => ([], false)
        | Some rels =>
            let '(ws, ok) :=
              usage_writes_from arn_to_resource id_to_resources
                name_to_resources rest in
            (map (usage_write r) rels ++ ws, ok)
        end
  end.

Definition _create_resource_relationships (resources : list ResourceInfo)
  : list write * bool :=
  usage_writes_from (build_arn_to_resource resources)
    (build_id_to_resources resources) (build_name_to_resources resources)
    resources.

(** The relationship kinds of the usage edges. *)
Definition usage_kinds : list string :=
  ["LOGS_TO"; "DEPLOYED_IN"; "PROTECTED_BY"; "ASSUMES"; "HAS_POLICY";
   "USES_VOLUME"; "CREATED_FROM"; "ROUTES_THROUGH"; "LOAD_BALANCED_BY";
   "CONNECTS_TO"; "USES"].

(** The string [s] is the value of an entry of a dictionary of [obj], at
    any depth below dictionaries and lists.  A string that is itself the
    element of a list is no such value. *)
Inductive dict_string : value -> string -> Prop :=
| ds_here (d : pydict value) (k s : string) :
    In (k, VStr s) d -> dict_string (VDict d) s
| ds_dict (d : pydict value) (k : string) (v : value) (s : string) :
    In (k, v) d -> dict_string v s -> dict_string (VDict d) s
| ds_list (l : list value) (v : value) (s : string) :
    In v l -> dict_string v s -> dict_string (VList l) s.

(** The resources without error that have the identifier [i]. *)
Definition with_identifier (i : string) (resources : list ResourceInfo)
  : list ResourceInfo :=
  filter
    (fun r => negb (has_error r) && truthy (identifier r)
              && (identifier r =? i)%string)
    resources.

(** What the two scans find for one entry of a dictionary, and their loops
    over the entries of a dictionary and the elements of a list, named so
    that the theorems can speak of them. *)
Definition search_arns_entry (resource : ResourceInfo)
  (arn_to_resource : pydict ResourceInfo) (path key : string) (v : value)
  : list (string * ResourceInfo) :=
  match v with
  | VStr s =>
      if startswith s "arn:aws:"
      then
        match dict_get s arn_to_resource with
        | Some target_resource =>
            [(_determine_usage_relationship resource target_resource
                (path_key path key) key, target_resource)]
        | None => []
        end
      else []
  | VDict _ | VList _ =>
      search_arns resource arn_to_resource v (path_key path key)
  | _ => []
  end.

Fixpoint search_arns_elems (resource : ResourceInfo)
  (arn_to_resource : pydict ResourceInfo) (path : string)
  (l : list value) (i : nat) : list (string * ResourceInfo) :=
  match l with
  | [] => []
  | item :: rest =>
      search_arns resource arn_to_resource item (path_index path i)
      ++ search_arns_elems resource arn_to_resource path rest (S i)
  end.

Definition search_ids_entry (resource : ResourceInfo)
  (id_to_resources : pydict (list ResourceInfo)) (path key : string)
  (v : value) : list (string * ResourceInfo) :=
  match v with
  | VStr s =>
      match dict_get s id_to_resources with
      | Some targets => id_hits resource targets path key
      | None => []
      end
  | VDict _ | VList _ =>
      search_ids resource id_to_resources v (path_key path key)
  | _ => []
  end.

Fixpoint search_ids_elems (resource : ResourceInfo)
  (id_to_resources : pydict (list ResourceInfo)) (path : string)
  (l : list value) (i : nat) : list (string * ResourceInfo) :=
  match l with
  | [] => []
  | item :: rest =>
      (match item with
       | VDict _ | VList _ =>
           search_ids resource id_to_resources item (path_index path i)
       | _ => []
       end) ++ search_ids_elems resource id_to_resources path rest (S i)
  end.

(** ** services: the discovery loop of a service *)

(** [get_skip_patterns] of [EC2Service], [S3Service] and [IAMService]. *)
Definition ec2_skip_patterns : pydict (list string) :=
  [("missing_required_key",
    ["AWS::EC2::EIPAssociation";
     "AWS::EC2::NetworkInterfaceAttachment";
     "AWS::EC2::VolumeAttachment";
     "AWS::EC2::TransitGatewayMulticastDomainAssociation";
     "AWS::EC2::TransitGatewayMulticastGroupMember";
     "AWS::EC2::TransitGatewayMulticastGroupSource";
     "AWS::EC2::EnclaveCertificateIamRoleAssociation"]);
   ("unsupported_action",
    ["AWS::EC2::SecurityGroupEgress"; "AWS::EC2::SecurityGroupIngress"]);
   ("type_not_found", []);
   ("subscription_required", [])].

Definition s3_skip_patterns : pydict (list string) :=
  [("missing_required_key",
    ["AWS::S3::BucketPolicy"; "AWS::S3::MultiRegionAccessPointPolicy"]);
   ("unsupported_action", []);
   ("type_not_found", ["AWS::S3::AccessPointAlias"]);
   ("subscription_required",
    ["AWS::S3::AccessGrant"; "AWS::S3::AccessGrantsInstance";
     "AWS::S3::AccessGrantsLocation"])].

Definition iam_skip_patterns : pydict (list string) :=
  [("missing_required_key",
    ["AWS::IAM::AccessKey"; "AWS::IAM::GroupPolicy";
     "AWS::IAM::RolePolicy"; "AWS::IAM::UserPolicy"]);
   ("unsupported_action", []);
   ("type_not_found", []);
   ("subscription_required", [])].

(** The loop of [discover_resources] over the supported resource types,
    shared by the three services: each type comes with what its enumeration
    does, [all_resources] and the counters are carried along.  The handler
    of the loop itself is entered only when [discover_resource_type]
    raises, which it does not: it catches every exception of its body. *)
Definition discover_types (skip_patterns : pydict (list string))
  (calls : list (string * enumeration)) (st : service_stats)
  : list ResourceInfo * service_stats :=
  fold_left
    (fun acc call =>
       let '(resources, st1) :=
         discover_resource_type skip_patterns (fst call) (snd call)
           (snd acc) in
       (fst acc ++ resources, st1))
    calls ([], st).

(** ** core/config.py and core/resource_config.py *)

(** [get_neo4j_uri], from the configured [graph_db_url]. *)
Definition get_neo4j_uri (graph_db_url : string) : string :=
  if negb (startswith graph_db_url "bolt://"
           || startswith graph_db_url "neo4j://")
  then ("bolt://" ++ graph_db_url)%string
  else graph_db_url.

(** [get_filtered_resource_types]: the configured types, the set given to
    [set_excluded_types], and the optional service filter. *)
Definition get_filtered_resource_types (_resource_types : list string)
  (_excluded_types : list string) (service_filter : option string)
  : list string :=
  let filtered_types := _resource_types in
  let filtered_types :=
    match service_filter with
    | Some f =>
        if truthy f
        then filter (fun rt => contains (lower f) (lower rt)) filtered_types
        else filtered_types
    | None => filtered_types
    end in
  match _excluded_types with
  | [] => filtered_types
  | _ => filter (fun rt => negb (str_in rt _excluded_types)) filtered_types
  end.

(** ** core/discovery_engine.py: statistics *)

(** A [collections.Counter]: a missing key reads as 0. *)
Definition counter_get (k : string) (c : pydict nat) : nat :=
  match dict_get k c with Some n => n | None => 0%nat end.

(** [c[k] += 1]. *)
Definition counter_incr (k : string) (c : pydict nat) : pydict nat :=
  dict_set k (counter_get k c + 1)%nat c.

Definition counter_total (c : pydict nat) : nat :=
  fold_right (fun kv n => (snd kv + n)%nat) 0%nat c.

Module Engine.

(** The entries of [self.stats] that the functions below write. *)
Record stats : Type := mkStats {
  successful_services : nat;
  failed_services : nat;
  total_resources : nat;
  valid_resources : nat;
  resources_with_errors : nat;
  resources_by_service : pydict nat;
  resources_by_region : pydict nat;
  errors : list string
}.

(** [sum(1 for r in resources if test(r))]. *)
Definition count_if (test : ResourceInfo -> bool)
  (resources : list ResourceInfo) : nat :=
  length (filter test resources).

Definition _update_final_statistics (resources : list ResourceInfo)
  (st : stats) : stats :=
  let counters :=
    fold_left
      (fun acc resource =>
         let by_service :=
           if truthy (service resource)
           then counter_incr (service resource) (fst acc)
           else fst acc in
         let region_ :=
           if truthy (region resource) then region resource else "global" in
         (by_service, counter_incr region_ (snd acc)))
      resources (resources_by_service st, resources_by_region st) in
  mkStats (successful_services st) (failed_services st)
    (length resources)
    (count_if is_valid resources)
    (count_if has_error resources)
    (fst counters) (snd counters) (errors st).

(** What [_discover_service_resources] does for one service: it returns the
    resources of the service, or raises with a text. *)
Inductive service_run : Type :=
| Discovered (resources : list ResourceInfo)
| Failed (msg : string).

(** [_discover_resources_sequential] over the services, each given by its
    name and its run. *)
Definition _discover_resources_sequential
  (services : list (string * service_run)) (st : stats)
  : list ResourceInfo * stats :=
  fold_left
    (fun acc svc =>
       let st := snd acc in
       match snd svc with
       | Discovered resources =>
           (fst acc ++ resources,
            mkStats (successful_services st + 1) (failed_services st)
              (total_resources st) (valid_resources st)
              (resources_with_errors st) (resources_by_service st)
              (resources_by_region st) (errors st))
       | Failed msg =>
           (fst acc,
            mkStats (successful_services st) (failed_services st + 1)
              (total_resources st) (valid_resources st)
              (resources_with_errors st) (resources_by_service st)
              (resources_by_region st)
              (errors st ++ [(fst svc ++ ": " ++ msg)%string]))
       end)
    services ([], st).

(** The list [_update_neo4j_graph] hands to the graph client. *)
Definition valid_resources_of (resources : list ResourceInfo)
  : list ResourceInfo :=
  filter is_valid resources.

End Engine.

(** ** graph/neo4j_client.py: the nodes of a run *)

(** [resources_by_type] of [add_resources_to_graph]. *)
Definition resources_by_type_of (resources : list ResourceInfo)
  : pydict (list ResourceInfo) :=
  fold_left
    (fun acc r =>
       if negb (has_error r) && is_valid r
       then dict_append (resource_type r) r acc
       else acc)
    resources [].

Definition _add_resources_of_type (a : account) (rtype : string)
  (resources : list ResourceInfo) : list write :=
  flat_map (_create_resource_node a) resources.

(** The first loop of [add_resources_to_graph]: the node writes, type by
    type. *)
Definition node_writes (a : account) (resources : list ResourceInfo)
  : list write :=
  flat_map (fun entry => _add_resources_of_type a (fst entry) (snd entry))
    (resources_by_type_of resources).

(** The test both loops of [add_resources_to_graph] apply. *)
Definition graph_valid (r : ResourceInfo) : bool :=
  negb (has_error r) && is_valid r.

(** ** graph/neo4j_client.py: transit gateway attachments *)

(** The account-to-account edge [CONNECTED_VIA_TRANSIT_GATEWAY]. *)
Inductive tgw_write : Type :=
| MergeTransitGateway
    (source_account_id target_account_id tgw_id attachment_id vpc_id : string).

(** A VPC attachment as [describe_transit_gateway_vpc_attachments] returns
    it: its string fields. *)
Definition vpc_attachment := pydict string.

Definition attachment_writes (current_account_id tgw_id : string)
  (vpc_attachment_ : vpc_attachment) : list tgw_write :=
  let vpc_owner_id := get_str "VpcOwnerId" vpc_attachment_ in
  if truthy vpc_owner_id && negb (vpc_owner_id =? current_account_id)%string
  then [MergeTransitGateway current_account_id vpc_owner_id tgw_id
          (get_str "TransitGatewayAttachmentId" vpc_attachment_)
          (get_str "VpcId" vpc_attachment_)]
  else [].

(** [_create_transit_gateway_components] when there is an EC2 client, with
    the EC2 call as a function that returns [None] when it raises. *)
Definition _create_transit_gateway_components (a : account)
  (describe_transit_gateway_vpc_attachments
     : string -> option (list vpc_attachment))
  (resources : pydict ResourceInfo) : list tgw_write :=
  flat_map
    (fun entry =>
       let tgw_id := identifier (snd entry) in
       if (resource_type (snd entry) =? "AWS::EC2::TransitGateway")%string
          && truthy tgw_id
       then
         match describe_transit_gateway_vpc_attachments tgw_id with
         | Some attachments =>
             flat_map (attachment_writes (_get_account_id a) tgw_id)
               attachments
         | None => []
         end
       else [])
    resources.

(** ** Reference definitions for the discovery loop *)

(** The resource types a service has dealt with: enumerated, failed or
    skipped. *)
Definition types_accounted (st : service_stats) : nat :=
  (resource_types_discovered st + resources_with_errors st
   + skipped_resource_types st)%nat.

(** A call of the discovery loop that leaves no record: its type is on a
    skip list of the service, or its enumeration raises a [ClientError]
    whose text matches a skip pattern. *)
Definition silent (skip_patterns : pydict (list string))
  (call : string * enumeration) : bool :=
  type_skipped skip_patterns (fst call)
  || match snd call with
     | RaisedClientError _ error_msg => error_matches error_msg
     | _ => false
     end.

(** The records one call of the discovery loop returns. *)
Definition records_of_call (skip_patterns : pydict (list string))
  (call : string * enumeration) : list ResourceInfo :=
  fst (discover_resource_type skip_patterns (fst call) (snd call)
         (mkStats 0 0 0 0 0)).

(** ** Reference definitions for the configuration *)

(** The URL begins with one of the two schemes [get_neo4j_uri] knows. *)
Definition has_scheme (url : string) : bool :=
  startswith url "bolt://" || startswith url "neo4j://".

(** The resource type passes the service filter, read without regard to
    case as a part of the type's name, and is not excluded. *)
Definition selected (excluded_types : list string)
  (service_filter : option string) (rt : string) : bool :=
  match service_filter with
  | Some f => negb (truthy f) || contains (lower f) (lower rt)
  | None => true
  end
  && negb (str_in rt excluded_types).

(** ** exporters *)

Module Exporter.

(** The dictionary [get_export_statistics] returns. *)
Record statistics : Type := mkStatistics {
  total_resources : nat;
  valid_resources : nat;
  resources_with_errors : nat;
  services : pydict nat;
  regions : pydict nat
}.

(** [filter_resources], with the service filter of the configuration. *)
Definition filter_resources (service_filter : option string)
  (resources : list ResourceInfo) : list ResourceInfo :=
  fold_left
    (fun filtered resource =>
       if has_error resource then filtered
       else if match service_filter with
               | Some f =>
                   truthy f
                   && negb (contains (lower f) (lower (service resource)))
               | None => false
               end
       then filtered
       else filtered ++ [resource])
    resources [].

(** [counts[k] = counts.get(k, 0) + 1]. *)
Definition count_under (k : string) (counts : pydict nat) : pydict nat :=
  dict_set k (match dict_get k counts with Some n => n | None => 0 end + 1)%nat
    counts.

Definition get_export_statistics (resources : list ResourceInfo)
  : statistics :=
  let total_resources := length resources in
  let resources_with_errors := length (filter has_error resources) in
  let valid_resources := (total_resources - resources_with_errors)%nat in
  let service_counts :=
    fold_left
      (fun counts resource =>
         let service_ :=
           if truthy (service resource) then service resource
           else "unknown" in
         count_under service_ counts)
      resources [] in
  let region_counts :=
    fold_left
      (fun counts resource =>
         let region_ :=
           if truthy (region resource) then region resource else "global" in
         count_under region_ counts)
      resources [] in
  mkStatistics total_resources valid_resources resources_with_errors
    service_counts region_counts.

(** [s.replace(old, new)] for strings of one character. *)
Fixpoint replace_char (old new : ascii) (s : string) : string :=
  match s with
  | EmptyString => EmptyString
  | String c t =>
      String (if (c =? old)%char then new else c) (replace_char old new t)
  end.

(** The characters [_make_safe_filename] replaces, in its order. *)
Definition unsafe_chars : list ascii :=
  ["/"; "\"; ":"; "<"; ">"; "|"; "*"; "?"; "034"]%char.

Definition _make_safe_filename (identifier : string) : string :=
  let safe :=
    fold_left (fun safe c => replace_char c "_"%char safe) unsafe_chars
      identifier in
  if (100 <? String.length safe)%nat
  then (substring 0 97 safe ++ "...")%string
  else safe.

End Exporter.

(** The string holds the character. *)
Fixpoint has_char (c : ascii) (s : string) : bool :=
  match s with
  | EmptyString => false
  | String c' t => (c' =? c)%char || has_char c t
  end.

(** ** Reference definitions for peering records and local routes *)

(** The peering connection records of a run: for each peering connection
    resource that has an identifier, the connections the EC2 call returns
    for it, each with that identifier. *)
Definition peering_records
  (describe_vpc_peering_connections : string -> option (list peering))
  (resources : pydict ResourceInfo) : list (string * peering) :=
  flat_map
    (fun entry =>
       let pcx_id := identifier (snd entry) in
       if (resource_type (snd entry) =? "AWS::EC2::VPCPeeringConnection")%string
          && truthy pcx_id
       then
         match describe_vpc_peering_connections pcx_id with
         | Some pcxs => map (pair pcx_id) pcxs
         | None => []
         end
       else [])
    resources.

(** The edge of one side of a peering connection record: from the current
    account to the owner of that side, when that owner is known and is not
    the current account. *)
Definition side_edge (current_account_id pcx_id owner_id : string)
  (pcx : peering) : list write :=
  if side_differs current_account_id owner_id
  then [MergePeering current_account_id owner_id pcx_id (accepter_vpc_id pcx)
          (requester_vpc_id pcx) (status_code pcx)]
  else [].

(** The number of sides of a record that give an edge. *)
Definition foreign_sides (current_account_id : string) (pcx : peering) : nat :=
  ((if side_differs current_account_id (accepter_owner_id pcx) then 1 else 0)
   + (if side_differs current_account_id (requester_owner_id pcx)
      then 1 else 0))%nat.


(** * Theorems *)

(** ** Strings and dictionaries *)

Lemma truthy_true_iff (s : string) : truthy s = true <-> s <> "".
Proof.
  unfold truthy. rewrite negb_true_iff. apply String.eqb_neq.
Qed.

Lemma truthy_false_iff (s : string) : truthy s = false <-> s = "".
Proof.
  unfold truthy. rewrite negb_false_iff. apply String.eqb_eq.
Qed.

Lemma lower_char_idempotent (c : ascii) : lower_char (lower_char c) = lower_char c.
Proof.
  destruct c as [[] [] [] [] [] [] [] []]; reflexivity.
Qed.

Lemma lower_idempotent (s : string) : lower (lower s) = lower s.
Proof.
  induction s as [|c t IH]; simpl; [reflexivity|].
  now rewrite lower_char_idempotent, IH.
Qed.

Lemma rstrip_nonempty (s : string) : rstrip s <> "" -> s <> "".
Proof.
  destruct s; simpl; [intros H; exact H | discriminate].
Qed.

Lemma lstrip_nonempty (s : string) : lstrip s <> "" -> s <> "".
Proof.
  destruct s; simpl; [intros H; exact H | discriminate].
Qed.

(** A string that strips to something is not empty: the first test of
    [arn and arn.strip()] never decides. *)
Lemma strip_truthy (s : string) : truthy (strip s) = true -> truthy s = true.
Proof.
  rewrite !truthy_true_iff. unfold strip. intros H.
  apply lstrip_nonempty. intros E. apply H. now rewrite E.
Qed.

Lemma arn_test_is_strip (s : string) :
  truthy s && truthy (strip s) = truthy (strip s).
Proof.
  destruct (truthy (strip s)) eqn:E.
  - now rewrite (strip_truthy s E).
  - apply andb_false_r.
Qed.

Lemma dict_mem_set {A : Type} (k k' : string) (v : A) (d : pydict A) :
  dict_mem k (dict_set k' v d) = (k' =? k)%string || dict_mem k d.
Proof.
  unfold dict_mem. induction d as [|[k0 v0] d IH]; simpl.
  - destruct (k' =? k)%string; reflexivity.
  - destruct (k0 =? k')%string eqn:E0; simpl.
    + apply String.eqb_eq in E0. subst k0.
      destruct (k' =? k)%string; reflexivity.
    + destruct (k0 =? k)%string eqn:E1.
      * now rewrite orb_true_r.
      * exact IH.
Qed.

Lemma dict_mem_update {A : Type} (k : string) (e d : pydict A) :
  dict_mem k (dict_update d e) = dict_mem k d || dict_mem k e.
Proof.
  unfold dict_update. revert d.
  induction e as [|[k0 v0] e IH]; intros d; simpl.
  - now rewrite orb_false_r.
  - rewrite IH, dict_mem_set.
    assert (E : dict_mem k ((k0, v0) :: e)
                = (k0 =? k)%string || dict_mem k e).
    { unfold dict_mem. simpl. now destruct (k0 =? k)%string. }
    rewrite E.
    destruct (k0 =? k)%string, (dict_mem k d), (dict_mem k e); reflexivity.
Qed.

Lemma dict_get_set_same {A : Type} (k : string) (v : A) (d : pydict A) :
  dict_get k (dict_set k v d) = Some v.
Proof.
  induction d as [|[k0 v0] d IH]; simpl.
  - now rewrite String.eqb_refl.
  - destruct (k0 =? k)%string eqn:E; simpl.
    + now rewrite String.eqb_refl.
    + now rewrite E.
Qed.

Lemma dict_get_set_other {A : Type} (k k' : string) (v : A) (d : pydict A) :
  k' <> k -> dict_get k (dict_set k' v d) = dict_get k d.
Proof.
  intros N. apply String.eqb_neq in N.
  induction d as [|[k0 v0] d IH]; simpl.
  - now rewrite N.
  - destruct (k0 =? k')%string eqn:E; simpl.
    + apply String.eqb_eq in E. subst k0. now rewrite N.
    + destruct (k0 =? k)%string; [reflexivity | exact IH].
Qed.

(** ** Node labels *)

Lemma startswith_sep_no_colon (c : ascii) (t : string) :
  (c =? ":")%char = false -> startswith (String c t) "::" = false.
Proof.
  intros H. cbn [startswith].
  rewrite Ascii.eqb_sym, H. reflexivity.
Qed.

Lemma append_assoc_char (cur : string) (c : ascii) (s : string) :
  ((cur ++ String c "") ++ s = cur ++ String c s)%string.
Proof.
  induction cur as [|x cur IH]; simpl; [reflexivity | now rewrite IH].
Qed.

Lemma append_empty_r (s : string) : (s ++ "")%string = s.
Proof.
  induction s as [|c t IH]; simpl; [reflexivity | now rewrite IH].
Qed.

(** A string without colon is one component. *)
Lemma split_from_plain (s cur : string) :
  no_colon s = true -> split_from "::" s 0 cur = [(cur ++ s)%string].
Proof.
  revert cur. induction s as [|c t IH]; intros cur H.
  - simpl. now rewrite append_empty_r.
  - simpl in H. apply andb_true_iff in H as [Hc Ht].
    apply negb_true_iff in Hc.
    change (split_from "::" (String c t) 0 cur)
      with (if startswith (String c t) "::"
            then cur :: split_from "::" t 1 ""
            else split_from "::" t 0 (cur ++ String c "")%string).
    rewrite (startswith_sep_no_colon c t Hc), (IH _ Ht).
    now rewrite append_assoc_char.
Qed.

(** A component without colon ends at the separator that follows it. *)
Lemma split_from_component (a rest cur : string) :
  no_colon a = true ->
  split_from "::" (a ++ "::" ++ rest)%string 0 cur
  = (cur ++ a)%string :: split_from "::" rest 0 "".
Proof.
  revert cur. induction a as [|c t IH]; intros cur H.
  - simpl. now rewrite append_empty_r.
  - simpl in H. apply andb_true_iff in H as [Hc Ht].
    apply negb_true_iff in Hc.
    change (split_from "::" (String c t ++ "::" ++ rest)%string 0 cur)
      with (if startswith (String c (t ++ "::" ++ rest)) "::"
            then cur :: split_from "::" (t ++ "::" ++ rest)%string 1 ""
            else split_from "::" (t ++ "::" ++ rest)%string 0
                   (cur ++ String c "")%string).
    rewrite (startswith_sep_no_colon c _ Hc), (IH _ Ht).
    now rewrite append_assoc_char.
Qed.

Lemma split_resource_type (svc kind : string) :
  no_colon svc = true -> no_colon kind = true ->
  split ("AWS::" ++ svc ++ "::" ++ kind)%string "::" = ["AWS"; svc; kind].
Proof.
  intros Hs Hk. unfold split.
  change ("AWS::" ++ svc ++ "::" ++ kind)%string
    with ("AWS" ++ "::" ++ (svc ++ "::" ++ kind))%string.
  rewrite (split_from_component "AWS" _ "" eq_refl).
  rewrite (split_from_component svc kind "" Hs).
  rewrite (split_from_plain kind "" Hk).
  reflexivity.
Qed.

(** The usual shape of a resource type: the label is its last part. *)
Lemma extract_node_type_kind (svc kind : string) :
  no_colon svc = true -> no_colon kind = true ->
  _extract_node_type ("AWS::" ++ svc ++ "::" ++ kind)%string = kind.
Proof.
  intros Hs Hk. unfold _extract_node_type.
  rewrite (split_resource_type svc kind Hs Hk).
  reflexivity.
Qed.

Lemma extract_node_type_kind_witness :
  _extract_node_type "AWS::ElasticLoadBalancingV2::TargetGroup" = "TargetGroup".
Proof.
  apply (extract_node_type_kind "ElasticLoadBalancingV2" "TargetGroup");
    reflexivity.
Defined.

(** C9: [_extract_node_type] is total; for a type that starts with [AWS::]
    and has at least three [::]-separated components it returns the third
    one, and in every other case the label [UnknownResource].  It is the
    label interpolated into the resource node upsert, its ownership edge,
    the usage edges and the route target edges. *)
Theorem extract_node_type_total :
  (forall rtype : string,
      (startswith rtype "AWS::" = true ->
       (3 <= length (split rtype "::"))%nat ->
       _extract_node_type rtype = nth 2 (split rtype "::") "")
      /\ (startswith rtype "AWS::" = false ->
          _extract_node_type rtype = "UnknownResource")
      /\ ((length (split rtype "::") < 3)%nat ->
          _extract_node_type rtype = "UnknownResource"))
  /\ (forall (a : account) (r : ResourceInfo) (w : write) (l : string),
         In w (_create_resource_node a r) ->
         In l (interpolated_labels w) ->
         l = _extract_node_type (resource_type r))
  /\ (forall (r : ResourceInfo) (rel : string * ResourceInfo),
         interpolated_labels (usage_write r rel)
         = [_extract_node_type (resource_type r);
            _extract_node_type (resource_type (snd rel))])
  /\ (forall (props : pydict string) (resources : pydict ResourceInfo)
             (w : write) (l : string),
         In w (_create_route_target_relationships props resources) ->
         In l (interpolated_labels w) ->
         exists m, In m target_mappings /\ l = _extract_node_type (snd m)).
Proof.
  repeat split.
  - intros Hs Hl. unfold _extract_node_type. rewrite Hs. simpl negb. cbv iota.
    apply Nat.leb_le in Hl. now rewrite Hl.
  - intros Hs. unfold _extract_node_type. now rewrite Hs.
  - intros Hl. unfold _extract_node_type.
    destruct (negb (startswith rtype "AWS::")); [reflexivity|].
    apply Nat.leb_gt in Hl. now rewrite Hl.
  - intros a r w l Hw Hl. unfold _create_resource_node in Hw.
    destruct (node_props_of a r) as [props|]; [|contradiction].
    destruct (unique_key_value a r) as [uk uv].
    destruct Hw as [Hw|Hw].
    + subst w. simpl in Hl. destruct Hl as [Hl|[]]. now symmetry.
    + destruct (account_truthy a); [|contradiction].
      destruct Hw as [Hw|[]]. subst w. simpl in Hl.
      destruct Hl as [Hl|[]]. now symmetry.
  - intros r [rel_type target]. reflexivity.
  - intros props resources w l Hw Hl.
    unfold _create_route_target_relationships in Hw.
    apply in_flat_map in Hw as [m [Hm Hw]]. exists m. split; [exact Hm|].
    unfold route_target_writes in Hw.
    destruct (dict_get (fst m) props) as [target_id|]; [|contradiction].
    destruct (truthy target_id && negb (target_id =? "local")%string);
      [|contradiction].
    destruct (find_target_arn resources (snd m) target_id) as [ta|];
      [|contradiction].
    destruct (truthy ta); [|contradiction].
    destruct Hw as [Hw|[]]. subst w. simpl in Hl.
    destruct Hl as [Hl|[]]. now symmetry.
Qed.

Lemma extract_node_type_total_witness :
  _extract_node_type "AWS::EC2::PrefixList" = "PrefixList"
  /\ _extract_node_type "AWS::EC2" = "UnknownResource"
  /\ _extract_node_type "Custom::EC2::Thing" = "UnknownResource".
Proof.
  destruct extract_node_type_total as [H _].
  split; [|split].
  - destruct (H "AWS::EC2::PrefixList") as [H1 _].
    apply H1; [reflexivity | vm_compute; lia].
  - destruct (H "AWS::EC2") as [_ [_ H3]].
    apply H3. vm_compute. lia.
  - destruct (H "Custom::EC2::Thing") as [_ [H2 _]].
    apply H2. reflexivity.
Defined.

(** ** Node identity *)

(** C4, as the code has it: the upsert key is the ARN exactly when the ARN
    is not empty once stripped; otherwise it is the composite key
    [id:account:region:type], whose region part is the record's region for
    a regional service and the word [global] for a global one.  That key is
    the one the node upsert is issued with. *)
Theorem upsert_key_arn_or_composite (a : account) (r : ResourceInfo) :
  unique_key_value a r
  = (if truthy (strip (arn r))
     then ("arn", arn r)
     else ("composite_id",
           (identifier r ++ ":" ++ account_text a ++ ":"
            ++ (if _is_global_service (service r) then "global" else region r)
            ++ ":" ++ resource_type r)%string))
  /\ (forall props : pydict value,
         node_props_of a r = Some props ->
         hd_error (_create_resource_node a r)
         = Some (MergeNode (_extract_node_type (resource_type r))
                   (fst (unique_key_value a r)) (snd (unique_key_value a r))
                   props)).
Proof.
  split.
  - unfold unique_key_value, composite_id.
    rewrite arn_test_is_strip.
    destruct (truthy (strip (arn r))); [reflexivity|].
    now destruct (_is_global_service (service r)).
  - intros props Hp. unfold _create_resource_node. rewrite Hp.
    now destruct (unique_key_value a r).
Qed.

Lemma upsert_key_arn_or_composite_witness :
  hd_error
    (_create_resource_node (Some "123456789012")
       (new_resource "AWS::EC2::KeyPair" "deploy-key" "  " []
          "eu-west-1" ""))
  = Some (MergeNode "KeyPair" "composite_id"
            "deploy-key:123456789012:eu-west-1:AWS::EC2::KeyPair"
            [("aws_resource_type", VStr "AWS::EC2::KeyPair");
             ("identifier", VStr "deploy-key");
             ("arn", VStr "  ");
             ("service", VStr "ec2");
             ("account_id", VStr "123456789012");
             ("updated_at", VStr "datetime()");
             ("region", VStr "eu-west-1");
             ("composite_id",
              VStr "deploy-key:123456789012:eu-west-1:AWS::EC2::KeyPair")]).
Proof.
  exact (proj2 (upsert_key_arn_or_composite (Some "123456789012")
                  (new_resource "AWS::EC2::KeyPair" "deploy-key" "  " []
                     "eu-west-1" ""))
           _ eq_refl).
Defined.

(** C4, as stated, fails on a record of a global service without ARN: its
    key names [global], not the record's region. *)
Lemma upsert_key_global_counterexample : ~ upsert_key_as_stated.
Proof.
  intros H.
  specialize (H (Some "123456789012")
                (new_resource "AWS::IAM::AccessKey" "AKIAEXAMPLE" "" []
                   "us-east-1" "")
                eq_refl).
  vm_compute in H. discriminate H.
Qed.

Lemma dict_get_update_absent {A : Type} (k : string) (e d : pydict A) :
  dict_mem k e = false -> dict_get k (dict_update d e) = dict_get k d.
Proof.
  unfold dict_update. revert d.
  induction e as [|[k0 v0] e IH]; intros d H; simpl; [reflexivity|].
  unfold dict_mem in H. simpl in H.
  destruct (k0 =? k)%string eqn:E; [discriminate|].
  rewrite IH.
  - apply dict_get_set_other. now apply String.eqb_neq.
  - exact H.
Qed.

Lemma base_node_props_region (a : account) (r : ResourceInfo) :
  dict_mem "region" (base_node_props a r)
  = negb (_is_global_service (service r))
  /\ (_is_global_service (service r) = false ->
      dict_get "region" (base_node_props a r) = Some (VStr (region r))).
Proof.
  unfold base_node_props.
  destruct (_is_global_service (service r)); simpl; split;
    try reflexivity; discriminate.
Qed.

(** C7, as the code has it: the node carries a [region] property exactly
    when the service is not global or the record's own properties flatten
    to a key [region]; a regional record always carries one, and it is the
    record's region unless the record's properties give another. *)
Theorem region_property_presence (a : account) (r : ResourceInfo)
  (flat props : pydict value) :
  _flatten_properties (properties r) = Some flat ->
  node_props_of a r = Some props ->
  dict_mem "region" props
  = negb (_is_global_service (service r)) || dict_mem "region" flat
  /\ (_is_global_service (service r) = false ->
      dict_mem "region" props = true
      /\ (dict_mem "region" flat = false ->
          dict_get "region" props = Some (VStr (region r)))).
Proof.
  intros Hf Hp. unfold node_props_of in Hp. rewrite Hf in Hp.
  destruct (base_node_props_region a r) as [Hb Hg].
  assert (Hm : dict_mem "region" (dict_update (base_node_props a r) flat)
               = negb (_is_global_service (service r))
                 || dict_mem "region" flat)
    by now rewrite dict_mem_update, Hb.
  assert (Hv : _is_global_service (service r) = false ->
               dict_mem "region" flat = false ->
               dict_get "region" (dict_update (base_node_props a r) flat)
               = Some (VStr (region r))).
  { intros G F. rewrite (dict_get_update_absent _ _ _ F). now apply Hg. }
  destruct (truthy (arn r) && truthy (strip (arn r)));
    injection Hp as <-.
  - split; [exact Hm|]. intros G. split.
    + rewrite Hm, G. reflexivity.
    + now apply Hv.
  - rewrite dict_mem_set. change ("composite_id" =? "region")%string with false.
    rewrite orb_false_l. split; [exact Hm|]. intros G. split.
    + rewrite Hm, G. reflexivity.
    + intros F. rewrite dict_get_set_other by discriminate. now apply Hv.
Qed.

Lemma region_property_presence_witness :
  exists props,
    node_props_of (Some "123456789012")
      (new_resource "AWS::EC2::Instance" "i-0abc"
         "arn:aws:ec2:us-east-1:123456789012:instance/i-0abc"
         [("InstanceType", VStr "t3.micro")] "us-east-1" "")
    = Some props
    /\ dict_get "region" props = Some (VStr "us-east-1").
Proof.
  eexists. split; [reflexivity|].
  refine (proj2 (proj2 (region_property_presence (Some "123456789012")
                   (new_resource "AWS::EC2::Instance" "i-0abc"
                      "arn:aws:ec2:us-east-1:123456789012:instance/i-0abc"
                      [("InstanceType", VStr "t3.micro")] "us-east-1" "")
                   _ _ eq_refl eq_refl) eq_refl) eq_refl).
Defined.

(** C7, as stated, fails on a record of a global service whose properties
    hold a key [region]: the node carries it. *)
Lemma region_global_counterexample : ~ region_iff_regional_as_stated.
Proof.
  intros H.
  destruct (H (Some "123456789012")
              (new_resource "AWS::IAM::Role" "deploy"
                 "arn:aws:iam::123456789012:role/deploy"
                 [("region", VStr "eu-west-1")] "us-east-1" "")
              _ eq_refl eq_refl) as [H1 _].
  specialize (H1 eq_refl). vm_compute in H1. discriminate H1.
Qed.

(** ** Relationship classification *)

Ltac first_rule :=
  match goal with
  | |- (if ?c then _ else _) = (if ?c then _ else _) =>
      destruct c; [reflexivity|]
  end.

Ltac skip_rule :=
  match goal with
  | |- (if ?c then _ else _) <> _ => destruct c; [discriminate|]
  end.

Lemma determine_usage_is_first_match (source target : ResourceInfo)
  (path key : string) :
  _determine_usage_relationship source target path key
  = first_match classification_rules (lower key) (lower path)
      (resource_type target) "USES".
Proof.
  unfold _determine_usage_relationship, classification_rules, first_match.
  cbv beta zeta.
  do 10 first_rule.
  cbn [existsb]. rewrite orb_false_r, orb_assoc. reflexivity.
Qed.

Lemma determine_usage_never_references (source target : ResourceInfo)
  (path key : string) :
  _determine_usage_relationship source target path key <> "REFERENCES".
Proof.
  unfold _determine_usage_relationship. cbv beta zeta.
  do 11 skip_rule. discriminate.
Qed.

Lemma first_match_no_signal (k p t : string) :
  no_signal k p t = true ->
  first_match classification_rules k p t "USES" = "USES".
Proof.
  unfold no_signal.
  generalize classification_rules as rules.
  induction rules as [|[test kind] rules IH]; simpl; [reflexivity|].
  intros H. apply andb_true_iff in H as [H1 H2].
  apply negb_true_iff in H1. rewrite H1. now apply IH.
Qed.

(** C1, as the code has it: the classification is the first match of the
    eleven rules of the table, in their order, and USES when none matches.
    Rule 1 wins over every later rule: a key that contains [log], or a path
    that contains [logging], gives LOGS_TO.  No input is classified
    REFERENCES. *)
Theorem classification_first_match_wins (source target : ResourceInfo)
  (path key : string) :
  _determine_usage_relationship source target path key
  = first_match classification_rules (lower key) (lower path)
      (resource_type target) "USES"
  /\ (contains "log" (lower key) || contains "logging" (lower path) = true ->
      _determine_usage_relationship source target path key = "LOGS_TO")
  /\ (no_signal (lower key) (lower path) (resource_type target) = true ->
      _determine_usage_relationship source target path key = "USES")
  /\ _determine_usage_relationship source target path key <> "REFERENCES".
Proof.
  split; [apply determine_usage_is_first_match|].
  split; [|split].
  - intros H. unfold _determine_usage_relationship. cbv beta zeta.
    now rewrite H.
  - intros H. rewrite determine_usage_is_first_match.
    now apply first_match_no_signal.
  - apply determine_usage_never_references.
Qed.

Lemma classification_first_match_wins_witness :
  _determine_usage_relationship
    (new_resource "AWS::S3::Bucket" "assets" "arn:aws:s3:::assets" []
       "us-east-1" "")
    (new_resource "AWS::IAM::Role" "writer"
       "arn:aws:iam::123456789012:role/writer" [] "us-east-1" "")
    "LoggingConfiguration.loggingBucketRoleArn" "loggingBucketRoleArn"
  = "LOGS_TO".
Proof.
  exact (proj1 (proj2 (classification_first_match_wins
                         (new_resource "AWS::S3::Bucket" "assets"
                            "arn:aws:s3:::assets" [] "us-east-1" "")
                         (new_resource "AWS::IAM::Role" "writer"
                            "arn:aws:iam::123456789012:role/writer" []
                            "us-east-1" "")
                         "LoggingConfiguration.loggingBucketRoleArn"
                         "loggingBucketRoleArn"))
           eq_refl).
Defined.

(** C1, as stated, fails on rule 12: a reference found by the ARN scan
    under a key that gives no other signal is classified USES. *)
Lemma references_rule_counterexample : ~ references_rule_as_stated.
Proof.
  intros H.
  specialize (H (new_resource "AWS::Lambda::Function" "resize"
                   "arn:aws:lambda:us-east-1:123456789012:function:resize"
                   [("Target", VStr "arn:aws:sqs:us-east-1:123456789012:jobs")]
                   "us-east-1" "")
                (new_resource "AWS::SQS::Queue" "jobs"
                   "arn:aws:sqs:us-east-1:123456789012:jobs" []
                   "us-east-1" "")
                "Target" "arn:aws:sqs:us-east-1:123456789012:jobs"
                eq_refl eq_refl eq_refl).
  vm_compute in H. discriminate H.
Qed.

(** ** Self references *)

(** C2 at its failing input: a valid bucket whose properties hold its own
    ARN.  The ARN scan links the bucket to itself; the identifier scan,
    which meets the bucket's own name, does not. *)
Theorem arn_scan_links_resource_to_itself :
  is_valid own_arn_bucket = true
  /\ map (usage_write own_arn_bucket)
       (_find_arn_references own_arn_bucket
          (build_arn_to_resource [own_arn_bucket]))
     = [MergeUsage "Bucket" "arn:aws:s3:::assets"
          "Bucket" "arn:aws:s3:::assets" "USES"]
  /\ existsb is_self_loop
       (map (usage_write own_arn_bucket)
          (_find_arn_references own_arn_bucket
             (build_arn_to_resource [own_arn_bucket])))
     = true
  /\ _find_id_references own_arn_bucket
       (build_id_to_resources [own_arn_bucket]) = [].
Proof.
  repeat split.
Qed.

(** The ARN scan reports every indexed ARN held by a top-level property,
    whoever owns it. *)
Lemma search_arns_top_level (resource target : ResourceInfo)
  (arn_to_resource : pydict ResourceInfo) (d : pydict value)
  (key s : string) :
  In (key, VStr s) d ->
  startswith s "arn:aws:" = true ->
  dict_get s arn_to_resource = Some target ->
  In (_determine_usage_relationship resource target key key, target)
     (search_arns resource arn_to_resource (VDict d) "").
Proof.
  intros Hin Hs Hg. cbn [search_arns].
  induction d as [|[k v] rest IH]; [contradiction|].
  apply in_or_app. destruct Hin as [E|Hin].
  - left. injection E as -> ->. rewrite Hs, Hg. left. reflexivity.
  - right. now apply IH.
Qed.

(** So a record that holds its own ARN in a property, as the records of the
    enumeration do, is linked to itself. *)
Lemma arn_scan_self_reference (resource : ResourceInfo)
  (arn_to_resource : pydict ResourceInfo) (key : string) :
  In (key, VStr (arn resource)) (properties resource) ->
  startswith (arn resource) "arn:aws:" = true ->
  dict_get (arn resource) arn_to_resource = Some resource ->
  exists rel_type,
    In (rel_type, resource) (_find_arn_references resource arn_to_resource)
    /\ is_self_loop (usage_write resource (rel_type, resource)) = true.
Proof.
  intros Hin Hs Hg.
  exists (_determine_usage_relationship resource resource key key). split.
  - now apply (search_arns_top_level resource resource arn_to_resource
                 (properties resource) key (arn resource)).
  - simpl. apply String.eqb_refl.
Qed.

(** The identifier scan leaves out every resource that has the source's
    ARN, the source itself first. *)
Lemma id_hits_not_self (resource : ResourceInfo) (targets : list ResourceInfo)
  (path key : string) (rel : string * ResourceInfo) :
  In rel (id_hits resource targets path key) -> arn (snd rel) <> arn resource.
Proof.
  unfold id_hits. intros H. apply in_flat_map in H as [t [_ H]].
  destruct (arn t =? arn resource)%string eqn:E; simpl in H; [contradiction|].
  destruct H as [H|[]]. subst rel. simpl. now apply String.eqb_neq.
Qed.

Lemma search_ids_not_self (resource : ResourceInfo)
  (id_to_resources : pydict (list ResourceInfo)) (obj : value) :
  forall (path : string) (rel : string * ResourceInfo),
    In rel (search_ids resource id_to_resources obj path) ->
    arn (snd rel) <> arn resource.
Proof.
  induction obj as [| | | | |l IH|d IH|] using value_ind_nested;
    intros path rel H; try (simpl in H; contradiction).
  - simpl in H. revert H. generalize 0%nat as i.
    induction IH as [|item rest Hitem _ IHrest]; intros i H;
      [contradiction|].
    apply in_app_or in H as [H|H].
    + destruct item; try contradiction; now apply (Hitem _ _ H).
    + now apply (IHrest (S i)).
  - simpl in H.
    induction IH as [|[key v] rest Hv _ IHrest]; [contradiction|].
    apply in_app_or in H as [H|H].
    + simpl in Hv. destruct v; try contradiction.
      * destruct (dict_get s id_to_resources) as [targets|];
          [|contradiction].
        now apply (id_hits_not_self _ _ _ _ _ H).
      * now apply (Hv _ _ H).
      * now apply (Hv _ _ H).
    + now apply IHrest.
Qed.

(** The identifier scan never links a resource to a node of its own ARN. *)
Theorem id_scan_never_links_to_self (resource : ResourceInfo)
  (id_to_resources : pydict (list ResourceInfo)) (rel : string * ResourceInfo) :
  In rel (_find_id_references resource id_to_resources) ->
  is_self_loop (usage_write resource rel) = false.
Proof.
  intros H. apply search_ids_not_self in H.
  destruct rel as [rel_type target]. simpl in *.
  apply String.eqb_neq. intros E. now apply H.
Qed.

Lemma id_scan_never_links_to_self_witness :
  is_self_loop
    (usage_write
       (new_resource "AWS::EC2::Instance" "i-0abc"
          "arn:aws:ec2:us-east-1:123456789012:instance/i-0abc"
          [("SubnetId", VStr "subnet-1")] "us-east-1" "")
       ("DEPLOYED_IN",
        new_resource "AWS::EC2::Subnet" "subnet-1"
          "arn:aws:ec2:us-east-1:123456789012:subnet/subnet-1" []
          "us-east-1" ""))
  = false.
Proof.
  apply (id_scan_never_links_to_self
           (new_resource "AWS::EC2::Instance" "i-0abc"
              "arn:aws:ec2:us-east-1:123456789012:instance/i-0abc"
              [("SubnetId", VStr "subnet-1")] "us-east-1" "")
           (build_id_to_resources
              [new_resource "AWS::EC2::Subnet" "subnet-1"
                 "arn:aws:ec2:us-east-1:123456789012:subnet/subnet-1" []
                 "us-east-1" ""])).
  left. reflexivity.
Defined.

(** ** Property flattening *)

Lemma store_leaves_app (l1 l2 : list (string * value)) (fl : pydict value) :
  store_leaves (l1 ++ l2) fl
  = match store_leaves l1 fl with
    | Some fl' => store_leaves l2 fl'
    | None => None
    end.
Proof.
  revert fl. induction l1 as [|[k v] l1 IH]; intros fl; simpl;
    [reflexivity|].
  destruct (flat_value v); [apply IH | reflexivity].
Qed.

(** One entry is flattened by storing its leaves in order. *)
Lemma flatten_item_leaves (v : value) :
  forall (prefix key : string) (fl : pydict value),
    flatten_item prefix key v fl = store_leaves (leaves_item prefix key v) fl.
Proof.
  induction v as [| | | | |l _|d IH|] using value_ind_nested;
    intros prefix key fl; try reflexivity.
  - destruct l as [|x l]; [reflexivity|].
    cbn [flatten_item leaves_item store_leaves flat_value].
    now destruct (Json.dumps (VList (x :: l))).
  - cbn [flatten_item leaves_item].
    generalize (new_key prefix key) as nk. intros nk. revert fl.
    induction IH as [|[k x] rest Hx _ IHrest]; intros fl; [reflexivity|].
    rewrite store_leaves_app. simpl in Hx. rewrite <- Hx.
    destruct (flatten_item nk k x fl); [apply IHrest | reflexivity].
Qed.

Lemma flatten_dict_leaves (obj : pydict value) (prefix : string)
  (fl : pydict value) :
  flatten_dict obj prefix fl = store_leaves (leaves obj prefix) fl.
Proof.
  revert fl. induction obj as [|[k x] rest IH]; intros fl; [reflexivity|].
  simpl. rewrite store_leaves_app, <- flatten_item_leaves.
  destruct (flatten_item prefix k x fl); [apply IH | reflexivity].
Qed.

Lemma flat_value_scalar (v sv : value) :
  flat_value v = Some sv -> is_scalar sv = true.
Proof.
  destruct v as [| | | | |l| |]; cbn [flat_value]; intros H;
    try (injection H as <-; reflexivity); try discriminate.
  destruct l as [|x l]; [injection H as <-; reflexivity|].
  destruct (Json.dumps (VList (x :: l))); cbn [option_map] in H;
    [injection H as <-; reflexivity | discriminate].
Qed.

Lemma dict_set_scalar (k : string) (v : value) (d : pydict value) :
  is_scalar v = true -> scalar_values d -> scalar_values (dict_set k v d).
Proof.
  intros Hv Hd. induction Hd as [|[k0 v0] d H0 Hd IH]; simpl.
  - repeat constructor. exact Hv.
  - destruct (k0 =? k)%string; constructor; assumption.
Qed.

Lemma store_leaves_scalar (ls : list (string * value)) :
  forall fl out : pydict value,
    scalar_values fl -> store_leaves ls fl = Some out -> scalar_values out.
Proof.
  induction ls as [|[k v] ls IH]; intros fl out Hfl H; simpl in H.
  - now injection H as <-.
  - destruct (flat_value v) as [sv|] eqn:E; [|discriminate].
    apply (IH _ _ (dict_set_scalar k sv fl (flat_value_scalar _ _ E) Hfl) H).
Qed.

(** [json.dumps] succeeds on a value made of JSON only. *)
Lemma dumps_json_value (v : value) :
  json_value v = true -> exists s, Json.dumps v = Some s.
Proof.
  induction v as [|b| | | |l IH|d IH|] using value_ind_nested; intros H;
    try (eexists; reflexivity); try discriminate.
  - destruct b; eexists; reflexivity.
  - cbn [Json.dumps].
    assert (E : exists parts,
               (fix elems (l : list value) : option (list string) :=
                  match l with
                  | [] => Some []
                  | x :: rest =>
                      match Json.dumps x, elems rest with
                      | Some sx, Some srest => Some (sx :: srest)
                      | _, _ => None
                      end
                  end) l = Some parts).
    { simpl in H. induction IH as [|x rest Hx _ IHrest];
        [eexists; reflexivity|].
      simpl in H. apply andb_true_iff in H as [H1 H2].
      destruct (Hx H1) as [sx ->]. destruct (IHrest H2) as [srest ->].
      eexists; reflexivity. }
    destruct E as [parts ->]. eexists; reflexivity.
  - cbn [Json.dumps].
    assert (E : exists parts,
               (fix items (d : list (string * value))
                  : option (list string) :=
                  match d with
                  | [] => Some []
                  | (k, x) :: rest =>
                      match Json.dumps x, items rest with
                      | Some sx, Some srest =>
                          Some ((Json.quote k ++ ": " ++ sx)%string :: srest)
                      | _, _ => None
                      end
                  end) d = Some parts).
    { simpl in H. induction IH as [|[k x] rest Hx _ IHrest];
        [eexists; reflexivity|].
      apply andb_true_iff in H as [H1 H2]. simpl in Hx.
      destruct (Hx H1) as [sx ->]. destruct (IHrest H2) as [srest ->].
      eexists; reflexivity. }
    destruct E as [parts ->]. eexists; reflexivity.
Qed.

(** The flattening returns on properties made of JSON only. *)
Lemma flatten_item_total (v : value) :
  forall (prefix key : string) (fl : pydict value),
    json_value v = true -> exists out, flatten_item prefix key v fl = Some out.
Proof.
  induction v as [| | | | |l _|d IH|] using value_ind_nested;
    intros prefix key fl H; try (eexists; reflexivity); try discriminate.
  - destruct l as [|x l]; [eexists; reflexivity|].
    cbn [flatten_item].
    destruct (dumps_json_value (VList (x :: l)) H) as [s ->].
    eexists; reflexivity.
  - cbn [flatten_item]. generalize (new_key prefix key) as nk. intros nk.
    simpl in H. revert fl.
    induction IH as [|[k x] rest Hx _ IHrest]; intros fl;
      [eexists; reflexivity|].
    apply andb_true_iff in H as [H1 H2]. simpl in Hx.
    destruct (Hx nk k fl H1) as [fl' ->]. now apply IHrest.
Qed.

Lemma flatten_dict_total (obj : pydict value) (prefix : string)
  (fl : pydict value) :
  json_value (VDict obj) = true ->
  exists out, flatten_dict obj prefix fl = Some out.
Proof.
  revert fl. induction obj as [|[k x] rest IH]; intros fl H;
    [eexists; reflexivity|].
  simpl in H. apply andb_true_iff in H as [H1 H2]. simpl.
  destruct (flatten_item_total x prefix k fl H1) as [fl' ->].
  now apply IH.
Qed.

(** C3, as the code has it: the flattening stores the leaves of the
    properties in order, each under the key that joins its path with
    underscores.  A nested map contributes its own leaves (an empty one
    none), every list is stored as its JSON text, [None] as the empty
    string, a scalar as it is, so every stored value is a scalar.  It
    returns on every input made of JSON, and equal inputs give equal
    outputs. *)
Theorem flatten_properties_stores_leaves :
  (forall props : pydict value,
      _flatten_properties props = store_leaves (leaves props "") [])
  /\ (forall props out : pydict value,
         _flatten_properties props = Some out -> scalar_values out)
  /\ (forall props : pydict value,
         json_value (VDict props) = true ->
         exists out, _flatten_properties props = Some out)
  /\ (forall (k1 k2 : string) (v : value),
         k1 <> "" -> is_scalar v = true ->
         _flatten_properties [(k1, VDict [(k2, v)])]
         = Some [((k1 ++ "_" ++ k2)%string, v)])
  /\ (forall (k : string) (l : list value) (s : string),
         Json.dumps (VList l) = Some s ->
         _flatten_properties [(k, VList l)] = Some [(k, VStr s)])
  /\ (forall k : string, _flatten_properties [(k, VNone)] = Some [(k, VStr "")])
  /\ (forall k : string, _flatten_properties [(k, VDict [])] = Some [])
  /\ (forall p q : pydict value,
         p = q -> _flatten_properties p = _flatten_properties q).
Proof.
  repeat split.
  - intros props. apply flatten_dict_leaves.
  - intros props out H. unfold _flatten_properties in H.
    rewrite flatten_dict_leaves in H.
    apply (store_leaves_scalar _ [] out (Forall_nil _) H).
  - intros props H. now apply flatten_dict_total.
  - intros k1 k2 v Hk Hv. apply truthy_true_iff in Hk.
    unfold _flatten_properties.
    destruct v; try discriminate;
      cbn [flatten_dict flatten_item new_key truthy String.eqb negb];
      unfold new_key; rewrite Hk; reflexivity.
  - intros k l s H. unfold _flatten_properties.
    destruct l as [|x l].
    + injection H as <-. reflexivity.
    + cbn [flatten_dict flatten_item]. rewrite H. reflexivity.
  - intros p q ->. reflexivity.
Qed.

Lemma flatten_properties_stores_leaves_witness :
  _flatten_properties [("Ports", VList [VInt 80; VInt 443])]
  = Some [("Ports", VStr "[80, 443]")]
  /\ _flatten_properties
       [("Placement", VDict [("Zone", VStr "us-east-1a")])]
     = Some [("Placement_Zone", VStr "us-east-1a")].
Proof.
  destruct flatten_properties_stores_leaves as [_ [_ [_ [Hn [Hl _]]]]].
  split.
  - apply (Hl "Ports" [VInt 80; VInt 443] "[80, 443]"). reflexivity.
  - apply (Hn "Placement" "Zone" (VStr "us-east-1a")).
    + discriminate.
    + reflexivity.
Defined.

(** C3, as stated, fails on a list of scalars: it is stored as text. *)
Lemma scalar_lists_kept_counterexample : ~ scalar_lists_kept_as_stated.
Proof.
  intros H.
  specialize (H "Ports" [VInt 80; VInt 443] [("Ports", VStr "[80, 443]")]
                eq_refl eq_refl).
  vm_compute in H. discriminate H.
Qed.

(** ** Cross-account peering *)

Lemma cross_account_targets_sides (cur : string) (pcx : peering) :
  cross_account_targets cur pcx
  = (if side_differs cur (accepter_owner_id pcx)
     then [accepter_owner_id pcx] else [])
    ++ (if side_differs cur (requester_owner_id pcx)
        then [requester_owner_id pcx] else []).
Proof. reflexivity. Qed.

Lemma side_differs_true (cur owner : string) :
  owner <> "" -> owner <> cur -> side_differs cur owner = true.
Proof.
  intros H1 H2. unfold side_differs.
  apply andb_true_iff. split.
  - now apply truthy_true_iff.
  - apply negb_true_iff. now apply String.eqb_neq.
Qed.

Lemma side_differs_same (cur : string) : side_differs cur cur = false.
Proof.
  unfold side_differs. rewrite String.eqb_refl. apply andb_false_r.
Qed.

Lemma peering_writes_sides (cur pcx_id : string) (pcx : peering) :
  peering_writes cur pcx_id pcx
  = side_edge cur pcx_id (accepter_owner_id pcx) pcx
    ++ side_edge cur pcx_id (requester_owner_id pcx) pcx.
Proof.
  unfold peering_writes, side_edge. rewrite cross_account_targets_sides.
  rewrite map_app.
  now destruct (side_differs cur (accepter_owner_id pcx)),
    (side_differs cur (requester_owner_id pcx)).
Qed.

Lemma peering_components_records (a : account)
  (describe : string -> option (list peering))
  (resources : pydict ResourceInfo) :
  _create_vpc_peering_components a describe resources
  = flat_map
      (fun c => peering_writes (_get_account_id a) (fst c) (snd c))
      (peering_records describe resources).
Proof.
  unfold _create_vpc_peering_components, peering_records.
  induction resources as [|entry rest IH]; [reflexivity|].
  cbn [flat_map]. rewrite flat_map_app, <- IH. f_equal.
  destruct ((resource_type (snd entry) =? "AWS::EC2::VPCPeeringConnection")
            && truthy (identifier (snd entry)))%string; [|reflexivity].
  destruct (describe (identifier (snd entry))) as [pcxs|]; [|reflexivity].
  induction pcxs as [|pcx pcxs IHp]; [reflexivity|].
  cbn [flat_map map fst snd]. now rewrite IHp.
Qed.

Lemma side_edge_in (cur pcx_id owner : string) (pcx : peering) (w : write) :
  In w (side_edge cur pcx_id owner pcx)
  <-> owner <> "" /\ owner <> cur
      /\ w = MergePeering cur owner pcx_id (accepter_vpc_id pcx)
               (requester_vpc_id pcx) (status_code pcx).
Proof.
  unfold side_edge, side_differs.
  destruct (truthy owner) eqn:Ht; destruct (owner =? cur)%string eqn:Ec;
    cbn [andb negb].
  - apply String.eqb_eq in Ec. split; [intros [] | intros [_ [H _]]].
    now elim H.
  - apply truthy_true_iff in Ht. apply String.eqb_neq in Ec. split.
    + intros [<-|[]]. auto.
    + intros [_ [_ ->]]. now left.
  - apply truthy_false_iff in Ht. split; [intros [] | intros [H _]].
    now elim H.
  - apply truthy_false_iff in Ht. split; [intros [] | intros [H _]].
    now elim H.
Qed.

(** C5: the current account of [_create_vpc_peering_components] is the
    account the client holds ([unknown] when it holds none).  For every
    peering connection record of a run, whatever the resources and the
    answers of EC2 are, the accepter side and the requester side are tested
    one by one, and each side whose owner is known and is not the current
    account gives one edge from the current account to that owner: the
    edges of the run are those of its records, record after record.  A
    record with two foreign owners gives exactly two edges, and records
    wholly of the current account give none. *)
Theorem peering_edges_per_side (a : account)
  (describe : string -> option (list peering))
  (resources : pydict ResourceInfo) :
  let cur := _get_account_id a in
  let edges := _create_vpc_peering_components a describe resources in
  (forall acct : string, a = Some acct -> acct <> "" -> cur = acct)
  /\ (account_truthy a = false -> cur = "unknown")
  /\ edges
     = flat_map
         (fun c =>
            side_edge cur (fst c) (accepter_owner_id (snd c)) (snd c)
            ++ side_edge cur (fst c) (requester_owner_id (snd c)) (snd c))
         (peering_records describe resources)
  /\ length edges
     = list_sum (map (fun c => foreign_sides cur (snd c))
                   (peering_records describe resources))
  /\ (forall w : write,
         In w edges
         <-> exists pcx_id pcx target,
             In (pcx_id, pcx) (peering_records describe resources)
             /\ (target = accepter_owner_id pcx
                 \/ target = requester_owner_id pcx)
             /\ target <> "" /\ target <> cur
             /\ w = MergePeering cur target pcx_id (accepter_vpc_id pcx)
                      (requester_vpc_id pcx) (status_code pcx))
  /\ (forall (pcx_id : string) (pcx : peering),
         peering_records describe resources = [(pcx_id, pcx)] ->
         accepter_owner_id pcx <> "" -> requester_owner_id pcx <> "" ->
         accepter_owner_id pcx <> cur -> requester_owner_id pcx <> cur ->
         edges
         = [MergePeering cur (accepter_owner_id pcx) pcx_id
              (accepter_vpc_id pcx) (requester_vpc_id pcx) (status_code pcx);
            MergePeering cur (requester_owner_id pcx) pcx_id
              (accepter_vpc_id pcx) (requester_vpc_id pcx) (status_code pcx)])
  /\ ((forall (pcx_id : string) (pcx : peering),
          In (pcx_id, pcx) (peering_records describe resources) ->
          accepter_owner_id pcx = cur /\ requester_owner_id pcx = cur) ->
      edges = []).
Proof.
  cbv zeta.
  assert (E : _create_vpc_peering_components a describe resources
              = flat_map
                  (fun c =>
                     side_edge (_get_account_id a) (fst c)
                       (accepter_owner_id (snd c)) (snd c)
                     ++ side_edge (_get_account_id a) (fst c)
                          (requester_owner_id (snd c)) (snd c))
                  (peering_records describe resources)).
  { rewrite peering_components_records. apply flat_map_ext.
    intros c. apply peering_writes_sides. }
  split; [|split; [|split; [exact E|split; [|split; [|split]]]]].
  - intros acct -> Hn. cbn [_get_account_id].
    now rewrite (proj2 (truthy_true_iff acct) Hn).
  - destruct a as [s|]; cbn [account_truthy _get_account_id];
      [|reflexivity].
    now intros ->.
  - rewrite E. clear E.
    induction (peering_records describe resources) as [|c rest IH];
      [reflexivity|].
    cbn [flat_map map list_sum fold_right]. rewrite !length_app, IH.
    unfold foreign_sides, side_edge.
    now destruct (side_differs (_get_account_id a)
                    (accepter_owner_id (snd c))),
      (side_differs (_get_account_id a) (requester_owner_id (snd c))).
  - intros w. rewrite E, in_flat_map. split.
    + intros [[pcx_id pcx] [Hin H]]. cbn [fst snd] in H.
      apply in_app_or in H as [H|H];
        apply side_edge_in in H as [H1 [H2 H3]].
      * exists pcx_id, pcx, (accepter_owner_id pcx). auto 10.
      * exists pcx_id, pcx, (requester_owner_id pcx). auto 10.
    + intros [pcx_id [pcx [target [Hin [Hs [H1 [H2 H3]]]]]]].
      exists (pcx_id, pcx). split; [exact Hin|]. cbn [fst snd].
      apply in_or_app.
      destruct Hs as [->| ->]; [left | right]; apply side_edge_in; auto.
  - intros pcx_id pcx Hr Ha Hq Hac Hqc. rewrite E, Hr.
    cbn [flat_map fst snd]. unfold side_edge.
    rewrite (side_differs_true _ _ Ha Hac), (side_differs_true _ _ Hq Hqc).
    reflexivity.
  - rewrite E. clear E.
    induction (peering_records describe resources) as [|[pcx_id pcx] rest IH];
      intros H; [reflexivity|].
    cbn [flat_map fst snd].
    destruct (H pcx_id pcx (or_introl eq_refl)) as [Ha Hq].
    unfold side_edge at 1 2. rewrite Ha, Hq, side_differs_same.
    cbn [app]. apply IH. intros i p Hin. apply (H i p). now right.
Qed.

Lemma peering_edges_per_side_witness :
  _create_vpc_peering_components (Some "111111111111")
    (fun _ =>
       Some [mkPeering "222222222222" "vpc-a" "333333333333" "vpc-b"
               "active"])
    [("", new_resource "AWS::EC2::VPCPeeringConnection" "pcx-0a1b" "" []
            "us-east-1" "")]
  = [MergePeering "111111111111" "222222222222" "pcx-0a1b" "vpc-a" "vpc-b"
       "active";
     MergePeering "111111111111" "333333333333" "pcx-0a1b" "vpc-a" "vpc-b"
       "active"]
  /\ _create_vpc_peering_components (Some "111111111111")
       (fun _ =>
          Some [mkPeering "111111111111" "vpc-a" "111111111111" "vpc-b"
                  "active"])
       [("", new_resource "AWS::EC2::VPCPeeringConnection" "pcx-0a1b" "" []
               "us-east-1" "")]
     = [].
Proof.
  split.
  - apply (proj1 (proj2 (proj2 (proj2 (proj2 (proj2
             (peering_edges_per_side (Some "111111111111")
                (fun _ =>
                   Some [mkPeering "222222222222" "vpc-a" "333333333333"
                           "vpc-b" "active"])
                [("", new_resource "AWS::EC2::VPCPeeringConnection"
                        "pcx-0a1b" "" [] "us-east-1" "")]))))))
             "pcx-0a1b"
             (mkPeering "222222222222" "vpc-a" "333333333333" "vpc-b"
                "active"));
      [reflexivity | discriminate | discriminate | discriminate
       | discriminate].
  - apply (proj2 (proj2 (proj2 (proj2 (proj2 (proj2
             (peering_edges_per_side (Some "111111111111")
                (fun _ =>
                   Some [mkPeering "111111111111" "vpc-a" "111111111111"
                           "vpc-b" "active"])
                [("", new_resource "AWS::EC2::VPCPeeringConnection"
                        "pcx-0a1b" "" [] "us-east-1" "")]))))))).
    intros pcx_id pcx [H|[]]. injection H as _ <-. split; reflexivity.
Defined.

(** A client that holds no account compares the owners with [unknown]: a
    connection between two VPCs of one account then gives two edges. *)
Example peering_unknown_account :
  _create_vpc_peering_components None
    (fun _ =>
       Some [mkPeering "111111111111" "vpc-a" "111111111111" "vpc-b"
               "active"])
    [("", new_resource "AWS::EC2::VPCPeeringConnection" "pcx-0a1b" "" []
            "us-east-1" "")]
  = [MergePeering "unknown" "111111111111" "pcx-0a1b" "vpc-a" "vpc-b"
       "active";
     MergePeering "unknown" "111111111111" "pcx-0a1b" "vpc-a" "vpc-b"
       "active"].
Proof. reflexivity. Qed.

(** ** Enumeration errors *)

Lemma should_skip_unlisted (sp : pydict (list string)) (rtype msg : string)
  (st : service_stats) :
  type_skipped sp rtype = false ->
  should_skip_resource_type sp rtype msg st
  = if error_matches msg then (true, count_skip st) else (false, st).
Proof.
  unfold should_skip_resource_type, type_skipped, error_matches.
  now intros ->.
Qed.

Lemma error_matches_empty : error_matches "" = false.
Proof. reflexivity. Qed.

(** C6, as the code has it: a [ClientError] of the enumeration is
    classified by its lowered text against the allowlist.  On a match the
    type is skipped: the result is empty and only the skip counter moves.
    Without a match the result is one record of identifier [ERROR] that
    carries the error, and the error counter moves.  Any other exception
    is not classified: it always gives the error record.  The
    classification does not see the case of the text. *)
Theorem client_errors_classified (sp : pydict (list string))
  (rtype : string) (st : service_stats) :
  type_skipped sp rtype = false ->
  (forall code msg : string,
      error_matches msg = true ->
      discover_resource_type sp rtype (RaisedClientError code msg) st
      = ([], count_skip st))
  /\ (forall code msg : string,
         error_matches msg = false ->
         discover_resource_type sp rtype (RaisedClientError code msg) st
         = ([error_resource rtype (code ++ ": " ++ msg)%string],
            count_error st)
         /\ has_error (error_resource rtype (code ++ ": " ++ msg)%string)
            = true
         /\ is_valid (error_resource rtype (code ++ ": " ++ msg)%string)
            = false)
  /\ (forall msg : string,
         discover_resource_type sp rtype (RaisedException msg) st
         = ([error_resource rtype msg], count_error st))
  /\ (forall m1 m2 : string,
         lower m1 = lower m2 -> error_matches m1 = error_matches m2).
Proof.
  intros Hs.
  assert (Hnonempty : forall code msg : string,
             truthy (code ++ ": " ++ msg)%string = true).
  { intros code msg. apply truthy_true_iff.
    destruct code; simpl; discriminate. }
  split; [|split; [|split]].
  - intros code msg Hm. unfold discover_resource_type.
    rewrite (should_skip_unlisted _ _ _ _ Hs), error_matches_empty.
    rewrite (should_skip_unlisted _ _ _ _ Hs), Hm. reflexivity.
  - intros code msg Hm. split; [|split].
    + unfold discover_resource_type.
      rewrite (should_skip_unlisted _ _ _ _ Hs), error_matches_empty.
      rewrite (should_skip_unlisted _ _ _ _ Hs), Hm. reflexivity.
    + unfold has_error, error_resource, new_resource. cbn [error].
      apply Hnonempty.
    + unfold is_valid, has_error, error_resource, new_resource.
      cbn [error identifier]. rewrite Hnonempty. reflexivity.
  - intros msg. unfold discover_resource_type.
    rewrite (should_skip_unlisted _ _ _ _ Hs), error_matches_empty.
    reflexivity.
  - intros m1 m2 H. unfold error_matches. now rewrite H.
Qed.

Lemma client_errors_classified_witness :
  discover_resource_type default_skip_patterns "AWS::S3::Bucket"
    (RaisedClientError "ThrottlingException"
       "An error occurred (ThrottlingException): Rate exceeded")
    (mkStats 3 7 0 3 1)
  = ([], mkStats 3 7 0 3 2)
  /\ discover_resource_type default_skip_patterns "AWS::S3::Bucket"
       (RaisedClientError "AccessDeniedException"
          "An error occurred (AccessDeniedException): not authorized")
       (mkStats 3 7 0 3 1)
     = ([error_resource "AWS::S3::Bucket"
           "AccessDeniedException: An error occurred (AccessDeniedException): not authorized"],
        mkStats 3 7 1 3 1).
Proof.
  destruct (client_errors_classified default_skip_patterns "AWS::S3::Bucket"
              (mkStats 3 7 0 3 1) eq_refl) as [H1 [H2 _]].
  split.
  - apply H1. reflexivity.
  - apply H2. reflexivity.
Defined.

(** C6, as stated, fails on an exception that is not a [ClientError]: its
    text matches the allowlist and the error record is returned all the
    same. *)
Lemma every_error_classified_counterexample :
  ~ every_error_classified_as_stated.
Proof.
  intros H.
  specialize (H default_skip_patterns "AWS::S3::Bucket"
                (RaisedException "Rate exceeded") (mkStats 0 0 0 0 0)
                eq_refl).
  vm_compute in H. discriminate H.
Qed.

(** ** Route rules *)






Lemma route_keys_app (ws1 ws2 : list write) :
  route_keys (ws1 ++ ws2) = route_keys ws1 ++ route_keys ws2.
Proof.
  induction ws1 as [|w ws1 IH]; simpl; [reflexivity|].
  destruct w; simpl; now rewrite IH.
Qed.

Lemma route_keys_targets (props : pydict string)
  (resources : pydict ResourceInfo) :
  route_keys (_create_route_target_relationships props resources) = [].
Proof.
  unfold _create_route_target_relationships.
  induction target_mappings as [|m ms IH]; simpl; [reflexivity|].
  rewrite route_keys_app, IH, app_nil_r.
  unfold route_target_writes.
  destruct (dict_get (fst m) props) as [target_id|]; [|reflexivity].
  destruct (truthy target_id && negb (target_id =? "local")%string);
    [|reflexivity].
  destruct (find_target_arn resources (snd m) target_id) as [ta|];
    [|reflexivity].
  now destruct (truthy ta).
Qed.

Lemma route_keys_rule_writes (region_name account_id : string)
  (resources : pydict ResourceInfo) (route_table_arn route_table_id : string)
  (routes : list route) :
  forall i : nat,
    route_keys (route_rule_writes region_name account_id resources
                  route_table_arn route_table_id i routes)
    = map (route_arn_of region_name account_id route_table_id)
        (seq i (length routes)).
Proof.
  induction routes as [|rt routes IH]; intros i; [reflexivity|].
  cbn [route_rule_writes length seq map app route_keys].
  now rewrite route_keys_app, route_keys_targets, IH.
Qed.











(** A gateway target that is discovered does give its edge. *)
Example route_to_internet_gateway :
  _create_route_target_relationships
    (route_properties_of "us-east-1" "123456789012" "rtb-0f" 1
       [("DestinationCidrBlock", "0.0.0.0/0"); ("GatewayId", "igw-1")])
    [("arn:aws:ec2:us-east-1:123456789012:internet-gateway/igw-1",
      new_resource "AWS::EC2::InternetGateway" "igw-1"
        "arn:aws:ec2:us-east-1:123456789012:internet-gateway/igw-1" []
        "us-east-1" "")]
  = [MergeRoutesTo
       (Some "arn:aws:ec2:us-east-1:123456789012:route/rtb-0f_route_1")
       "InternetGateway"
       "arn:aws:ec2:us-east-1:123456789012:internet-gateway/igw-1"].
Proof. reflexivity. Qed.


(** * Further properties of the code *)

(** ** Flattening twice, and keys met twice *)

Lemma dict_keys_set_in {A : Type} (k k' : string) (v : A) (d : pydict A) :
  In k (dict_keys (dict_set k' v d)) <-> k = k' \/ In k (dict_keys d).
Proof.
  induction d as [|[k0 v0] d IH]; simpl.
  - intuition.
  - destruct (k0 =? k')%string eqn:E; simpl.
    + apply String.eqb_eq in E. subst k0. intuition.
    + rewrite IH. intuition.
Qed.

Lemma dict_set_nodup {A : Type} (k : string) (v : A) (d : pydict A) :
  NoDup (dict_keys d) -> NoDup (dict_keys (dict_set k v d)).
Proof.
  induction d as [|[k0 v0] d IH]; simpl; intros H.
  - repeat constructor. intros [].
  - inversion H as [|? ? Hn Hd]; subst.
    destruct (k0 =? k)%string eqn:E; simpl.
    + apply String.eqb_eq in E. subst k0. now constructor.
    + constructor; [|now apply IH].
      rewrite dict_keys_set_in. intros [->|Hin]; [|now apply Hn].
      now rewrite String.eqb_refl in E.
Qed.

Lemma dict_set_fresh {A : Type} (k : string) (v : A) (d : pydict A) :
  ~ In k (dict_keys d) -> dict_set k v d = d ++ [(k, v)].
Proof.
  induction d as [|[k0 v0] d IH]; simpl; intros H; [reflexivity|].
  destruct (k0 =? k)%string eqn:E.
  - apply String.eqb_eq in E. subst k0. exfalso. apply H. now left.
  - rewrite IH; [reflexivity|]. intros Hin. apply H. now right.
Qed.

Lemma store_leaves_nodup (ls : list (string * value)) :
  forall fl out : pydict value,
    NoDup (dict_keys fl) -> store_leaves ls fl = Some out ->
    NoDup (dict_keys out).
Proof.
  induction ls as [|[k v] ls IH]; intros fl out Hfl H; simpl in H.
  - now injection H as <-.
  - destruct (flat_value v) as [sv|]; [|discriminate].
    apply (IH _ _ (dict_set_nodup k sv fl Hfl) H).
Qed.

Lemma flatten_item_scalar (k : string) (v : value) (fl : pydict value) :
  is_scalar v = true -> flatten_item "" k v fl = Some (dict_set k v fl).
Proof.
  destruct v; try discriminate; reflexivity.
Qed.

(** A dictionary of scalars under distinct keys is stored entry by entry. *)
Lemma flatten_dict_of_scalars (d : pydict value) :
  forall acc : pydict value,
    scalar_values d -> NoDup (dict_keys acc ++ dict_keys d) ->
    flatten_dict d "" acc = Some (acc ++ d).
Proof.
  induction d as [|[k v] d IH]; intros acc Hs Hn.
  - simpl. now rewrite app_nil_r.
  - inversion Hs as [|? ? Hv Hd]; subst. simpl in Hv.
    cbn [flatten_dict]. rewrite (flatten_item_scalar k v acc Hv).
    simpl in Hn. pose proof (NoDup_remove_2 _ _ _ Hn) as Hk.
    rewrite dict_set_fresh
      by (intros Hin; apply Hk; apply in_or_app; now left).
    rewrite (IH (acc ++ [(k, v)]) Hd).
    + now rewrite <- app_assoc.
    + unfold dict_keys in *. rewrite map_app, <- app_assoc. exact Hn.
Qed.

(** The flattened dictionary has no key twice, and flattening it again
    changes nothing: a second pass over stored properties is harmless. *)
Theorem flatten_properties_idempotent (props out : pydict value) :
  _flatten_properties props = Some out ->
  NoDup (dict_keys out) /\ _flatten_properties out = Some out.
Proof.
  intros H.
  assert (Hn : NoDup (dict_keys out)).
  { unfold _flatten_properties in H. rewrite flatten_dict_leaves in H.
    apply (store_leaves_nodup _ [] out (NoDup_nil _) H). }
  assert (Hs : scalar_values out).
  { unfold _flatten_properties in H. rewrite flatten_dict_leaves in H.
    apply (store_leaves_scalar _ [] out (Forall_nil _) H). }
  split; [exact Hn|].
  unfold _flatten_properties.
  now rewrite (flatten_dict_of_scalars out [] Hs Hn).
Qed.

Lemma flatten_properties_idempotent_witness :
  _flatten_properties
    [("Tags_0", VStr "[]"); ("Placement_Zone", VStr "us-east-1a")]
  = Some [("Tags_0", VStr "[]"); ("Placement_Zone", VStr "us-east-1a")].
Proof.
  apply (flatten_properties_idempotent
           [("Tags_0", VList []);
            ("Placement", VDict [("Zone", VStr "us-east-1a")])]).
  reflexivity.
Defined.

Lemma find_app_last {A : Type} (f : A -> bool) (l : list A) (x : A) :
  find f (l ++ [x])
  = match find f l with
    | Some y => Some y
    | None => if f x then Some x else None
    end.
Proof.
  induction l as [|a l IH]; simpl; [reflexivity|].
  destruct (f a); [reflexivity | exact IH].
Qed.

Lemma store_leaves_get (k : string) (ls : list (string * value)) :
  forall fl out : pydict value,
    store_leaves ls fl = Some out ->
    dict_get k out
    = match last_leaf k ls with
      | Some kv => flat_value (snd kv)
      | None => dict_get k fl
      end.
Proof.
  unfold last_leaf.
  induction ls as [|[k0 v0] ls IH]; intros fl out H; simpl in H.
  - now injection H as <-.
  - destruct (flat_value v0) as [sv|] eqn:E; [|discriminate].
    rewrite (IH _ _ H). cbn [rev]. rewrite find_app_last. cbn [fst snd].
    destruct (find (fun kv => (fst kv =? k)%string) (rev ls));
      [reflexivity|].
    destruct (k0 =? k)%string eqn:Ek.
    + apply String.eqb_eq in Ek. subst k0.
      now rewrite dict_get_set_same.
    + apply dict_get_set_other. now apply String.eqb_neq.
Qed.

(** When several paths of the properties join to the same key, the value
    kept under that key is the one of the last such path of the traversal;
    a key no path joins to is absent. *)
Theorem flatten_properties_last_write_wins (props out : pydict value)
  (k : string) :
  _flatten_properties props = Some out ->
  dict_get k out
  = match last_leaf k (leaves props "") with
    | Some kv => flat_value (snd kv)
    | None => None
    end.
Proof.
  intros H. unfold _flatten_properties in H.
  rewrite flatten_dict_leaves in H.
  apply (store_leaves_get k _ [] out H).
Qed.

Lemma flatten_properties_last_write_wins_witness :
  dict_get "a_b"
    [("a_b", VInt 2); ("c", VStr "")]
  = Some (VInt 2).
Proof.
  apply (flatten_properties_last_write_wins
           [("a_b", VInt 1); ("c", VNone); ("a", VDict [("b", VInt 2)])]
           [("a_b", VInt 2); ("c", VStr "")] "a_b").
  reflexivity.
Defined.

(** ** Keys do not collide *)

Lemma append_cancel_l (s x y : string) :
  (s ++ x)%string = (s ++ y)%string -> x = y.
Proof.
  induction s as [|c s IH]; simpl; intros H; [exact H|].
  injection H as H. now apply IH.
Qed.

Lemma lacks_append (c : ascii) (a b : string) :
  lacks c (a ++ b)%string = lacks c a && lacks c b.
Proof.
  induction a as [|x a IH]; simpl; [reflexivity|].
  now rewrite IH, andb_assoc.
Qed.

(** Two strings cut at the first occurrence of a separator character. *)
Lemma append_sep_inj (c : ascii) (a b x y : string) :
  lacks c a = true -> lacks c b = true ->
  (a ++ String c x)%string = (b ++ String c y)%string ->
  a = b /\ x = y.
Proof.
  revert b. induction a as [|p a IH]; intros [|q b] Ha Hb H; simpl in *.
  - injection H as H. now split.
  - injection H as H _. subst q. now rewrite Ascii.eqb_refl in Hb.
  - injection H as H _. subst p. now rewrite Ascii.eqb_refl in Ha.
  - injection H as Hpq H. subst q.
    apply andb_true_iff in Ha as [_ Ha]. apply andb_true_iff in Hb as [_ Hb].
    destruct (IH b Ha Hb H) as [-> ->]. now split.
Qed.

(** Two strings cut at the last occurrence of a separator character. *)
Lemma append_sep_inj_last (c : ascii) (x y a b : string) :
  lacks c a = true -> lacks c b = true ->
  (x ++ String c a)%string = (y ++ String c b)%string ->
  x = y /\ a = b.
Proof.
  revert y. induction x as [|p x IH]; intros [|q y] Ha Hb H; simpl in *.
  - injection H as H. now split.
  - injection H as _ H. subst a.
    rewrite lacks_append in Ha. simpl in Ha.
    rewrite Ascii.eqb_refl in Ha. simpl in Ha.
    now rewrite andb_false_r in Ha.
  - injection H as _ H. subst b.
    rewrite lacks_append in Hb. simpl in Hb.
    rewrite Ascii.eqb_refl in Hb. simpl in Hb.
    now rewrite andb_false_r in Hb.
  - injection H as Hpq H. subst q.
    destruct (IH y Ha Hb H) as [-> ->]. now split.
Qed.

Lemma length_append (a b : string) :
  String.length (a ++ b)%string = (String.length a + String.length b)%nat.
Proof.
  induction a as [|c a IH]; simpl; [reflexivity | now rewrite IH].
Qed.

Lemma string_append_assoc (a b c : string) :
  ((a ++ b) ++ c)%string = (a ++ b ++ c)%string.
Proof.
  induction a as [|x a IH]; simpl; [reflexivity | now rewrite IH].
Qed.

Lemma map_injective_nodup {A B : Type} (f : A -> B) (l : list A) :
  (forall x y, f x = f y -> x = y) -> NoDup l -> NoDup (map f l).
Proof.
  intros Inj H. induction H as [|x l Hx Hl IH]; simpl; constructor;
    [|exact IH].
  intros Hin. apply in_map_iff in Hin as [y [E Hy]].
  apply Inj in E. now subst y.
Qed.

Lemma append_cancel_r (s x y : string) :
  (x ++ s)%string = (y ++ s)%string -> x = y.
Proof.
  intros H.
  assert (L : String.length x = String.length y).
  { apply (f_equal String.length) in H.
    rewrite !length_append in H. lia. }
  revert y H L. induction x as [|p x IH]; intros [|q y] H L;
    simpl in *; try discriminate; [reflexivity|].
  injection H as -> H. injection L as L. now rewrite (IH y H L).
Qed.

(** The composite key tells records apart: with the same account, two
    records whose identifiers and regions hold no colon have the same
    composite key only when they agree on identifier, region part and
    resource type. *)
Theorem composite_id_injective (a : account) (r1 r2 : ResourceInfo) :
  lacks ":" (identifier r1) = true -> lacks ":" (identifier r2) = true ->
  lacks ":" (region r1) = true -> lacks ":" (region r2) = true ->
  composite_id a r1 = composite_id a r2 ->
  identifier r1 = identifier r2
  /\ resource_type r1 = resource_type r2
  /\ (if _is_global_service (service r1) then "global" else region r1)
     = (if _is_global_service (service r2) then "global" else region r2).
Proof.
  intros Hi1 Hi2 Hr1 Hr2 H. unfold composite_id in H.
  apply (append_sep_inj ":" _ _ _ _ Hi1 Hi2) in H as [Hid H].
  apply append_cancel_l in H. injection H as H.
  assert (G1 : lacks ":" (if negb (_is_global_service (service r1))
                          then region r1 else "global") = true)
    by (destruct (_is_global_service (service r1)); [reflexivity | exact Hr1]).
  assert (G2 : lacks ":" (if negb (_is_global_service (service r2))
                          then region r2 else "global") = true)
    by (destruct (_is_global_service (service r2)); [reflexivity | exact Hr2]).
  apply (append_sep_inj ":" _ _ _ _ G1 G2) in H as [Hreg Ht].
  repeat split; try assumption.
  now destruct (_is_global_service (service r1)),
    (_is_global_service (service r2)).
Qed.

Lemma composite_id_injective_witness :
  identifier (new_resource "AWS::EC2::KeyPair" "deploy" "" [] "eu-west-1" "")
  = identifier
      (new_resource "AWS::EC2::KeyPair" "deploy" ""
         [("KeyType", VStr "rsa")] "eu-west-1" "").
Proof.
  apply (composite_id_injective (Some "123456789012")
           (new_resource "AWS::EC2::KeyPair" "deploy" "" [] "eu-west-1" "")
           (new_resource "AWS::EC2::KeyPair" "deploy" ""
              [("KeyType", VStr "rsa")] "eu-west-1" ""));
    reflexivity.
Defined.

Lemma to_uint_not_nil (n : nat) : Nat.to_uint n <> Decimal.Nil.
Proof.
  intros E. pose proof (DecimalNat.Unsigned.of_to n) as H.
  rewrite E in H. simpl in H. subst n. discriminate E.
Qed.

Lemma str_of_nat_injective (i j : nat) : str_of_nat i = str_of_nat j -> i = j.
Proof.
  unfold str_of_nat. intros H.
  apply DecimalNat.Unsigned.to_uint_inj.
  apply (f_equal NilZero.uint_of_string) in H.
  rewrite !NilZero.usu in H by apply to_uint_not_nil.
  now injection H.
Qed.

Lemma digits_lack_underscore (d : Decimal.uint) :
  lacks "_" (NilEmpty.string_of_uint d) = true.
Proof.
  induction d; simpl; auto.
Qed.

Lemma str_of_nat_lacks_underscore (n : nat) : lacks "_" (str_of_nat n) = true.
Proof.
  unfold str_of_nat, NilZero.string_of_uint.
  destruct (Nat.to_uint n); try apply digits_lack_underscore. reflexivity.
Qed.

Lemma route_id_injective (t1 t2 : string) (i j : nat) :
  route_id_of t1 i = route_id_of t2 j -> t1 = t2 /\ i = j.
Proof.
  unfold route_id_of. intros H.
  change (t1 ++ "_route_" ++ str_of_nat i)%string
    with (t1 ++ "_route" ++ String "_" (str_of_nat i))%string in H.
  change (t2 ++ "_route_" ++ str_of_nat j)%string
    with (t2 ++ "_route" ++ String "_" (str_of_nat j))%string in H.
  rewrite <- !string_append_assoc in H.
  apply append_sep_inj_last in H as [H1 H2];
    try apply str_of_nat_lacks_underscore.
  split.
  - now apply append_cancel_r in H1.
  - now apply str_of_nat_injective.
Qed.

(** The synthesized route keys tell routes apart: in one region and
    account, two routes get the same key only when they are the same index
    of the same route table, so the keys of one expansion are pairwise
    distinct. *)
Theorem route_arn_injective (region_name account_id : string) :
  (forall (t1 t2 : string) (i j : nat),
      route_arn_of region_name account_id t1 i
      = route_arn_of region_name account_id t2 j ->
      t1 = t2 /\ i = j)
  /\ (forall (resources : pydict ResourceInfo)
             (route_table_arn route_table_id : string) (routes : list route),
         NoDup (route_keys
                  (route_rule_writes region_name account_id resources
                     route_table_arn route_table_id 0 routes))).
Proof.
  assert (Inj : forall (t1 t2 : string) (i j : nat),
             route_arn_of region_name account_id t1 i
             = route_arn_of region_name account_id t2 j ->
             t1 = t2 /\ i = j).
  { intros t1 t2 i j H. unfold route_arn_of in H.
    apply (append_cancel_l "arn:aws:ec2:") in H.
    apply append_cancel_l in H. apply (append_cancel_l ":") in H.
    apply append_cancel_l in H. apply (append_cancel_l ":route/") in H.
    now apply route_id_injective. }
  split; [exact Inj|].
  intros resources route_table_arn route_table_id routes.
  rewrite route_keys_rule_writes.
  apply map_injective_nodup; [|apply seq_NoDup].
  intros i j H. now destruct (Inj _ _ _ _ H).
Qed.

Lemma route_arn_injective_witness :
  NoDup
    (route_keys
       (route_rule_writes "us-east-1" "123456789012" [] "arn:rtb" "rtb-0f"
          0 [[("GatewayId", "local")]; [("GatewayId", "igw-1")]])).
Proof.
  exact (proj2 (route_arn_injective "us-east-1" "123456789012") []
           "arn:rtb" "rtb-0f"
           [[("GatewayId", "local")]; [("GatewayId", "igw-1")]]).
Defined.

(** ** The indices of the relationship analysis *)

Lemma dict_get_set {A : Type} (k k' : string) (v : A) (d : pydict A) :
  dict_get k (dict_set k' v d)
  = if (k' =? k)%string then Some v else dict_get k d.
Proof.
  destruct (k' =? k)%string eqn:E.
  - apply String.eqb_eq in E. subst k'. apply dict_get_set_same.
  - apply dict_get_set_other. now apply String.eqb_neq.
Qed.

Lemma dict_get_append {A : Type} (i k : string) (r : A)
  (d : pydict (list A)) :
  dict_get i (dict_append k r d)
  = if (k =? i)%string
    then Some (match dict_get k d with Some rs => rs | None => [] end
               ++ [r])
    else dict_get i d.
Proof.
  unfold dict_append.
  destruct (dict_get k d) as [rs|]; rewrite dict_get_set; reflexivity.
Qed.

Lemma arn_index_fold_sound (rs : list ResourceInfo) :
  forall (acc : pydict ResourceInfo) (a : string) (t : ResourceInfo),
    dict_get a
      (fold_left
         (fun acc r =>
            if has_error r then acc
            else if truthy (arn r) then dict_set (arn r) r acc else acc)
         rs acc) = Some t ->
    dict_get a acc = Some t
    \/ (In t rs /\ has_error t = false /\ arn t = a /\ a <> "").
Proof.
  induction rs as [|r rs IH]; intros acc a t H; simpl in H; [now left|].
  apply IH in H as [H|[H1 H2]]; [|right; split; [now right | exact H2]].
  destruct (has_error r) eqn:He; [now left|].
  destruct (truthy (arn r)) eqn:Ht; [|now left].
  rewrite dict_get_set in H.
  destruct (arn r =? a)%string eqn:E; [|now left].
  injection H as <-. apply String.eqb_eq in E. right.
  repeat split; try assumption; [now left|].
  subst a. now apply truthy_true_iff.
Qed.

Lemma arn_index_fold_complete (rs : list ResourceInfo) :
  forall (acc : pydict ResourceInfo) (a : string),
    dict_mem a acc = true
    \/ (exists t, In t rs /\ has_error t = false /\ arn t = a /\ a <> "") ->
    dict_mem a
      (fold_left
         (fun acc r =>
            if has_error r then acc
            else if truthy (arn r) then dict_set (arn r) r acc else acc)
         rs acc) = true.
Proof.
  induction rs as [|r rs IH]; intros acc a H; simpl.
  - destruct H as [H|[t [[] _]]]. exact H.
  - apply IH. destruct H as [H|[t [[<-|Hin] [He [Ha Hn]]]]].
    + left. destruct (has_error r); [exact H|].
      destruct (truthy (arn r)); [|exact H].
      rewrite dict_mem_set, H. apply orb_true_r.
    + left. rewrite He, (proj2 (truthy_true_iff _)) by now rewrite Ha.
      rewrite dict_mem_set, Ha, String.eqb_refl. reflexivity.
    + right. exists t. auto.
Qed.

(** The ARN index resolves an ARN to a resource of the run that has no
    error and that very ARN, and it resolves the ARN of every such
    resource. *)
Theorem arn_index_lookup (resources : list ResourceInfo) (a : string) :
  (forall t : ResourceInfo,
      dict_get a (build_arn_to_resource resources) = Some t ->
      In t resources /\ has_error t = false /\ arn t = a /\ a <> "")
  /\ (forall t : ResourceInfo,
         In t resources -> has_error t = false -> arn t = a -> a <> "" ->
         exists t', dict_get a (build_arn_to_resource resources) = Some t').
Proof.
  split.
  - intros t H. apply arn_index_fold_sound in H as [H|H];
      [discriminate | exact H].
  - intros t Hin He Ha Hn.
    assert (M : dict_mem a (build_arn_to_resource resources) = true).
    { apply arn_index_fold_complete. right. exists t. auto. }
    unfold dict_mem in M.
    destruct (dict_get a (build_arn_to_resource resources)) as [t'|];
      [now exists t' | discriminate].
Qed.

Lemma arn_index_lookup_witness :
  exists t',
    dict_get "arn:aws:s3:::assets" (build_arn_to_resource [own_arn_bucket])
    = Some t'.
Proof.
  apply (proj2 (arn_index_lookup [own_arn_bucket] "arn:aws:s3:::assets")
           own_arn_bucket).
  - left. reflexivity.
  - reflexivity.
  - reflexivity.
  - discriminate.
Defined.

Lemma id_index_fold (i : string) (rs : list ResourceInfo) :
  forall acc : pydict (list ResourceInfo),
    (forall k, dict_get k acc <> Some []) ->
    dict_get i
      (fold_left
         (fun acc r =>
            if has_error r then acc
            else if truthy (identifier r)
            then
              match dict_get (identifier r) acc with
              | Some rs => dict_set (identifier r) (rs ++ [r]) acc
              | None => dict_set (identifier r) [r] acc
              end
            else acc)
         rs acc)
    = match (match dict_get i acc with Some l => l | None => [] end)
            ++ with_identifier i rs with
      | [] => None
      | l => Some l
      end.
Proof.
  induction rs as [|r rs IH]; intros acc Hacc; simpl.
  - rewrite app_nil_r. specialize (Hacc i).
    destruct (dict_get i acc) as [[|x l]|]; try reflexivity.
    now contradiction Hacc.
  - destruct (has_error r) eqn:He; simpl; [now apply IH|].
    destruct (truthy (identifier r)) eqn:Ht; simpl; [|now apply IH].
    change (match dict_get (identifier r) acc with
            | Some rs0 => dict_set (identifier r) (rs0 ++ [r]) acc
            | None => dict_set (identifier r) [r] acc
            end) with (dict_append (identifier r) r acc).
    rewrite IH.
    + rewrite dict_get_append.
      destruct (identifier r =? i)%string eqn:E; [|reflexivity].
      apply String.eqb_eq in E. rewrite E, <- app_assoc. reflexivity.
    + intros k. rewrite dict_get_append.
      destruct (identifier r =? k)%string; [|apply Hacc].
      intros H. injection H as H. now destruct (app_eq_nil _ _ H).
Qed.

(** The identifier index holds, under an identifier, exactly the resources
    of the run without error that have this identifier, in their order;
    an identifier of none of them, or the empty one, is not a key. *)
Theorem id_index_lookup (resources : list ResourceInfo) (i : string) :
  dict_get i (build_id_to_resources resources)
  = match with_identifier i resources with
    | [] => None
    | rs => Some rs
    end.
Proof.
  unfold build_id_to_resources. rewrite id_index_fold; [reflexivity|].
  intros k. discriminate.
Qed.

(** ** What the two scans find *)

Lemma search_arns_dict (resource : ResourceInfo)
  (idx : pydict ResourceInfo) (d : pydict value) (path : string) :
  search_arns resource idx (VDict d) path
  = flat_map
      (fun kv => search_arns_entry resource idx path (fst kv) (snd kv)) d.
Proof.
  cbn [search_arns].
  induction d as [|[key v] rest IH]; [reflexivity|].
  cbn [flat_map fst snd]. rewrite <- IH. reflexivity.
Qed.

Lemma search_arns_list (resource : ResourceInfo)
  (idx : pydict ResourceInfo) (l : list value) (path : string) :
  search_arns resource idx (VList l) path
  = search_arns_elems resource idx path l 0.
Proof.
  cbn [search_arns]. generalize 0%nat as i.
  induction l as [|item rest IH]; intros i; [reflexivity|].
  cbn [search_arns_elems]. now rewrite <- IH.
Qed.

Lemma search_ids_dict (resource : ResourceInfo)
  (idx : pydict (list ResourceInfo)) (d : pydict value) (path : string) :
  search_ids resource idx (VDict d) path
  = flat_map
      (fun kv => search_ids_entry resource idx path (fst kv) (snd kv)) d.
Proof.
  cbn [search_ids].
  induction d as [|[key v] rest IH]; [reflexivity|].
  cbn [flat_map fst snd]. rewrite <- IH. reflexivity.
Qed.

Lemma search_ids_list (resource : ResourceInfo)
  (idx : pydict (list ResourceInfo)) (l : list value) (path : string) :
  search_ids resource idx (VList l) path
  = search_ids_elems resource idx path l 0.
Proof.
  cbn [search_ids]. generalize 0%nat as i.
  induction l as [|item rest IH]; intros i; [reflexivity|].
  cbn [search_ids_elems]. now rewrite <- IH.
Qed.

Lemma search_arns_elems_in (resource : ResourceInfo)
  (idx : pydict ResourceInfo) (path : string) (l : list value) :
  forall (i : nat) (x : string * ResourceInfo),
    In x (search_arns_elems resource idx path l i) ->
    exists item p, In item l /\ In x (search_arns resource idx item p).
Proof.
  induction l as [|item rest IH]; intros i x H; [contradiction|].
  cbn [search_arns_elems] in H. apply in_app_or in H as [H|H].
  - exists item, (path_index path i). split; [now left | exact H].
  - destruct (IH _ _ H) as [it [p [H1 H2]]]. exists it, p.
    split; [now right | exact H2].
Qed.

Lemma search_arns_elems_target (resource : ResourceInfo)
  (idx : pydict ResourceInfo) (path : string) (t : ResourceInfo)
  (item : value) (l : list value) :
  In item l ->
  (forall p, In t (map snd (search_arns resource idx item p))) ->
  forall i, In t (map snd (search_arns_elems resource idx path l i)).
Proof.
  intros Hin Ht. induction l as [|x rest IH]; intros i; [contradiction|].
  cbn [search_arns_elems]. rewrite map_app. apply in_or_app.
  destruct Hin as [->|Hin]; [left; apply Ht | right; now apply IH].
Qed.

Lemma arn_scan_sound (resource : ResourceInfo) (idx : pydict ResourceInfo)
  (obj : value) :
  forall (path : string) (x : string * ResourceInfo),
    In x (search_arns resource idx obj path) ->
    exists s,
      dict_string obj s /\ startswith s "arn:aws:" = true
      /\ dict_get s idx = Some (snd x).
Proof.
  induction obj as [| | | | |l IH|d IH|] using value_ind_nested;
    intros path x H; try contradiction.
  - rewrite search_arns_list in H.
    apply search_arns_elems_in in H as [item [p [Hin H]]].
    rewrite Forall_forall in IH.
    destruct (IH item Hin p x H) as [s [H1 H2]].
    exists s. split; [now apply (ds_list l item) | exact H2].
  - rewrite search_arns_dict in H.
    apply in_flat_map in H as [[key v] [Hin H]]. cbn [fst snd] in H.
    rewrite Forall_forall in IH. specialize (IH (key, v) Hin).
    cbn [snd] in IH.
    destruct v; try contradiction.
    + cbn [search_arns_entry] in H.
      destruct (startswith s "arn:aws:") eqn:Hs; [|contradiction].
      destruct (dict_get s idx) as [t|] eqn:Hg; [|contradiction].
      destruct H as [<-|[]]. exists s.
      split; [now apply (ds_here d key) | now split].
    + destruct (IH _ _ H) as [s [H1 H2]]. exists s.
      split; [now apply (ds_dict d key (VList l)) | exact H2].
    + destruct (IH _ _ H) as [s [H1 H2]]. exists s.
      split; [now apply (ds_dict d key (VDict d0)) | exact H2].
Qed.

Lemma arn_scan_complete (resource : ResourceInfo)
  (idx : pydict ResourceInfo) (obj : value) (s : string) (t : ResourceInfo) :
  dict_string obj s ->
  startswith s "arn:aws:" = true -> dict_get s idx = Some t ->
  forall path, In t (map snd (search_arns resource idx obj path)).
Proof.
  intros Hd Hs Hg.
  induction Hd as [d k s Hin|d k v s Hin Hv IH|l v s Hin Hv IH];
    intros path.
  - rewrite search_arns_dict. apply in_map_iff.
    exists (_determine_usage_relationship resource t (path_key path k) k, t).
    split; [reflexivity|]. apply in_flat_map. exists (k, VStr s).
    split; [exact Hin|]. cbn [fst snd search_arns_entry].
    rewrite Hs, Hg. now left.
  - rewrite search_arns_dict.
    specialize (IH Hs Hg (path_key path k)).
    apply in_map_iff in IH as [x [Hx IH]]. apply in_map_iff.
    exists x. split; [exact Hx|]. apply in_flat_map. exists (k, v).
    split; [exact Hin|]. cbn [fst snd].
    destruct v; try (inversion Hv; fail); exact IH.
  - rewrite search_arns_list.
    apply (search_arns_elems_target resource idx path t v l Hin).
    intros p. now apply IH.
Qed.

(** The ARN scan finds a resource exactly when its ARN, beginning with
    [arn:aws:], is the value of a dictionary entry anywhere in the
    properties and is a key of the index.  A string that is directly the
    element of a list is not looked at. *)
Theorem arn_scan_targets (resource : ResourceInfo)
  (arn_to_resource : pydict ResourceInfo) (t : ResourceInfo) :
  In t (map snd (_find_arn_references resource arn_to_resource))
  <-> exists s,
      dict_string (VDict (properties resource)) s
      /\ startswith s "arn:aws:" = true
      /\ dict_get s arn_to_resource = Some t.
Proof.
  unfold _find_arn_references. split.
  - intros H. apply in_map_iff in H as [x [<- H]].
    now apply (arn_scan_sound resource arn_to_resource _ "" x).
  - intros [s [H1 [H2 H3]]].
    now apply (arn_scan_complete resource arn_to_resource _ s t).
Qed.

(** A role ARN held in a list is missed by the ARN scan. *)
Example arn_in_list_not_followed :
  _find_arn_references
    (new_resource "AWS::IAM::InstanceProfile" "web" "" 
       [("Roles", VList [VStr "arn:aws:iam::123456789012:role/web"])]
       "us-east-1" "")
    [("arn:aws:iam::123456789012:role/web",
      new_resource "AWS::IAM::Role" "web"
        "arn:aws:iam::123456789012:role/web" [] "" "")]
  = [].
Proof. reflexivity. Qed.

Lemma search_ids_elems_in (resource : ResourceInfo)
  (idx : pydict (list ResourceInfo)) (path : string) (l : list value) :
  forall (i : nat) (x : string * ResourceInfo),
    In x (search_ids_elems resource idx path l i) ->
    exists item p, In item l /\ In x (search_ids resource idx item p).
Proof.
  induction l as [|item rest IH]; intros i x H; [contradiction|].
  cbn [search_ids_elems] in H. apply in_app_or in H as [H|H].
  - exists item, (path_index path i). split; [now left|].
    destruct item; try contradiction; exact H.
  - destruct (IH _ _ H) as [it [p [H1 H2]]]. exists it, p.
    split; [now right | exact H2].
Qed.

Lemma dict_string_container (v : value) (s : string) :
  dict_string v s ->
  match v with VDict _ | VList _ => True | _ => False end.
Proof. now destruct 1. Qed.

Lemma search_ids_elems_target (resource : ResourceInfo)
  (idx : pydict (list ResourceInfo)) (path : string) (t : ResourceInfo)
  (item : value) (s : string) (l : list value) :
  In item l -> dict_string item s ->
  (forall p, In t (map snd (search_ids resource idx item p))) ->
  forall i, In t (map snd (search_ids_elems resource idx path l i)).
Proof.
  intros Hin Hd Ht. induction l as [|x rest IH]; intros i; [contradiction|].
  cbn [search_ids_elems]. rewrite map_app. apply in_or_app.
  destruct Hin as [->|Hin]; [left | right; now apply IH].
  pose proof (dict_string_container _ _ Hd) as C.
  destruct item; try contradiction; apply Ht.
Qed.

Lemma id_hits_in (resource : ResourceInfo) (targets : list ResourceInfo)
  (path key : string) (t : ResourceInfo) :
  In t (map snd (id_hits resource targets path key))
  <-> In t targets /\ arn t <> arn resource.
Proof.
  unfold id_hits. rewrite in_map_iff. split.
  - intros [x [<- H]]. apply in_flat_map in H as [u [Hu H]].
    destruct (arn u =? arn resource)%string eqn:E; simpl in H;
      [contradiction|].
    destruct H as [<-|[]]. simpl. split; [exact Hu|].
    now apply String.eqb_neq.
  - intros [Hin Hn].
    exists (_determine_usage_relationship resource t path key, t).
    split; [reflexivity|]. apply in_flat_map. exists t.
    split; [exact Hin|]. apply String.eqb_neq in Hn. rewrite Hn.
    now left.
Qed.

Lemma id_scan_sound (resource : ResourceInfo)
  (idx : pydict (list ResourceInfo)) (obj : value) :
  forall (path : string) (x : string * ResourceInfo),
    In x (search_ids resource idx obj path) ->
    exists s ts,
      dict_string obj s /\ dict_get s idx = Some ts
      /\ In (snd x) ts /\ arn (snd x) <> arn resource.
Proof.
  induction obj as [| | | | |l IH|d IH|] using value_ind_nested;
    intros path x H; try contradiction.
  - rewrite search_ids_list in H.
    apply search_ids_elems_in in H as [item [p [Hin H]]].
    rewrite Forall_forall in IH.
    destruct (IH item Hin p x H) as [s [ts [H1 H2]]].
    exists s, ts. split; [now apply (ds_list l item) | exact H2].
  - rewrite search_ids_dict in H.
    apply in_flat_map in H as [[key v] [Hin H]]. cbn [fst snd] in H.
    rewrite Forall_forall in IH. specialize (IH (key, v) Hin).
    cbn [snd] in IH.
    destruct v; try contradiction.
    + cbn [search_ids_entry] in H.
      destruct (dict_get s idx) as [ts|] eqn:Hg; [|contradiction].
      assert (Hx : In (snd x) (map snd (id_hits resource ts path key)))
        by (apply in_map_iff; now exists x).
      apply id_hits_in in Hx as [Hx1 Hx2]. exists s, ts.
      split; [now apply (ds_here d key) | auto].
    + destruct (IH _ _ H) as [s [ts [H1 H2]]]. exists s, ts.
      split; [now apply (ds_dict d key (VList l)) | exact H2].
    + destruct (IH _ _ H) as [s [ts [H1 H2]]]. exists s, ts.
      split; [now apply (ds_dict d key (VDict d0)) | exact H2].
Qed.

Lemma id_scan_complete (resource : ResourceInfo)
  (idx : pydict (list ResourceInfo)) (obj : value) (s : string)
  (ts : list ResourceInfo) (t : ResourceInfo) :
  dict_string obj s -> dict_get s idx = Some ts -> In t ts ->
  arn t <> arn resource ->
  forall path, In t (map snd (search_ids resource idx obj path)).
Proof.
  intros Hd Hg Ht Hn.
  induction Hd as [d k s Hin|d k v s Hin Hv IH|l v s Hin Hv IH];
    intros path.
  - rewrite search_ids_dict.
    assert (Hx : In t (map snd (id_hits resource ts path k)))
      by (apply id_hits_in; now split).
    apply in_map_iff in Hx as [x [Hx1 Hx2]]. apply in_map_iff.
    exists x. split; [exact Hx1|]. apply in_flat_map. exists (k, VStr s).
    split; [exact Hin|]. cbn [fst snd search_ids_entry]. now rewrite Hg.
  - rewrite search_ids_dict.
    specialize (IH Hg (path_key path k)).
    apply in_map_iff in IH as [x [Hx IH]]. apply in_map_iff.
    exists x. split; [exact Hx|]. apply in_flat_map. exists (k, v).
    split; [exact Hin|]. cbn [fst snd].
    destruct v; try (inversion Hv; fail); exact IH.
  - rewrite search_ids_list.
    apply (search_ids_elems_target resource idx path t v s l Hin Hv).
    intros p. now apply IH.
Qed.

(** The identifier scan finds a resource exactly when some value of a
    dictionary entry of the properties is a key of the index, the resource
    is listed under it, and its ARN is not the source's. *)
Theorem id_scan_targets (resource : ResourceInfo)
  (id_to_resources : pydict (list ResourceInfo)) (t : ResourceInfo) :
  In t (map snd (_find_id_references resource id_to_resources))
  <-> exists s ts,
      dict_string (VDict (properties resource)) s
      /\ dict_get s id_to_resources = Some ts
      /\ In t ts /\ arn t <> arn resource.
Proof.
  unfold _find_id_references. split.
  - intros H. apply in_map_iff in H as [x [<- H]].
    now apply (id_scan_sound resource id_to_resources _ "" x).
  - intros [s [ts [H1 [H2 [H3 H4]]]]].
    now apply (id_scan_complete resource id_to_resources _ s ts t).
Qed.

Lemma with_identifier_in (i : string) (resources : list ResourceInfo)
  (t : ResourceInfo) :
  In t (with_identifier i resources)
  <-> In t resources /\ has_error t = false /\ identifier t = i /\ i <> "".
Proof.
  unfold with_identifier. rewrite filter_In. split.
  - intros [H1 H2]. apply andb_true_iff in H2 as [H2 H3].
    apply andb_true_iff in H2 as [H2 H4].
    apply negb_true_iff in H2. apply String.eqb_eq in H3.
    apply truthy_true_iff in H4. subst i. auto.
  - intros [H1 [H2 [H3 H4]]]. split; [exact H1|].
    subst i. rewrite H2, String.eqb_refl, (proj2 (truthy_true_iff _) H4).
    reflexivity.
Qed.

(** Resolution of references over the indices of a run: the ARN scan of a
    resource finds only resources of the run without error whose ARN is
    held by its properties, and it finds some resource of each such ARN;
    the identifier scan finds exactly the resources of the run without
    error whose identifier is held by its properties and whose ARN is not
    the source's. *)
Theorem references_resolve_within_run (resources : list ResourceInfo)
  (resource : ResourceInfo) :
  (forall t : ResourceInfo,
      In t (map snd (_find_arn_references resource
                       (build_arn_to_resource resources))) ->
      In t resources /\ has_error t = false
      /\ dict_string (VDict (properties resource)) (arn t))
  /\ (forall a : ResourceInfo,
         In a resources -> has_error a = false ->
         startswith (arn a) "arn:aws:" = true ->
         dict_string (VDict (properties resource)) (arn a) ->
         exists t,
           arn t = arn a
           /\ In t (map snd (_find_arn_references resource
                               (build_arn_to_resource resources))))
  /\ (forall t : ResourceInfo,
         In t (map snd (_find_id_references resource
                          (build_id_to_resources resources)))
         <-> In t resources /\ has_error t = false
             /\ identifier t <> ""
             /\ dict_string (VDict (properties resource)) (identifier t)
             /\ arn t <> arn resource).
Proof.
  split; [|split].
  - intros t H. unfold _find_arn_references in H.
    apply in_map_iff in H as [x [<- H]].
    apply (arn_scan_sound resource _ _ "" x) in H as [s [H1 [H2 H3]]].
    apply arn_index_fold_sound in H3 as [H3|[H3 [H4 [H5 _]]]];
      [discriminate|].
    subst s. auto.
  - intros a Hin He Hs Hd.
    assert (Hn : arn a <> "") by (intros E; rewrite E in Hs; discriminate).
    assert (M : dict_mem (arn a) (build_arn_to_resource resources) = true).
    { apply arn_index_fold_complete. right. exists a. auto. }
    unfold dict_mem in M.
    destruct (dict_get (arn a) (build_arn_to_resource resources))
      as [t|] eqn:Ht; [|discriminate].
    exists t. split.
    + apply arn_index_fold_sound in Ht as [Ht|[_ [_ [Ht _]]]];
        [discriminate | exact Ht].
    + unfold _find_arn_references.
      now apply (arn_scan_complete resource _ _ (arn a) t).
  - intros t. unfold _find_id_references, build_id_to_resources. split.
    + intros H. apply in_map_iff in H as [x [<- H]].
      apply (id_scan_sound resource _ _ "" x) in H
        as [s [ts [H1 [H2 [H3 H4]]]]].
      rewrite id_index_fold in H2 by (intros k; discriminate).
      cbn [dict_get app] in H2.
      assert (Hw : In (snd x) (with_identifier s resources)).
      { destruct (with_identifier s resources); [discriminate|].
        injection H2 as <-. exact H3. }
      apply with_identifier_in in Hw as [Hw1 [Hw2 [Hw3 Hw4]]].
      subst s. auto.
    + intros [H1 [H2 [H3 [H4 H5]]]].
      assert (Hw : In t (with_identifier (identifier t) resources))
        by (apply with_identifier_in; auto).
      apply (id_scan_complete resource _ _ (identifier t)
               (with_identifier (identifier t) resources) t);
        try assumption.
      rewrite id_index_fold by (intros k; discriminate).
      cbn [dict_get app].
      destruct (with_identifier (identifier t) resources);
        [contradiction | reflexivity].
Qed.

Lemma references_resolve_within_run_witness :
  In (new_resource "AWS::EC2::Subnet" "subnet-1"
        "arn:aws:ec2:us-east-1:123456789012:subnet/subnet-1" []
        "us-east-1" "")
     (map snd
        (_find_id_references
           (new_resource "AWS::EC2::Instance" "i-0abc"
              "arn:aws:ec2:us-east-1:123456789012:instance/i-0abc"
              [("NetworkInterfaces",
                VList [VDict [("SubnetId", VStr "subnet-1")]])]
              "us-east-1" "")
           (build_id_to_resources
              [new_resource "AWS::EC2::Subnet" "subnet-1"
                 "arn:aws:ec2:us-east-1:123456789012:subnet/subnet-1" []
                 "us-east-1" ""]))).
Proof.
  apply (proj2 (proj2 (references_resolve_within_run
                         [new_resource "AWS::EC2::Subnet" "subnet-1"
                            "arn:aws:ec2:us-east-1:123456789012:subnet/subnet-1"
                            [] "us-east-1" ""]
                         (new_resource "AWS::EC2::Instance" "i-0abc"
                            "arn:aws:ec2:us-east-1:123456789012:instance/i-0abc"
                            [("NetworkInterfaces",
                              VList [VDict [("SubnetId", VStr "subnet-1")]])]
                            "us-east-1" "")))).
  repeat split.
  - left. reflexivity.
  - discriminate.
  - apply (ds_dict _ "NetworkInterfaces"
             (VList [VDict [("SubnetId", VStr "subnet-1")]]));
      [left; reflexivity|].
    apply (ds_list _ (VDict [("SubnetId", VStr "subnet-1")]));
      [left; reflexivity|].
    apply (ds_here _ "SubnetId"). left. reflexivity.
  - discriminate.
Defined.

(** ** The usage edges of a run *)

Section UsageEdges.

(** What holds of every resource an index can answer with. *)
Variable Q : ResourceInfo -> Prop.

Definition rel_ok (rel : string * ResourceInfo) : Prop :=
  In (fst rel) usage_kinds /\ Q (snd rel).

Definition answers_one (idx : pydict ResourceInfo) : Prop :=
  forall k t, dict_get k idx = Some t -> Q t.

Definition answers_many (idx : pydict (list ResourceInfo)) : Prop :=
  forall k ts t, dict_get k idx = Some ts -> In t ts -> Q t.

Lemma determine_usage_kind (source target : ResourceInfo)
  (path key : string) :
  In (_determine_usage_relationship source target path key) usage_kinds.
Proof.
  unfold _determine_usage_relationship, usage_kinds. cbv beta zeta.
  repeat match goal with
         | |- In (if ?c then _ else _) _ => destruct c; [simpl; tauto|]
         end.
  simpl; tauto.
Qed.

Lemma related_ok (kind marker : string) (rs : list ResourceInfo)
  (x : string * ResourceInfo) :
  In kind usage_kinds -> (forall t, In t rs -> Q t) ->
  In x (related kind marker rs) -> rel_ok x.
Proof.
  intros Hk Hq H. unfold related in H.
  apply in_flat_map in H as [t [Ht H]].
  destruct (contains marker (resource_type t)); [|contradiction].
  destruct H as [<-|[]]. split; [exact Hk | now apply Hq].
Qed.

Lemma search_arns_ok (resource : ResourceInfo) (idx : pydict ResourceInfo)
  (obj : value) :
  answers_one idx ->
  forall path x, In x (search_arns resource idx obj path) -> rel_ok x.
Proof.
  intros Hidx.
  induction obj as [| | | | |l IH|d IH|] using value_ind_nested;
    intros path x H; try contradiction.
  - rewrite search_arns_list in H.
    apply search_arns_elems_in in H as [item [p [Hin H]]].
    rewrite Forall_forall in IH. now apply (IH item Hin p).
  - rewrite search_arns_dict in H.
    apply in_flat_map in H as [[key v] [Hin H]]. cbn [fst snd] in H.
    rewrite Forall_forall in IH. specialize (IH (key, v) Hin).
    cbn [snd] in IH.
    destruct v; try contradiction; try (now apply (IH _ _ H)).
    cbn [search_arns_entry] in H.
    destruct (startswith s "arn:aws:"); [|contradiction].
    destruct (dict_get s idx) as [t|] eqn:Hg; [|contradiction].
    destruct H as [<-|[]]. split.
    + apply determine_usage_kind.
    + now apply (Hidx s).
Qed.

Lemma search_ids_ok (resource : ResourceInfo)
  (idx : pydict (list ResourceInfo)) (obj : value) :
  answers_many idx ->
  forall path x, In x (search_ids resource idx obj path) -> rel_ok x.
Proof.
  intros Hidx.
  induction obj as [| | | | |l IH|d IH|] using value_ind_nested;
    intros path x H; try contradiction.
  - rewrite search_ids_list in H.
    apply search_ids_elems_in in H as [item [p [Hin H]]].
    rewrite Forall_forall in IH. now apply (IH item Hin p).
  - rewrite search_ids_dict in H.
    apply in_flat_map in H as [[key v] [Hin H]]. cbn [fst snd] in H.
    rewrite Forall_forall in IH. specialize (IH (key, v) Hin).
    cbn [snd] in IH.
    destruct v; try contradiction; try (now apply (IH _ _ H)).
    cbn [search_ids_entry] in H.
    destruct (dict_get s idx) as [ts|] eqn:Hg; [|contradiction].
    unfold id_hits in H. apply in_flat_map in H as [t [Ht H]].
    destruct (negb (arn t =? arn resource)%string); [|contradiction].
    destruct H as [<-|[]]. split.
    + apply determine_usage_kind.
    + now apply (Hidx s ts).
Qed.

Lemma sg_hits_ok (idx : pydict (list ResourceInfo)) (s : string)
  (x : string * ResourceInfo) :
  answers_many idx -> In x (sg_hits idx s) -> rel_ok x.
Proof.
  intros Hidx H. unfold sg_hits in H.
  destruct (dict_get s idx) as [ts|] eqn:Hg; [|contradiction].
  apply (related_ok "PROTECTED_BY" "SecurityGroup" ts); auto.
  - simpl; tauto.
  - intros t. now apply (Hidx s ts).
Qed.

Lemma find_sgs_ok (idx : pydict (list ResourceInfo)) (obj : value) :
  answers_many idx -> forall x, In x (find_sgs idx obj) -> rel_ok x.
Proof.
  intros Hidx.
  induction obj as [| | | | |l IH|d IH|] using value_ind_nested;
    intros x H; try contradiction.
  - cbn [find_sgs] in H.
    induction IH as [|item rest Hitem _ IHrest]; [contradiction|].
    apply in_app_or in H as [H|H]; [|now apply IHrest].
    destruct item; try contradiction; now apply Hitem.
  - cbn [find_sgs] in H.
    induction IH as [|[key v] rest Hv _ IHrest]; [contradiction|].
    apply in_app_or in H as [H|H]; [|now apply IHrest].
    cbn [snd] in Hv. destruct (str_in key sg_fields).
    + destruct v; try contradiction.
      * now apply (sg_hits_ok idx s).
      * apply in_flat_map in H as [sg [_ H]].
        destruct sg; try contradiction. now apply (sg_hits_ok idx s).
    + destruct v; try contradiction; now apply Hv.
Qed.

Lemma role_hits_ok (idx : pydict (list ResourceInfo)) (s : string)
  (x : string * ResourceInfo) :
  answers_many idx -> In x (role_hits idx s) -> rel_ok x.
Proof.
  intros Hidx H. unfold role_hits in H.
  destruct (dict_get (role_name_of s) idx) as [ts|] eqn:Hg;
    [|contradiction].
  apply (related_ok "ASSUMES" "Role" ts); auto.
  - simpl; tauto.
  - intros t. now apply (Hidx (role_name_of s) ts).
Qed.

Lemma find_roles_ok (idx : pydict (list ResourceInfo)) (obj : value) :
  answers_many idx -> forall x, In x (find_roles idx obj) -> rel_ok x.
Proof.
  intros Hidx.
  induction obj as [| | | | |l IH|d IH|] using value_ind_nested;
    intros x H; try contradiction.
  - cbn [find_roles] in H.
    induction IH as [|item rest Hitem _ IHrest]; [contradiction|].
    apply in_app_or in H as [H|H]; [|now apply IHrest].
    destruct item; try contradiction; now apply Hitem.
  - cbn [find_roles] in H.
    induction IH as [|[key v] rest Hv _ IHrest]; [contradiction|].
    apply in_app_or in H as [H|H]; [|now apply IHrest].
    cbn [snd] in Hv. destruct (str_in key role_fields).
    + destruct v; try contradiction. now apply (role_hits_ok idx s).
    + destruct v; try contradiction; now apply Hv.
Qed.

Lemma policy_hits_ok (idx : pydict ResourceInfo) (s : string)
  (x : string * ResourceInfo) :
  answers_one idx -> In x (policy_hits idx s) -> rel_ok x.
Proof.
  intros Hidx H. unfold policy_hits in H.
  destruct (startswith s "arn:aws:iam"); [|contradiction].
  destruct (dict_get s idx) as [t|] eqn:Hg; [|contradiction].
  destruct H as [<-|[]]. split; [simpl; tauto | now apply (Hidx s)].
Qed.

Lemma find_policies_ok (idx : pydict ResourceInfo) (obj : value) :
  answers_one idx -> forall x, In x (find_policies idx obj) -> rel_ok x.
Proof.
  intros Hidx.
  induction obj as [| | | | |l IH|d IH|] using value_ind_nested;
    intros x H; try contradiction.
  - cbn [find_policies] in H.
    induction IH as [|item rest Hitem _ IHrest]; [contradiction|].
    apply in_app_or in H as [H|H]; [|now apply IHrest].
    destruct item; try contradiction; now apply Hitem.
  - cbn [find_policies] in H.
    induction IH as [|[key v] rest Hv _ IHrest]; [contradiction|].
    apply in_app_or in H as [H|H]; [|now apply IHrest].
    cbn [snd] in Hv.
    destruct (contains "policy" (lower key) || contains "Policy" key).
    + destruct v; try contradiction.
      * now apply (policy_hits_ok idx s).
      * apply in_flat_map in H as [pa [_ H]].
        destruct pa; try contradiction. now apply (policy_hits_ok idx s).
    + destruct v; try contradiction; now apply Hv.
Qed.

Lemma lookup_property_ok (v : option value)
  (idx : pydict (list ResourceInfo)) (ts : list ResourceInfo) :
  answers_many idx -> lookup_property v idx = Some ts ->
  forall t, In t ts -> Q t.
Proof.
  intros Hidx H t Ht. unfold lookup_property in H.
  destruct v as [x|]; [|injection H as <-; contradiction].
  destruct (value_truthy x); [|injection H as <-; contradiction].
  destruct x; try (injection H as <-; contradiction); try discriminate.
  destruct (dict_get s idx) as [rs|] eqn:Hg;
    injection H as <-; [|contradiction].
  now apply (Hidx s rs).
Qed.

Lemma find_vpc_ok (resource : ResourceInfo)
  (idx : pydict (list ResourceInfo)) (vs : list (string * ResourceInfo)) :
  answers_many idx -> _find_vpc_relationships resource idx = Some vs ->
  forall x, In x vs -> rel_ok x.
Proof.
  intros Hidx H x Hx. unfold _find_vpc_relationships in H.
  destruct (properties resource) as [|e props];
    [injection H as <-; contradiction|].
  destruct (lookup_property (dict_get "VpcId" (e :: props)) idx)
    as [ts|] eqn:Hl; [|discriminate].
  injection H as <-.
  apply (related_ok "DEPLOYED_IN" "VPC" ts); auto; [simpl; tauto|].
  now apply (lookup_property_ok (dict_get "VpcId" (e :: props)) idx).
Qed.

Lemma find_subnet_ok (resource : ResourceInfo)
  (idx : pydict (list ResourceInfo)) (ss : list (string * ResourceInfo)) :
  answers_many idx -> _find_subnet_relationships resource idx = Some ss ->
  forall x, In x ss -> rel_ok x.
Proof.
  intros Hidx H x Hx. unfold _find_subnet_relationships in H.
  destruct (properties resource) as [|e props];
    [injection H as <-; contradiction|].
  destruct (lookup_property (dict_get "SubnetId" (e :: props)) idx)
    as [ts|] eqn:Hl; [|discriminate].
  injection H as <-.
  apply (related_ok "DEPLOYED_IN" "Subnet" ts); auto; [simpl; tauto|].
  now apply (lookup_property_ok (dict_get "SubnetId" (e :: props)) idx).
Qed.

Lemma find_security_group_ok (resource : ResourceInfo)
  (idx : pydict (list ResourceInfo)) :
  answers_many idx ->
  forall x, In x (_find_security_group_relationships resource idx) ->
            rel_ok x.
Proof.
  intros Hidx x Hx. unfold _find_security_group_relationships in Hx.
  destruct (properties resource) as [|e props]; [contradiction|].
  exact (find_sgs_ok idx _ Hidx x Hx).
Qed.

Lemma find_role_ok (resource : ResourceInfo)
  (idx : pydict (list ResourceInfo)) :
  answers_many idx ->
  forall x, In x (_find_role_relationships resource idx) -> rel_ok x.
Proof.
  intros Hidx x Hx. unfold _find_role_relationships in Hx.
  destruct (properties resource) as [|e props]; [contradiction|].
  exact (find_roles_ok idx _ Hidx x Hx).
Qed.

Lemma find_policy_ok (resource : ResourceInfo) (idx : pydict ResourceInfo) :
  answers_one idx ->
  forall x, In x (_find_policy_relationships resource idx) -> rel_ok x.
Proof.
  intros Hidx x Hx. unfold _find_policy_relationships in Hx.
  destruct (properties resource) as [|e props]; [contradiction|].
  exact (find_policies_ok idx _ Hidx x Hx).
Qed.

Lemma analyze_resource_usage_ok (resource : ResourceInfo)
  (arn_to_resource : pydict ResourceInfo)
  (id_to_resources name_to_resources : pydict (list ResourceInfo))
  (rels : list (string * ResourceInfo)) :
  answers_one arn_to_resource -> answers_many id_to_resources ->
  answers_many name_to_resources ->
  _analyze_resource_usage resource arn_to_resource id_to_resources
    name_to_resources = Some rels ->
  forall x, In x rels -> rel_ok x.
Proof.
  intros Ha Hi Hn H x Hx. unfold _analyze_resource_usage in H.
  destruct (properties resource) as [|e props];
    [injection H as <-; contradiction|].
  destruct (_find_vpc_relationships resource id_to_resources)
    as [vs|] eqn:Hv; [|discriminate].
  destruct (_find_subnet_relationships resource id_to_resources)
    as [ss|] eqn:Hs; [|discriminate].
  injection H as <-.
  repeat (apply in_app_or in Hx as [Hx|Hx]).
  - exact (search_arns_ok resource arn_to_resource _ Ha "" x Hx).
  - exact (search_ids_ok resource id_to_resources _ Hi "" x Hx).
  - now apply (find_vpc_ok resource id_to_resources vs).
  - now apply (find_security_group_ok resource id_to_resources).
  - now apply (find_subnet_ok resource id_to_resources ss).
  - now apply (find_role_ok resource name_to_resources).
  - now apply (find_policy_ok resource arn_to_resource).
Qed.

End UsageEdges.

Lemma dict_append_answers (Q : ResourceInfo -> Prop) (n : string)
  (r : ResourceInfo) (d : pydict (list ResourceInfo)) :
  Q r -> answers_many Q d -> answers_many Q (dict_append n r d).
Proof.
  intros Hr Hd k ts t Hg Ht. rewrite dict_get_append in Hg.
  destruct (n =? k)%string; [|now apply (Hd k ts)].
  injection Hg as <-. apply in_app_or in Ht as [Ht|[<-|[]]]; [|exact Hr].
  destruct (dict_get n d) as [rs|] eqn:E; [|contradiction].
  now apply (Hd n rs).
Qed.

Lemma name_index_answers (Q : ResourceInfo -> Prop)
  (resources : list ResourceInfo) :
  (forall r, In r resources -> has_error r = false -> Q r) ->
  answers_many Q (build_name_to_resources resources).
Proof.
  unfold build_name_to_resources.
  assert (G : forall (l : list ResourceInfo) acc,
             (forall r, In r l -> has_error r = false -> Q r) ->
             answers_many Q acc ->
             answers_many Q
               (fold_left
                  (fun acc r =>
                     if has_error r then acc
                     else fold_left
                            (fun acc' name_key => dict_append name_key r acc')
                            (_extract_name_keys r) acc)
                  l acc)).
  { induction l as [|r l IH]; intros acc Hl Hacc; [exact Hacc|].
    cbn [fold_left]. apply IH; [intros r' Hr'; apply Hl; now right|].
    destruct (has_error r) eqn:He; [exact Hacc|].
    assert (Hq : Q r) by (apply Hl; [now left | exact He]).
    generalize (_extract_name_keys r) as names. intros names.
    revert acc Hacc. induction names as [|n names IHn]; intros acc Hacc;
      [exact Hacc|].
    cbn [fold_left]. apply IHn. now apply dict_append_answers. }
  intros H. apply G; [exact H|]. intros k ts t Hg. discriminate Hg.
Qed.

Lemma usage_writes_from_ok (Q : ResourceInfo -> Prop)
  (arn_to_resource : pydict ResourceInfo)
  (id_to_resources name_to_resources : pydict (list ResourceInfo))
  (l : list ResourceInfo) (w : write) :
  answers_one Q arn_to_resource -> answers_many Q id_to_resources ->
  answers_many Q name_to_resources ->
  In w (fst (usage_writes_from arn_to_resource id_to_resources
               name_to_resources l)) ->
  exists source rel,
    w = usage_write source rel /\ In source l /\ has_error source = false
    /\ rel_ok Q rel.
Proof.
  intros Ha Hi Hn. induction l as [|r l IH]; intros H; [contradiction|].
  cbn [usage_writes_from] in H.
  destruct (has_error r) eqn:He.
  - destruct (IH H) as [src [rel [H1 [H2 H3]]]].
    exists src, rel. split; [exact H1|]. split; [now right | exact H3].
  - destruct (_analyze_resource_usage r arn_to_resource id_to_resources
                name_to_resources) as [rels|] eqn:E; [|contradiction].
    destruct (usage_writes_from arn_to_resource id_to_resources
                name_to_resources l) as [ws ok].
    cbn [fst] in H, IH. apply in_app_or in H as [H|H].
    + apply in_map_iff in H as [rel [<- Hrel]].
      exists r, rel. repeat split; try assumption; try (now left);
        apply (analyze_resource_usage_ok Q r _ _ _ rels Ha Hi Hn E rel Hrel).
    + destruct (IH H) as [src [rel [H1 [H2 H3]]]].
      exists src, rel. split; [exact H1|]. split; [now right | exact H3].
Qed.

(** Every usage edge written for a run names two resources of the run that
    have no error, by their ARNs under the labels of their types, and its
    relationship type is one of the eleven kinds of [usage_kinds]: LOGS_TO,
    DEPLOYED_IN, PROTECTED_BY, ASSUMES, HAS_POLICY, USES_VOLUME,
    CREATED_FROM, ROUTES_THROUGH, LOAD_BALANCED_BY, CONNECTS_TO and USES. *)
Theorem usage_edges_well_formed (resources : list ResourceInfo) (w : write) :
  In w (fst (_create_resource_relationships resources)) ->
  exists source target rel_type,
    w = MergeUsage (_extract_node_type (resource_type source)) (arn source)
          (_extract_node_type (resource_type target)) (arn target) rel_type
    /\ In source resources /\ has_error source = false
    /\ In target resources /\ has_error target = false
    /\ In rel_type usage_kinds.
Proof.
  intros H. unfold _create_resource_relationships in H.
  apply (usage_writes_from_ok
           (fun t => In t resources /\ has_error t = false)) in H.
  - destruct H as [src [[rel_type target] [H1 [H2 [H3 [H4 [H5 H6]]]]]]].
    exists src, target, rel_type. cbn [fst snd] in *. auto 10.
  - intros k t Hg.
    apply arn_index_fold_sound in Hg as [Hg|[H1 [H2 _]]];
      [discriminate | now split].
  - intros k ts t Hg Ht. unfold build_id_to_resources in Hg.
    rewrite id_index_fold in Hg by (intros k'; discriminate).
    cbn [dict_get app] in Hg.
    assert (Hw : In t (with_identifier k resources)).
    { destruct (with_identifier k resources); [discriminate|].
      injection Hg as <-. exact Ht. }
    now apply with_identifier_in in Hw as [H1 [H2 _]].
  - apply name_index_answers. auto.
Qed.

Lemma usage_edges_well_formed_witness :
  exists source target rel_type,
    MergeUsage "Instance" "arn:aws:ec2:us-east-1:123456789012:instance/i-0abc"
      "Subnet" "arn:aws:ec2:us-east-1:123456789012:subnet/subnet-1"
      "DEPLOYED_IN"
    = MergeUsage (_extract_node_type (resource_type source)) (arn source)
        (_extract_node_type (resource_type target)) (arn target) rel_type
    /\ In source
         [new_resource "AWS::EC2::Instance" "i-0abc"
            "arn:aws:ec2:us-east-1:123456789012:instance/i-0abc"
            [("SubnetId", VStr "subnet-1")] "us-east-1" "";
          new_resource "AWS::EC2::Subnet" "subnet-1"
            "arn:aws:ec2:us-east-1:123456789012:subnet/subnet-1" []
            "us-east-1" ""]
    /\ has_error source = false
    /\ In target
         [new_resource "AWS::EC2::Instance" "i-0abc"
            "arn:aws:ec2:us-east-1:123456789012:instance/i-0abc"
            [("SubnetId", VStr "subnet-1")] "us-east-1" "";
          new_resource "AWS::EC2::Subnet" "subnet-1"
            "arn:aws:ec2:us-east-1:123456789012:subnet/subnet-1" []
            "us-east-1" ""]
    /\ has_error target = false
    /\ In rel_type usage_kinds.
Proof.
  apply (usage_edges_well_formed
           [new_resource "AWS::EC2::Instance" "i-0abc"
              "arn:aws:ec2:us-east-1:123456789012:instance/i-0abc"
              [("SubnetId", VStr "subnet-1")] "us-east-1" "";
            new_resource "AWS::EC2::Subnet" "subnet-1"
              "arn:aws:ec2:us-east-1:123456789012:subnet/subnet-1" []
              "us-east-1" ""]).
  left. reflexivity.
Defined.

(** An instance in a subnet: the identifier scan and the subnet finder
    both report the subnet, so the same edge is merged twice. *)
Example instance_in_subnet_edges :
  _create_resource_relationships
    [new_resource "AWS::EC2::Instance" "i-0abc"
       "arn:aws:ec2:us-east-1:123456789012:instance/i-0abc"
       [("SubnetId", VStr "subnet-1")] "us-east-1" "";
     new_resource "AWS::EC2::Subnet" "subnet-1"
       "arn:aws:ec2:us-east-1:123456789012:subnet/subnet-1" []
       "us-east-1" ""]
  = ([MergeUsage "Instance"
        "arn:aws:ec2:us-east-1:123456789012:instance/i-0abc" "Subnet"
        "arn:aws:ec2:us-east-1:123456789012:subnet/subnet-1" "DEPLOYED_IN";
      MergeUsage "Instance"
        "arn:aws:ec2:us-east-1:123456789012:instance/i-0abc" "Subnet"
        "arn:aws:ec2:us-east-1:123456789012:subnet/subnet-1" "DEPLOYED_IN"],
     true).
Proof. reflexivity. Qed.

(** ** The counters of a service *)

Lemma should_skip_cases (sp : pydict (list string)) (rtype msg : string)
  (st : service_stats) :
  should_skip_resource_type sp rtype msg st
  = if type_skipped sp rtype || error_matches msg
    then (true, count_skip st) else (false, st).
Proof.
  unfold should_skip_resource_type, type_skipped, error_matches.
  destruct (existsb (fun cat => str_in rtype (snd cat)) sp); [reflexivity|].
  cbv zeta. cbn [orb].
  destruct (existsb (fun pattern => contains pattern (lower msg))
              skip_error_patterns); reflexivity.
Qed.

Lemma discover_resource_type_cases (sp : pydict (list string))
  (rtype : string) (run : enumeration) (st : service_stats) :
  discover_resource_type sp rtype run st
  = if type_skipped sp rtype then ([], count_skip st)
    else
      match run with
      | Listed resources => (resources, count_found (length resources) st)
      | RaisedClientError error_code error_msg =>
          if error_matches error_msg then ([], count_skip st)
          else ([error_resource rtype
                   (error_code ++ ": " ++ error_msg)%string],
                count_error st)
      | RaisedException msg => ([error_resource rtype msg], count_error st)
      end.
Proof.
  unfold discover_resource_type. rewrite should_skip_cases.
  rewrite error_matches_empty, orb_false_r.
  destruct (type_skipped sp rtype) eqn:E; [reflexivity|].
  destruct run as [resources|code msg|msg]; try reflexivity.
  rewrite should_skip_cases, E. cbn [orb].
  destruct (error_matches msg); reflexivity.
Qed.

Lemma discover_resource_type_counters (sp : pydict (list string))
  (rtype : string) (run : enumeration) (st : service_stats) :
  let r := discover_resource_type sp rtype run st in
  types_accounted (snd r) = S (types_accounted st)
  /\ (api_calls_made (snd r) + resource_types_discovered st
      = api_calls_made st + resource_types_discovered (snd r))%nat
  /\ (length (fst r) + resources_found st + resources_with_errors st
      = resources_found (snd r) + resources_with_errors (snd r))%nat.
Proof.
  cbv zeta. rewrite discover_resource_type_cases. unfold types_accounted.
  destruct (type_skipped sp rtype); [cbn; lia|].
  destruct run as [resources|code msg|msg]; [cbn; lia| |cbn; lia].
  destruct (error_matches msg); cbn; lia.
Qed.

Lemma discover_types_counters (sp : pydict (list string))
  (calls : list (string * enumeration)) :
  forall (all : list ResourceInfo) (st : service_stats),
    let r :=
      fold_left
        (fun acc call =>
           let '(resources, st1) :=
             discover_resource_type sp (fst call) (snd call) (snd acc) in
           (fst acc ++ resources, st1))
        calls (all, st) in
    (types_accounted (snd r) = types_accounted st + length calls)%nat
    /\ (api_calls_made (snd r) + resource_types_discovered st
        = api_calls_made st + resource_types_discovered (snd r))%nat
    /\ (length (fst r) + resources_found st + resources_with_errors st
        = length all + resources_found (snd r)
          + resources_with_errors (snd r))%nat.
Proof.
  induction calls as [|[rtype run] rest IH]; intros all st; cbv zeta.
  - cbn. lia.
  - cbn [fold_left fst snd].
    pose proof (discover_resource_type_counters sp rtype run st) as H.
    cbv zeta in H.
    destruct (discover_resource_type sp rtype run st) as [rs st1].
    cbn [fst snd] in H.
    specialize (IH (all ++ rs) st1). cbv zeta in IH.
    rewrite length_app in IH. cbn [length]. lia.
Qed.

(** Every resource type handed to the discovery loop of a service is
    counted once, as enumerated, as failed or as skipped; an API call is
    counted for each enumerated type; and the records returned are as many
    as the two resource counters have grown together. *)
Theorem discovery_counters_add_up (sp : pydict (list string))
  (calls : list (string * enumeration)) (st : service_stats) :
  let resources := fst (discover_types sp calls st) in
  let st' := snd (discover_types sp calls st) in
  (resource_types_discovered st' + resources_with_errors st'
   + skipped_resource_types st'
   = resource_types_discovered st + resources_with_errors st
     + skipped_resource_types st + length calls)%nat
  /\ (api_calls_made st' + resource_types_discovered st
      = api_calls_made st + resource_types_discovered st')%nat
  /\ (length resources + resources_found st + resources_with_errors st
      = resources_found st' + resources_with_errors st')%nat.
Proof.
  cbv zeta. unfold discover_types.
  pose proof (discover_types_counters sp calls [] st) as H.
  cbv zeta in H. unfold types_accounted in H. cbn [length] in H.
  exact H.
Qed.

Lemma records_of_call_any_counters (sp : pydict (list string))
  (call : string * enumeration) (st : service_stats) :
  fst (discover_resource_type sp (fst call) (snd call) st)
  = records_of_call sp call.
Proof.
  unfold records_of_call. rewrite !discover_resource_type_cases.
  destruct (type_skipped sp (fst call)); [reflexivity|].
  destruct (snd call) as [resources|code msg|msg]; try reflexivity.
  destruct (error_matches msg); reflexivity.
Qed.

Lemma records_of_silent_call (sp : pydict (list string))
  (call : string * enumeration) :
  silent sp call = true -> records_of_call sp call = [].
Proof.
  unfold silent, records_of_call. rewrite discover_resource_type_cases.
  destruct (type_skipped sp (fst call)); [reflexivity|].
  destruct (snd call) as [resources|code msg|msg]; cbn [orb];
    try discriminate.
  now intros ->.
Qed.

Lemma skipped_of_call (sp : pydict (list string))
  (call : string * enumeration) (st : service_stats) :
  skipped_resource_types
    (snd (discover_resource_type sp (fst call) (snd call) st))
  = (skipped_resource_types st + if silent sp call then 1 else 0)%nat.
Proof.
  unfold silent. rewrite discover_resource_type_cases.
  destruct (type_skipped sp (fst call)); [cbn; lia|].
  destruct (snd call) as [resources|code msg|msg]; cbn [orb];
    [cbn; lia | | cbn; lia].
  destruct (error_matches msg); cbn; lia.
Qed.

Lemma discover_types_fold (sp : pydict (list string))
  (calls : list (string * enumeration)) :
  forall (all : list ResourceInfo) (st : service_stats),
    let r :=
      fold_left
        (fun acc call =>
           let '(resources, st1) :=
             discover_resource_type sp (fst call) (snd call) (snd acc) in
           (fst acc ++ resources, st1))
        calls (all, st) in
    fst r = all ++ flat_map (records_of_call sp) calls
    /\ skipped_resource_types (snd r)
       = (skipped_resource_types st + length (filter (silent sp) calls))%nat.
Proof.
  induction calls as [|call rest IH]; intros all st; cbv zeta.
  - cbn. rewrite app_nil_r. split; [reflexivity | lia].
  - cbn [fold_left fst snd flat_map filter].
    pose proof (records_of_call_any_counters sp call st) as H1.
    pose proof (skipped_of_call sp call st) as H2.
    destruct (discover_resource_type sp (fst call) (snd call) st)
      as [rs st1].
    cbn [fst snd] in H1, H2. subst rs.
    destruct (IH (all ++ records_of_call sp call) st1) as [IH1 IH2].
    rewrite IH1, IH2, H2, <- app_assoc. split; [reflexivity|].
    destruct (silent sp call); cbn [length]; lia.
Qed.

Lemma flat_map_filter_nil {A B : Type} (g : A -> list B) (p : A -> bool)
  (l : list A) :
  (forall x, p x = false -> g x = []) ->
  flat_map g (filter p l) = flat_map g l.
Proof.
  intros H. induction l as [|x l IH]; [reflexivity|].
  cbn [filter flat_map]. destruct (p x) eqn:E.
  - cbn [flat_map]. now rewrite IH.
  - now rewrite (H x E), IH.
Qed.

(** A resource type on a skip list of the service, or one whose
    enumeration fails with a [ClientError] whose text matches a skip
    pattern, leaves no record: the loop returns what it returns without
    these types, whatever the counters are.  The skip counter grows by the
    number of these types. *)
Theorem silent_types_leave_no_record (sp : pydict (list string))
  (calls : list (string * enumeration)) (st st' : service_stats) :
  fst (discover_types sp calls st)
  = fst (discover_types sp (filter (fun c => negb (silent sp c)) calls) st')
  /\ skipped_resource_types (snd (discover_types sp calls st))
     = (skipped_resource_types st
        + length (filter (silent sp) calls))%nat.
Proof.
  unfold discover_types.
  destruct (discover_types_fold sp calls [] st) as [H1 H2].
  destruct (discover_types_fold sp
              (filter (fun c => negb (silent sp c)) calls) [] st')
    as [H3 _].
  cbv zeta in *. rewrite H1, H2, H3. split; [|reflexivity].
  cbn [app]. symmetry. apply flat_map_filter_nil.
  intros c Hc. apply records_of_silent_call.
  now apply negb_false_iff in Hc.
Qed.

(** Two of the types EC2 skips, among others that are enumerated. *)
Example ec2_skip_listed_types :
  fst (discover_types ec2_skip_patterns
         [("AWS::EC2::SecurityGroupIngress",
           Listed [new_resource "AWS::EC2::SecurityGroupIngress" "sgr-1" ""
                     [] "us-east-1" ""]);
          ("AWS::EC2::VPC",
           Listed [new_resource "AWS::EC2::VPC" "vpc-1" "" [] "us-east-1" ""]);
          ("AWS::EC2::VolumeAttachment", RaisedException "boom")]
         (mkStats 0 0 0 0 0))
  = [new_resource "AWS::EC2::VPC" "vpc-1" "" [] "us-east-1" ""].
Proof. reflexivity. Qed.

(** ** The configuration *)

Lemma startswith_bolt (url : string) :
  startswith ("bolt://" ++ url) "bolt://" = true.
Proof. reflexivity. Qed.

(** The connection URI always begins with [bolt://] or [neo4j://], and
    computing it from itself changes nothing. *)
Theorem neo4j_uri_has_scheme (graph_db_url : string) :
  has_scheme (get_neo4j_uri graph_db_url) = true
  /\ get_neo4j_uri (get_neo4j_uri graph_db_url) = get_neo4j_uri graph_db_url.
Proof.
  assert (H : has_scheme (get_neo4j_uri graph_db_url) = true).
  { unfold get_neo4j_uri.
    fold (has_scheme graph_db_url).
    destruct (has_scheme graph_db_url) eqn:E; cbn [negb]; [exact E|].
    unfold has_scheme. now rewrite startswith_bolt. }
  split; [exact H|].
  unfold get_neo4j_uri at 1.
  fold (has_scheme (get_neo4j_uri graph_db_url)). now rewrite H.
Qed.

(** A URL with another scheme is not recognised, and gets [bolt://] put
    before it. *)
Example neo4j_uri_secure_scheme :
  get_neo4j_uri "neo4j+s://db.example.com:7687"
  = "bolt://neo4j+s://db.example.com:7687".
Proof. reflexivity. Qed.

Lemma truthy_lower (s : string) : truthy (lower s) = truthy s.
Proof. now destruct s. Qed.

Lemma filter_filter {A : Type} (p q : A -> bool) (l : list A) :
  filter q (filter p l) = filter (fun x => p x && q x) l.
Proof.
  induction l as [|x l IH]; [reflexivity|].
  cbn [filter]. destruct (p x); cbn [filter andb]; [|exact IH].
  destruct (q x); now rewrite IH.
Qed.

Lemma filter_true {A : Type} (p : A -> bool) (l : list A) :
  (forall x, p x = true) -> filter p l = l.
Proof.
  intros H. induction l as [|x l IH]; [reflexivity|].
  cbn [filter]. now rewrite H, IH.
Qed.

(** The resource types to discover are the configured ones that pass the
    service filter and are not excluded, in their configured order; the
    service filter is read without regard to its case. *)
Theorem filtered_types_selected (resource_types excluded_types : list string)
  (service_filter : option string) :
  get_filtered_resource_types resource_types excluded_types service_filter
  = filter (selected excluded_types service_filter) resource_types
  /\ get_filtered_resource_types resource_types excluded_types
       (option_map lower service_filter)
     = get_filtered_resource_types resource_types excluded_types
         service_filter.
Proof.
  assert (H : forall sf,
             get_filtered_resource_types resource_types excluded_types sf
             = filter (selected excluded_types sf) resource_types).
  { intros sf. unfold get_filtered_resource_types, selected.
    destruct excluded_types as [|e es].
    - cbn [str_in existsb negb].
      destruct sf as [f|].
      + destruct (truthy f); cbn [negb orb].
        * apply filter_ext. intros rt. now rewrite andb_true_r.
        * symmetry. now apply filter_true.
      + symmetry. now apply filter_true.
    - destruct sf as [f|].
      + destruct (truthy f); cbn [negb orb].
        * apply filter_filter.
        * reflexivity.
      + reflexivity. }
  split; [apply H|].
  rewrite !H. apply filter_ext. intros rt. unfold selected.
  destruct service_filter as [f|]; [|reflexivity].
  cbn [option_map]. now rewrite truthy_lower, lower_idempotent.
Qed.

(** A filter given in capitals selects the types of the service, and those
    of every service whose name holds the filter. *)
Example filtered_types_by_service :
  get_filtered_resource_types
    ["AWS::EC2::Instance"; "AWS::S3::Bucket"; "AWS::S3Express::DirectoryBucket";
     "AWS::S3::BucketPolicy"; "AWS::Lambda::Function"]
    ["AWS::S3::BucketPolicy"] (Some "S3")
  = ["AWS::S3::Bucket"; "AWS::S3Express::DirectoryBucket"].
Proof. reflexivity. Qed.

(** ** The statistics of the engine *)

Lemma counter_total_incr (k : string) (c : pydict nat) :
  counter_total (counter_incr k c) = S (counter_total c).
Proof.
  unfold counter_incr, counter_get.
  induction c as [|[k' n] rest IH]; [reflexivity|].
  cbn [dict_get dict_set]. destruct (k' =? k)%string.
  - cbn [counter_total fold_right snd]. lia.
  - cbn [counter_total fold_right snd].
    unfold counter_total in IH. rewrite IH. lia.
Qed.

Lemma final_counters_fold (resources : list ResourceInfo) :
  forall by_service by_region : pydict nat,
    let counters :=
      fold_left
        (fun acc resource =>
           let by_service :=
             if truthy (service resource)
             then counter_incr (service resource) (fst acc)
             else fst acc in
           let region_ :=
             if truthy (region resource) then region resource
             else "global" in
           (by_service, counter_incr region_ (snd acc)))
        resources (by_service, by_region) in
    counter_total (fst counters)
    = (counter_total by_service
       + length (filter (fun r => truthy (service r)) resources))%nat
    /\ counter_total (snd counters)
       = (counter_total by_region + length resources)%nat.
Proof.
  induction resources as [|r rest IH]; intros by_service by_region;
    cbv zeta.
  - cbn [fold_left fst snd filter length]. split; lia.
  - cbn [fold_left fst snd filter].
    match goal with
    | |- context [fold_left ?f rest (?a, ?b)] =>
        destruct (IH a b) as [IH1 IH2]
    end.
    cbv zeta in IH1, IH2. rewrite IH1, IH2, counter_total_incr.
    split; [|cbn [length]; lia].
    destruct (truthy (service r)); [|lia].
    rewrite counter_total_incr. cbn [length]. lia.
Qed.

Lemma count_valid_and_errors (resources : list ResourceInfo) :
  (length (filter is_valid resources) + length (filter has_error resources)
   + length (filter (fun r => negb (truthy (identifier r))
                              && negb (has_error r)) resources)
   = length resources)%nat.
Proof.
  induction resources as [|r rest IH]; [reflexivity|].
  cbn [filter]. unfold is_valid at 1.
  destruct (truthy (identifier r)), (has_error r); cbn [andb negb length];
    lia.
Qed.

(** The final statistics of a run: the total is the number of records; a
    record is valid, or has an error, or has neither an identifier nor an
    error, so valid and failed records together are at most the total; the
    counts by region grow by the total (a record without region counts
    under [global]) and the counts by service by the number of records
    with a service. *)
Theorem final_statistics_consistent (resources : list ResourceInfo)
  (st : Engine.stats) :
  let st' := Engine._update_final_statistics resources st in
  Engine.total_resources st' = length resources
  /\ (Engine.valid_resources st' + Engine.resources_with_errors st'
      + length (filter (fun r => negb (truthy (identifier r))
                                 && negb (has_error r)) resources)
      = Engine.total_resources st')%nat
  /\ counter_total (Engine.resources_by_region st')
     = (counter_total (Engine.resources_by_region st)
        + Engine.total_resources st')%nat
  /\ counter_total (Engine.resources_by_service st')
     = (counter_total (Engine.resources_by_service st)
        + length (filter (fun r => truthy (service r)) resources))%nat.
Proof.
  cbv zeta. unfold Engine._update_final_statistics.
  cbn [Engine.total_resources Engine.valid_resources
       Engine.resources_with_errors Engine.resources_by_region
       Engine.resources_by_service].
  destruct (final_counters_fold resources (Engine.resources_by_service st)
              (Engine.resources_by_region st)) as [H1 H2].
  cbv zeta in H1, H2. unfold Engine.count_if.
  repeat split; [apply count_valid_and_errors | exact H2 | exact H1].
Qed.

Lemma sequential_fold (services : list (string * Engine.service_run)) :
  forall (all : list ResourceInfo) (st : Engine.stats),
    let r :=
      fold_left
        (fun acc svc =>
           let st := snd acc in
           match snd svc with
           | Engine.Discovered resources =>
               (fst acc ++ resources,
                Engine.mkStats (Engine.successful_services st + 1)
                  (Engine.failed_services st)
                  (Engine.total_resources st) (Engine.valid_resources st)
                  (Engine.resources_with_errors st)
                  (Engine.resources_by_service st)
                  (Engine.resources_by_region st) (Engine.errors st))
           | Engine.Failed msg =>
               (fst acc,
                Engine.mkStats (Engine.successful_services st)
                  (Engine.failed_services st + 1)
                  (Engine.total_resources st) (Engine.valid_resources st)
                  (Engine.resources_with_errors st)
                  (Engine.resources_by_service st)
                  (Engine.resources_by_region st)
                  (Engine.errors st ++ [(fst svc ++ ": " ++ msg)%string]))
           end)
        services (all, st) in
    fst r
    = all ++ flat_map
               (fun svc =>
                  match snd svc with
                  | Engine.Discovered resources => resources
                  | Engine.Failed _ => []
                  end) services
    /\ (Engine.successful_services (snd r) + Engine.failed_services (snd r)
        = Engine.successful_services st + Engine.failed_services st
          + length services)%nat
    /\ (length (Engine.errors (snd r)) + Engine.failed_services st
        = length (Engine.errors st) + Engine.failed_services (snd r))%nat.
Proof.
  induction services as [|[name run] rest IH]; intros all st; cbv zeta.
  - cbn. rewrite app_nil_r. repeat split; lia.
  - cbn [fold_left fst snd flat_map length].
    destruct run as [resources|msg].
    + match goal with
      | |- context [fold_left ?f rest (?a, ?b)] =>
          destruct (IH a b) as [IH1 [IH2 IH3]]
      end.
      cbv zeta in IH1, IH2, IH3. rewrite IH1, <- app_assoc.
      cbn [Engine.successful_services Engine.failed_services Engine.errors]
        in IH2, IH3.
      repeat split; lia.
    + match goal with
      | |- context [fold_left ?f rest (?a, ?b)] =>
          destruct (IH a b) as [IH1 [IH2 IH3]]
      end.
      cbv zeta in IH1, IH2, IH3. rewrite IH1.
      cbn [Engine.successful_services Engine.failed_services Engine.errors]
        in IH2, IH3.
      rewrite length_app in IH3. cbn [length] in IH3.
      cbn [app]. repeat split; lia.
Qed.

(** Sequential discovery returns the resources of the services that did
    not fail, in the order of the services; a failing service loses only
    its own resources.  Every service is counted once, as successful or as
    failed, and one error text is kept for each failed service. *)
Theorem sequential_discovery_keeps_successes
  (services : list (string * Engine.service_run)) (st : Engine.stats) :
  let r := Engine._discover_resources_sequential services st in
  fst r
  = flat_map
      (fun svc =>
         match snd svc with
         | Engine.Discovered resources => resources
         | Engine.Failed _ => []
         end) services
  /\ (Engine.successful_services (snd r) + Engine.failed_services (snd r)
      = Engine.successful_services st + Engine.failed_services st
        + length services)%nat
  /\ (length (Engine.errors (snd r)) + Engine.failed_services st
      = length (Engine.errors st) + Engine.failed_services (snd r))%nat.
Proof.
  cbv zeta. unfold Engine._discover_resources_sequential.
  exact (sequential_fold services [] st).
Qed.

(** ** The nodes of a run *)

Lemma graph_valid_is_valid (r : ResourceInfo) :
  negb (has_error r) && is_valid r = is_valid r.
Proof. unfold is_valid. now destruct (has_error r), (truthy (identifier r)). Qed.

Lemma dict_append_cons {A : Type} (k k' : string) (r : A) (v : list A)
  (rest : pydict (list A)) :
  dict_append k r ((k', v) :: rest)
  = if (k' =? k)%string then (k, v ++ [r]) :: rest
    else (k', v) :: dict_append k r rest.
Proof.
  unfold dict_append. cbn [dict_get].
  destruct (k' =? k)%string eqn:E.
  - cbn [dict_set]. now rewrite E.
  - destruct (dict_get k rest); cbn [dict_set]; now rewrite E.
Qed.

Lemma dict_append_members {A : Type} (k : string) (r : A)
  (d : pydict (list A)) :
  Permutation (flat_map snd (dict_append k r d)) (r :: flat_map snd d).
Proof.
  induction d as [|[k' v] rest IH]; [reflexivity|].
  rewrite dict_append_cons. destruct (k' =? k)%string.
  - cbn [flat_map snd]. rewrite <- app_assoc. cbn [app].
    symmetry. apply Permutation_middle.
  - cbn [flat_map snd]. rewrite IH. symmetry. apply Permutation_middle.
Qed.

Lemma dict_append_keys {A : Type} (k : string) (r : A)
  (d : pydict (list A)) :
  NoDup (dict_keys d) -> NoDup (dict_keys (dict_append k r d)).
Proof.
  unfold dict_append. destruct (dict_get k d); apply dict_set_nodup.
Qed.

Lemma groups_fold (resources : list ResourceInfo) :
  forall acc : pydict (list ResourceInfo),
    let groups :=
      fold_left
        (fun acc r =>
           if negb (has_error r) && is_valid r
           then dict_append (resource_type r) r acc
           else acc)
        resources acc in
    Permutation (flat_map snd groups)
      (flat_map snd acc ++ filter is_valid resources)
    /\ (NoDup (dict_keys acc) -> NoDup (dict_keys groups))
    /\ ((forall k, dict_get k acc <> Some []) ->
        forall t,
          dict_get t groups
          = match (match dict_get t acc with Some l => l | None => [] end)
                  ++ filter (fun r => is_valid r
                                      && (resource_type r =? t)%string)
                       resources with
            | [] => None
            | l => Some l
            end).
Proof.
  induction resources as [|r rest IH]; intros acc; cbv zeta.
  - cbn [fold_left filter]. rewrite app_nil_r. repeat split.
    + reflexivity.
    + auto.
    + intros Hacc t. rewrite app_nil_r. specialize (Hacc t).
      destruct (dict_get t acc) as [[|x l]|]; try reflexivity.
      now contradiction Hacc.
  - cbn [fold_left filter]. rewrite graph_valid_is_valid.
    destruct (is_valid r) eqn:Hv; cbn [andb]; [|apply IH].
    destruct (IH (dict_append (resource_type r) r acc)) as [IH1 [IH2 IH3]].
    cbv zeta in IH1, IH2, IH3. repeat split.
    + rewrite IH1, dict_append_members.
      cbn [app]. apply Permutation_middle.
    + intros Hn. apply IH2. now apply dict_append_keys.
    + intros Hacc t. rewrite IH3.
      * rewrite dict_get_append.
        destruct (resource_type r =? t)%string eqn:E; [|reflexivity].
        apply String.eqb_eq in E. rewrite E, <- app_assoc. reflexivity.
      * intros k. rewrite dict_get_append.
        destruct (resource_type r =? k)%string; [|apply Hacc].
        intros H. injection H as H. now destruct (app_eq_nil _ _ H).
Qed.

Lemma flat_map_flat_map {A B C : Type} (f : B -> list C) (g : A -> list B)
  (l : list A) :
  flat_map (fun x => flat_map f (g x)) l = flat_map f (flat_map g l).
Proof.
  induction l as [|x l IH]; [reflexivity|].
  cbn [flat_map]. now rewrite flat_map_app, IH.
Qed.

(** The node writes of a run are, up to their order, those of its valid
    records, one upsert attempt for each; a record with an error or
    without identifier gets none.  The records are written type by type:
    each resource type of a valid record has one group, which holds the
    valid records of that type in discovery order. *)
Theorem node_writes_once_per_valid_resource (a : account)
  (resources : list ResourceInfo) :
  Permutation (node_writes a resources)
    (flat_map (_create_resource_node a) (filter is_valid resources))
  /\ NoDup (dict_keys (resources_by_type_of resources))
  /\ (forall t : string,
         dict_get t (resources_by_type_of resources)
         = match filter (fun r => is_valid r
                                  && (resource_type r =? t)%string)
                   resources with
           | [] => None
           | group => Some group
           end).
Proof.
  unfold node_writes, resources_by_type_of, _add_resources_of_type.
  destruct (groups_fold resources []) as [H1 [H2 H3]]. cbv zeta in *.
  repeat split.
  - rewrite flat_map_flat_map. apply Permutation_flat_map. exact H1.
  - apply H2. constructor.
  - intros t. rewrite H3; [reflexivity|]. intros k. discriminate.
Qed.

(** An error record whose text is empty counts as valid and is written as
    a node named ERROR. *)
Example exception_without_text_becomes_node :
  node_writes (Some "123456789012")
    (fst (discover_resource_type default_skip_patterns "AWS::SQS::Queue"
            (RaisedException "") (mkStats 0 0 0 0 0)))
  = [MergeNode "Queue" "composite_id"
       "ERROR:123456789012::AWS::SQS::Queue"
       [("aws_resource_type", VStr "AWS::SQS::Queue");
        ("identifier", VStr "ERROR"); ("arn", VStr "");
        ("service", VStr "sqs"); ("account_id", VStr "123456789012");
        ("updated_at", VStr "datetime()"); ("region", VStr "");
        ("composite_id", VStr "ERROR:123456789012::AWS::SQS::Queue")];
     MergeOwns "123456789012" "Queue" "composite_id"
       "ERROR:123456789012::AWS::SQS::Queue"].
Proof. reflexivity. Qed.

(** ** The resources handed to the route and peering expansion *)

Lemma resources_dict_fold (a : string) (resources : list ResourceInfo) :
  forall acc : pydict ResourceInfo,
    let d :=
      fold_left
        (fun acc r =>
           if negb (has_error r) && is_valid r then dict_set (arn r) r acc
           else acc)
        resources acc in
    dict_get a d
    = match find (fun r => is_valid r && (arn r =? a)%string)
              (rev resources) with
      | Some r => Some r
      | None => dict_get a acc
      end
    /\ (NoDup (dict_keys acc) -> NoDup (dict_keys d)).
Proof.
  induction resources as [|r rest IH]; intros acc; cbv zeta.
  - cbn. auto.
  - cbn [fold_left rev]. rewrite graph_valid_is_valid, find_app_last.
    match goal with
    | |- context [fold_left ?f rest ?b] =>
        destruct (IH b) as [IH1 IH2]
    end.
    cbv zeta in IH1, IH2. rewrite IH1. split.
    + destruct (find (fun r0 => is_valid r0 && (arn r0 =? a)%string)
                  (rev rest)); [reflexivity|].
      destruct (is_valid r); cbn [andb]; [|reflexivity].
      rewrite dict_get_set. now destruct (arn r =? a)%string.
    + intros Hn. apply IH2. destruct (is_valid r); [|exact Hn].
      now apply dict_set_nodup.
Qed.

(** The dictionary built for the route, transit gateway and peering
    expansion keeps, for each ARN, the last valid record of the run with
    that ARN, and has no key twice.  The empty ARN is a key like any
    other: of the valid records without ARN only the last is kept. *)
Theorem resources_dict_keeps_last_per_arn (resources : list ResourceInfo)
  (a : string) :
  dict_get a (resources_dict_of resources)
  = find (fun r => is_valid r && (arn r =? a)%string) (rev resources)
  /\ NoDup (dict_keys (resources_dict_of resources)).
Proof.
  unfold resources_dict_of.
  destruct (resources_dict_fold a resources []) as [H1 H2].
  cbv zeta in *. split.
  - rewrite H1. cbn [dict_get].
    now destruct (find (fun r => is_valid r && (arn r =? a)%string)
                    (rev resources)).
  - apply H2. constructor.
Qed.

(** Two route tables without ARN: only the second reaches the expansion of
    route tables. *)
Example route_tables_without_arn :
  dict_keys (resources_dict_of
    [new_resource "AWS::EC2::RouteTable" "rtb-1" "" [] "us-east-1" "";
     new_resource "AWS::EC2::RouteTable" "rtb-2" "" [] "us-east-1" ""])
  = [""]
  /\ option_map identifier
       (dict_get ""
          (resources_dict_of
             [new_resource "AWS::EC2::RouteTable" "rtb-1" "" []
                "us-east-1" "";
              new_resource "AWS::EC2::RouteTable" "rtb-2" "" []
                "us-east-1" ""]))
     = Some "rtb-2".
Proof. split; reflexivity. Qed.

(** ** Transit gateway attachments *)

Lemma attachment_writes_in (cur tgw_id : string) (att : vpc_attachment)
  (w : tgw_write) :
  In w (attachment_writes cur tgw_id att)
  <-> get_str "VpcOwnerId" att <> ""
      /\ get_str "VpcOwnerId" att <> cur
      /\ w = MergeTransitGateway cur (get_str "VpcOwnerId" att) tgw_id
               (get_str "TransitGatewayAttachmentId" att)
               (get_str "VpcId" att).
Proof.
  unfold attachment_writes. cbv zeta.
  destruct (truthy (get_str "VpcOwnerId" att)) eqn:Ht;
    destruct (get_str "VpcOwnerId" att =? cur)%string eqn:Ec;
    cbn [andb negb].
  - apply String.eqb_eq in Ec. split; [intros [] | intros [_ [H _]]].
    now elim H.
  - apply truthy_true_iff in Ht. apply String.eqb_neq in Ec. split.
    + intros [<-|[]]. auto.
    + intros [_ [_ ->]]. now left.
  - apply truthy_false_iff in Ht. split; [intros [] | intros [H _]].
    now elim H.
  - apply truthy_false_iff in Ht. split; [intros [] | intros [H _]].
    now elim H.
Qed.

(** The transit gateway edges of a run: one for each VPC attachment, of a
    transit gateway of the run, whose VPC owner is known and is not the
    current account; it goes from the current account to that owner and
    carries the identifiers of the gateway, the attachment and the VPC.
    No edge joins an account with itself. *)
Theorem transit_gateway_edges_cross_account (a : account)
  (describe : string -> option (list vpc_attachment))
  (resources : pydict ResourceInfo) (w : tgw_write) :
  In w (_create_transit_gateway_components a describe resources)
  <-> exists key info attachments att,
      In (key, info) resources
      /\ resource_type info = "AWS::EC2::TransitGateway"
      /\ identifier info <> ""
      /\ describe (identifier info) = Some attachments
      /\ In att attachments
      /\ get_str "VpcOwnerId" att <> ""
      /\ get_str "VpcOwnerId" att <> _get_account_id a
      /\ w = MergeTransitGateway (_get_account_id a)
               (get_str "VpcOwnerId" att) (identifier info)
               (get_str "TransitGatewayAttachmentId" att)
               (get_str "VpcId" att).
Proof.
  unfold _create_transit_gateway_components. rewrite in_flat_map. split.
  - intros [[key info] [Hin H]]. cbn [snd] in H.
    destruct (resource_type info =? "AWS::EC2::TransitGateway")%string
      eqn:Et; [|contradiction].
    destruct (truthy (identifier info)) eqn:Hi; [|contradiction].
    cbn [andb] in H.
    destruct (describe (identifier info)) as [atts|] eqn:Hd;
      [|contradiction].
    apply in_flat_map in H as [att [Ha H]].
    apply attachment_writes_in in H as [H1 [H2 H3]].
    exists key, info, atts, att.
    apply String.eqb_eq in Et. apply truthy_true_iff in Hi. auto 10.
  - intros [key [info [atts [att [Hin [Ht [Hi [Hd [Ha [H1 [H2 H3]]]]]]]]]]].
    exists (key, info). split; [exact Hin|]. cbn [snd].
    rewrite Ht, String.eqb_refl, (proj2 (truthy_true_iff _) Hi), Hd.
    cbn [andb]. apply in_flat_map. exists att. split; [exact Ha|].
    apply attachment_writes_in. auto.
Qed.

(** When the account of the run is unknown, the attachment of a VPC of any
    account counts as foreign. *)
Example transit_gateway_unknown_account :
  _create_transit_gateway_components None
    (fun _ => Some [[("TransitGatewayAttachmentId", "tgw-attach-1");
                     ("VpcId", "vpc-1"); ("VpcOwnerId", "123456789012")]])
    [("", new_resource "AWS::EC2::TransitGateway" "tgw-1" "" []
            "us-east-1" "")]
  = [MergeTransitGateway "unknown" "123456789012" "tgw-1" "tgw-attach-1"
       "vpc-1"].
Proof. reflexivity. Qed.

(** ** The exported statistics *)

Lemma filter_resources_fold (service_filter : option string)
  (resources : list ResourceInfo) :
  forall filtered : list ResourceInfo,
    fold_left
      (fun filtered resource =>
         if has_error resource then filtered
         else if match service_filter with
                 | Some f =>
                     truthy f
                     && negb (contains (lower f) (lower (service resource)))
                 | None => false
                 end
         then filtered
         else filtered ++ [resource])
      resources filtered
    = filtered
      ++ filter
           (fun r =>
              negb (has_error r)
              && negb match service_filter with
                      | Some f =>
                          truthy f
                          && negb (contains (lower f) (lower (service r)))
                      | None => false
                      end)
           resources.
Proof.
  induction resources as [|r rest IH]; intros filtered.
  - cbn. now rewrite app_nil_r.
  - cbn [fold_left filter]. rewrite IH.
    destruct (has_error r); cbn [negb andb]; [reflexivity|].
    destruct (match service_filter with
              | Some f => truthy f
                          && negb (contains (lower f) (lower (service r)))
              | None => false
              end); cbn [negb]; [reflexivity|].
    now rewrite <- app_assoc.
Qed.

Lemma export_counts_total (key : ResourceInfo -> string)
  (resources : list ResourceInfo) :
  forall counts : pydict nat,
    counter_total
      (fold_left (fun counts r => Exporter.count_under (key r) counts)
         resources counts)
    = (counter_total counts + length resources)%nat.
Proof.
  induction resources as [|r rest IH]; intros counts.
  - cbn [fold_left length]. lia.
  - cbn [fold_left length]. rewrite IH.
    change (Exporter.count_under (key r) counts)
      with (counter_incr (key r) counts).
    rewrite counter_total_incr. lia.
Qed.

Lemma filter_none {A : Type} (p : A -> bool) (l : list A) :
  (forall x, In x l -> p x = false) -> filter p l = [].
Proof.
  induction l as [|x l IH]; intros H; [reflexivity|].
  cbn [filter]. rewrite (H x (or_introl eq_refl)).
  apply IH. intros y Hy. apply H. now right.
Qed.

(** The statistics of an export: valid and failed records make up the
    total, and the counts by service and by region each sum to the total.
    A record without identifier counts as valid here, unlike in the
    statistics of the engine.  What is exported has passed
    [filter_resources], which keeps, in their order, the records without
    error whose service name holds the service filter; so the statistics
    written to the file count no error. *)
Theorem export_statistics_consistent (service_filter : option string)
  (resources : list ResourceInfo) :
  let st := Exporter.get_export_statistics resources in
  let filtered := Exporter.filter_resources service_filter resources in
  (Exporter.valid_resources st + Exporter.resources_with_errors st
   = Exporter.total_resources st)%nat
  /\ Exporter.total_resources st = length resources
  /\ Exporter.valid_resources st
     = (length (filter is_valid resources)
        + length (filter (fun r => negb (truthy (identifier r))
                                   && negb (has_error r)) resources))%nat
  /\ counter_total (Exporter.services st) = length resources
  /\ counter_total (Exporter.regions st) = length resources
  /\ filtered
     = filter
         (fun r =>
            negb (has_error r)
            && match service_filter with
               | Some f =>
                   negb (truthy f)
                   || contains (lower f) (lower (service r))
               | None => true
               end)
         resources
  /\ Exporter.resources_with_errors
       (Exporter.get_export_statistics filtered) = 0%nat
  /\ Exporter.valid_resources (Exporter.get_export_statistics filtered)
     = length filtered.
Proof.
  cbv zeta.
  assert (Hf : Exporter.filter_resources service_filter resources
               = filter
                   (fun r =>
                      negb (has_error r)
                      && match service_filter with
                         | Some f =>
                             negb (truthy f)
                             || contains (lower f) (lower (service r))
                         | None => true
                         end)
                   resources).
  { unfold Exporter.filter_resources. rewrite filter_resources_fold.
    cbn [app]. apply filter_ext. intros r. f_equal.
    destruct service_filter as [f|]; [|reflexivity].
    now rewrite negb_andb, negb_involutive. }
  assert (He : length (filter has_error
                         (Exporter.filter_resources service_filter
                            resources)) = 0%nat).
  { rewrite filter_none; [reflexivity|]. intros r Hr.
    rewrite Hf in Hr. apply filter_In in Hr as [_ Hr].
    apply andb_true_iff in Hr as [Hr _]. now apply negb_true_iff in Hr. }
  pose proof (count_valid_and_errors resources) as Hc.
  unfold Exporter.get_export_statistics.
  cbn [Exporter.total_resources Exporter.valid_resources
       Exporter.resources_with_errors Exporter.services Exporter.regions].
  rewrite !export_counts_total, He.
  repeat split; try (cbn [counter_total fold_right]; lia).
  exact Hf.
Qed.

(** ** File names of the individual descriptions *)

Lemma has_char_replace (c old : ascii) (s : string) :
  c <> "_"%char ->
  has_char c (Exporter.replace_char old "_" s)
  = if (c =? old)%char then false else has_char c s.
Proof.
  intros Hc. induction s as [|c' t IH]; cbn [Exporter.replace_char has_char].
  - now destruct (c =? old)%char.
  - rewrite IH. destruct (c' =? old)%char eqn:E1.
    + apply Ascii.eqb_eq in E1. subst c'.
      assert (E2 : ("_" =? c)%char = false)
        by (apply Ascii.eqb_neq; congruence).
      rewrite E2. cbn [orb]. rewrite (Ascii.eqb_sym old c).
      now destruct (c =? old)%char.
    + destruct (c =? old)%char eqn:E2; [|reflexivity].
      apply Ascii.eqb_eq in E2. subst c. rewrite E1. reflexivity.
Qed.

Lemma replace_absent (old new : ascii) (s : string) :
  has_char old s = false -> Exporter.replace_char old new s = s.
Proof.
  induction s as [|c t IH]; cbn [Exporter.replace_char has_char];
    [reflexivity|].
  intros H. apply orb_false_iff in H as [H1 H2].
  now rewrite H1, IH.
Qed.

Lemma replaced_all_absent (l : list ascii) :
  (forall c, In c l -> c <> "_"%char) ->
  forall (s : string) (c : ascii),
    In c l \/ has_char c s = false -> c <> "_"%char ->
    has_char c (fold_left (fun safe c => Exporter.replace_char c "_" safe)
                  l s) = false.
Proof.
  induction l as [|x l IH]; intros Hl s c H Hc; cbn [fold_left].
  - destruct H as [[]|H]. exact H.
  - apply IH; [intros y Hy; apply Hl; now right | | exact Hc].
    destruct H as [[->|H]|H].
    + right. rewrite has_char_replace by exact Hc.
      now rewrite Ascii.eqb_refl.
    + now left.
    + right. rewrite has_char_replace by exact Hc.
      now destruct (c =? x)%char.
Qed.

Lemma replace_all_absent (l : list ascii) (s : string) :
  forallb (fun c => negb (has_char c s)) l = true ->
  fold_left (fun safe c => Exporter.replace_char c "_" safe) l s = s.
Proof.
  induction l as [|x l IH]; cbn [fold_left forallb]; [reflexivity|].
  intros H. apply andb_true_iff in H as [H1 H2].
  apply negb_true_iff in H1. rewrite replace_absent by exact H1.
  now apply IH.
Qed.

Lemma has_char_append (c : ascii) (s t : string) :
  has_char c (s ++ t) = has_char c s || has_char c t.
Proof.
  induction s as [|c' s IH]; cbn [append has_char]; [reflexivity|].
  now rewrite IH, orb_assoc.
Qed.

Lemma has_char_prefix (c : ascii) (m : nat) :
  forall s : string,
    has_char c s = false -> has_char c (substring 0 m s) = false.
Proof.
  induction m as [|m IH]; intros [|c' t] H; try reflexivity.
  cbn [substring has_char] in *.
  apply orb_false_iff in H as [H1 H2]. now rewrite H1, IH.
Qed.

Lemma length_prefix (m : nat) :
  forall s : string,
    (m <= String.length s)%nat -> String.length (substring 0 m s) = m.
Proof.
  induction m as [|m IH]; intros [|c t] H; try reflexivity.
  - cbn [String.length] in H. lia.
  - cbn [substring String.length] in *. rewrite IH; lia.
Qed.

Lemma unsafe_chars_not_underscore (c : ascii) :
  In c Exporter.unsafe_chars -> c <> "_"%char.
Proof.
  intros H E. subst c. cbn in H.
  repeat (destruct H as [H|H]; [discriminate H|]). exact H.
Qed.

(** The file name made from an identifier has at most 100 characters and
    none of the nine replaced characters, and making a file name from it
    again returns it unchanged. *)
Theorem safe_filename_is_safe (identifier : string) :
  (String.length (Exporter._make_safe_filename identifier) <= 100)%nat
  /\ forallb
       (fun c => negb (has_char c (Exporter._make_safe_filename identifier)))
       Exporter.unsafe_chars = true
  /\ Exporter._make_safe_filename (Exporter._make_safe_filename identifier)
     = Exporter._make_safe_filename identifier.
Proof.
  assert (H1 : (String.length (Exporter._make_safe_filename identifier)
                <= 100)%nat).
  { unfold Exporter._make_safe_filename. cbv zeta.
    set (safe := fold_left _ _ _).
    destruct (100 <? String.length safe)%nat eqn:E.
    - apply Nat.ltb_lt in E. rewrite length_append, length_prefix by lia.
      cbn [String.length]. lia.
    - apply Nat.ltb_ge in E. exact E. }
  assert (H2 : forallb
                 (fun c => negb (has_char c
                                   (Exporter._make_safe_filename identifier)))
                 Exporter.unsafe_chars = true).
  { apply forallb_forall. intros c Hc. apply negb_true_iff.
    pose proof (unsafe_chars_not_underscore c Hc) as Hu.
    assert (Hs : has_char c
                   (fold_left
                      (fun safe c => Exporter.replace_char c "_" safe)
                      Exporter.unsafe_chars identifier) = false).
    { apply replaced_all_absent;
        [exact unsafe_chars_not_underscore | now left | exact Hu]. }
    unfold Exporter._make_safe_filename. cbv zeta.
    destruct (100 <? _)%nat; [|exact Hs].
    rewrite has_char_append, has_char_prefix by exact Hs.
    cbn [orb has_char].
    destruct (Ascii.eqb_spec "."%char c) as [<-|_]; [|reflexivity].
    exfalso. cbn in Hc.
    repeat (destruct Hc as [Hc|Hc]; [discriminate Hc|]). exact Hc. }
  repeat split; [exact H1 | exact H2 |].
  unfold Exporter._make_safe_filename at 1. cbv zeta.
  rewrite replace_all_absent by exact H2.
  apply Nat.ltb_ge in H1. now rewrite H1.
Qed.

(** Two identifiers that differ in a replaced character get the same file
    name. *)
Example safe_filename_collision :
  Exporter._make_safe_filename "queue/orders"
  = Exporter._make_safe_filename "queue:orders".
Proof. reflexivity. Qed.

(** ** Failed enumerations and the graph *)

Lemma error_resource_invalid (rtype err : string) :
  err <> "" -> is_valid (error_resource rtype err) = false.
Proof.
  intros H. unfold is_valid, has_error, error_resource, new_resource.
  cbn [error identifier]. rewrite (proj2 (truthy_true_iff err) H).
  apply andb_false_r.
Qed.

(** An enumeration that fails with a [ClientError], or with another
    exception whose text is not empty, puts nothing into the graph: the
    records it leaves are no valid resources, they get no node, and no
    usage edge starts from them. *)
Theorem failed_enumeration_writes_nothing (a : account)
  (sp : pydict (list string)) (rtype : string) (run : enumeration)
  (st : service_stats) :
  match run with
  | Listed _ => False
  | RaisedClientError _ _ => True
  | RaisedException msg => msg <> ""
  end ->
  let records := fst (discover_resource_type sp rtype run st) in
  Engine.valid_resources_of records = []
  /\ node_writes a records = []
  /\ fst (_create_resource_relationships records) = [].
Proof.
  intros H. cbv zeta. rewrite discover_resource_type_cases.
  destruct (type_skipped sp rtype); [now repeat split|].
  destruct run as [resources|code msg|msg]; [contradiction| |].
  - destruct (error_matches msg); [now repeat split|].
    assert (Hn : (code ++ ": " ++ msg)%string <> "")
      by (destruct code; discriminate).
    cbn [fst]. unfold Engine.valid_resources_of, node_writes,
      resources_by_type_of, _create_resource_relationships.
    cbn [filter fold_left].
    rewrite graph_valid_is_valid, (error_resource_invalid _ _ Hn).
    repeat split.
    unfold usage_writes_from, has_error, error_resource, new_resource.
    cbn [error]. now rewrite (proj2 (truthy_true_iff _) Hn).
  - cbn [fst]. unfold Engine.valid_resources_of, node_writes,
      resources_by_type_of, _create_resource_relationships.
    cbn [filter fold_left].
    rewrite graph_valid_is_valid, (error_resource_invalid _ _ H).
    repeat split.
    unfold usage_writes_from, has_error, error_resource, new_resource.
    cbn [error]. now rewrite (proj2 (truthy_true_iff _) H).
Qed.

Lemma failed_enumeration_writes_nothing_witness :
  Engine.valid_resources_of
    (fst (discover_resource_type default_skip_patterns "AWS::SQS::Queue"
            (RaisedException "timed out") (mkStats 0 0 0 0 0))) = []
  /\ node_writes (Some "123456789012")
       (fst (discover_resource_type default_skip_patterns "AWS::SQS::Queue"
               (RaisedException "timed out") (mkStats 0 0 0 0 0))) = []
  /\ fst (_create_resource_relationships
            (fst (discover_resource_type default_skip_patterns
                    "AWS::SQS::Queue" (RaisedException "timed out")
                    (mkStats 0 0 0 0 0)))) = [].
Proof.
  apply (failed_enumeration_writes_nothing (Some "123456789012")
           default_skip_patterns "AWS::SQS::Queue"
           (RaisedException "timed out") (mkStats 0 0 0 0 0)).
  discriminate.
Defined.
